(** * sapapp: the request / version / approval workflow core

    A shallow embedding of the workflow logic of the PEL approval
    application:

    - [server.cjs] (Express + MSSQL back end): the request-id allocator,
      the endpoints that write and read [Requests], [PlantCodeDetails],
      [Approvals] and [HistoryLogs], the users endpoints, and
      [normalizeToEmail] with the company-account gate of the OTP
      endpoints;
    - [src/lib/storage.ts]: the fetch-based client layer over those
      endpoints, with [markRequestCompleted];
    - [ApprovalDashboard]: [getNextStatus], [canApprove], [handleApproval];
      [ITDashboard]: [handleSAPUpdate]; [LoginPage]:
      [normalizeCompanyEmail] and the empty-field guard of
      [handleEmailSubmit];
    - [PlantCodeForm]: [handleSubmit] and the pair-list helpers
      ([appendPair], [listPairs], [removePair]); [CompanyCodeForm]: the
      request-saving step of its [handleSubmit];
    - [RequestDetailsDialog]: [sortedVersions] and the display-time [diff].

    SQL tables are lists of rows; the constraints of the DDL (primary keys,
    foreign keys, CHECK lists) are checked by the statements that insert or
    update, and a violated constraint is the SQL error that the endpoint's
    [catch] turns into a 500 reply.  Instants are milliseconds since the
    epoch ([DATETIME2(3)], JavaScript [Date]).  [PlantCodeDetails] is the
    table its CREATE TABLE declares, column by column and width by width:
    the upsert of the details endpoint names a column the table does not
    have and binds every value as [NVARCHAR(MAX)].  For the other tables
    the parameters are bound at the width of their columns; there the
    widths and the 32-bit range of [INT] are not modelled, and key
    comparison is exact string equality.

    Strings are sequences of UTF-8 bytes.  White space is what ECMAScript
    calls WhiteSpace and LineTerminator, so [trim] and the blank tests
    know the no-break space and the other Unicode spaces; [toLowerCase]
    maps the letters A to Z. *)

From Stdlib Require Import ZArith List String Ascii Bool Lia.
From Stdlib Require Import DecimalString Permutation Sorted.
From Stdlib Require DecimalPos.
Import ListNotations.

Set Warnings "-register-all".

Open Scope Z_scope.
Open Scope string_scope.

(* ================================================================== *)
(** ** JavaScript values and string helpers *)
(* ================================================================== *)

Module JS.

(** A string-valued property that may be absent ([undefined]) or [null]
    is an [option string]. *)

(** [!!x] for such a property: [undefined], [null] and the empty string
    are falsy. *)
Definition truthy (x : option string) : bool :=
  match x with
  | Some s => negb (s =? "")
  | None => false
  end.

(** [x || d] on strings. *)
Definition or_default (x : option string) (d : string) : string :=
  match x with
  | Some s => if s =? "" then d else s
  | None => d
  end.

(** [x || null] *)
Definition or_null (x : option string) : option string :=
  if truthy x then x else None.

(** [x ?? d] on numbers. *)
Definition nullish {A} (x : option A) (d : A) : A :=
  match x with Some v => v | None => d end.

Definition upper_ascii (c : ascii) : ascii :=
  let n := nat_of_ascii c in
  if (Nat.leb 97 n && Nat.leb n 122)%bool then ascii_of_nat (n - 32) else c.

(** [s.toUpperCase()], on the ASCII letters.  No character outside ASCII
    upper-cases to a string that is exactly ["C"], which is all the
    allocator asks of the result. *)
Fixpoint toUpperCase (s : string) : string :=
  match s with
  | EmptyString => EmptyString
  | String c r => String (upper_ascii c) (toUpperCase r)
  end.

(** [s.slice(a, b)] for [0 <= a <= b]. *)
Definition slice (a b : nat) (s : string) : string := substring a (b - a) s.

Fixpoint repeat_string (n : nat) (p : string) : string :=
  match n with
  | O => ""
  | S k => p ++ repeat_string k p
  end.

(** [s.padStart(n, "0")]: pads on the left up to length [n], and leaves a
    string that is already that long alone. *)
Definition padStart0 (n : nat) (s : string) : string :=
  repeat_string (n - String.length s) "0" ++ s.

(** [String(n)] for an integer. *)
Definition String_of_Z (n : Z) : string := NilZero.string_of_int (Z.to_int n).

(** Strings are held as the bytes of their UTF-8 encoding.  The white space
    that [String.prototype.trim] strips is the WhiteSpace and
    LineTerminator of ECMAScript: the six ASCII characters below, U+00A0,
    U+1680, U+2000 to U+200A, U+2028, U+2029, U+202F, U+205F, U+3000 and
    U+FEFF. *)
Definition is_space (c : ascii) : bool :=
  let n := nat_of_ascii c in
  (Nat.eqb n 32 || (Nat.leb 9 n && Nat.leb n 13))%bool.

(** The two bytes of U+00A0. *)
Definition is_space2 (a b : ascii) : bool :=
  (Nat.eqb (nat_of_ascii a) 194 && Nat.eqb (nat_of_ascii b) 160)%bool.

(** The three bytes of U+1680, of U+2000 to U+200A, U+2028, U+2029 and
    U+202F, of U+205F, of U+3000 and of U+FEFF. *)
Definition is_space3 (a b c : ascii) : bool :=
  let x := nat_of_ascii a in
  let y := nat_of_ascii b in
  let z := nat_of_ascii c in
  ((Nat.eqb x 225 && Nat.eqb y 154 && Nat.eqb z 128)
   || (Nat.eqb x 226 && Nat.eqb y 128
       && ((Nat.leb 128 z && Nat.leb z 138)
           || Nat.eqb z 168 || Nat.eqb z 169 || Nat.eqb z 175))
   || (Nat.eqb x 226 && Nat.eqb y 129 && Nat.eqb z 159)
   || (Nat.eqb x 227 && Nat.eqb y 128 && Nat.eqb z 128)
   || (Nat.eqb x 239 && Nat.eqb y 187 && Nat.eqb z 191))%bool.

(** What follows the first character of the string, when that character
    is white space. *)
Definition after_space (s : string) : option string :=
  match s with
  | EmptyString => None
  | String a r =>
      if is_space a then Some r
      else
        match r with
        | EmptyString => None
        | String b r2 =>
            if is_space2 a b then Some r2
            else
              match r2 with
              | EmptyString => None
              | String c r3 => if is_space3 a b c then Some r3 else None
              end
        end
  end.

(** [!s.trim()]: the string holds nothing but white space. *)
Fixpoint blank (s : string) : bool :=
  match s with
  | EmptyString => true
  | String a r =>
      if is_space a then blank r
      else
        match r with
        | EmptyString => false
        | String b r2 =>
            if is_space2 a b then blank r2
            else
              match r2 with
              | EmptyString => false
              | String c r3 => if is_space3 a b c then blank r3 else false
              end
        end
  end.

(** A JSON value (the [metadata] payload of a history entry). *)
Inductive Json : Type :=
| JNull
| JBool (b : bool)
| JNum (n : Z)
| JStr (s : string)
| JArr (items : list Json)
| JObj (props : list (string * Json)).

(** [!!v] for a JSON value. *)
Definition json_truthy (v : Json) : bool :=
  match v with
  | JNull => false
  | JBool b => b
  | JNum n => negb (n =? 0)%Z
  | JStr s => negb (s =? "")
  | JArr _ | JObj _ => true
  end.

(** What an [async] function gives its caller. *)
Inductive Result (A : Type) : Type :=
| Return (a : A)
| Throw (message : string).
Arguments Return {A} a.
Arguments Throw {A} message.

End JS.

Import JS.

(* ================================================================== *)
(** ** server.cjs: schema *)
(* ================================================================== *)

Module Server.

(** [dbo.Requests] *)
Record RequestRow := mkRequestRow {
  r_requestId : string;
  r_type : string;
  r_title : string;
  r_status : string;
  r_createdBy : string;
  r_createdAt : Z;
  r_updatedAt : Z
}.

(** [dbo.PlantCodeDetails]: the key columns, and the value of each of the
    columns that the CREATE TABLE declares after them (the [IDENTITY]
    column [id], which no statement of the handlers names, is left out). *)
Record PlantRow := mkPlantRow {
  p_requestId : string;
  p_version : Z;
  p_columns : list (string * option string)
}.

(** [dbo.Approvals] *)
Record ApprovalRow := mkApprovalRow {
  a_requestId : string;
  a_approverEmail : string;
  a_role : string;
  a_decision : string;
  a_comment : option string;
  a_attachmentId : option string;
  a_timestamp : Z
}.

(** [dbo.HistoryLogs] *)
Record HistoryRow := mkHistoryRow {
  h_requestId : string;
  h_timestamp : Z;
  h_action : string;
  h_user : string;
  (** the value whose [JSON.stringify] text the column holds *)
  h_metadata : option Json
}.

(** [dbo.RequestIdCounters] *)
Record CounterRow := mkCounterRow {
  c_prefix : string;
  c_yyyymmdd : string;
  c_lastSeq : Z
}.

Record Db := mkDb {
  Requests : list RequestRow;
  PlantCodeDetails : list PlantRow;
  Approvals : list ApprovalRow;
  HistoryLogs : list HistoryRow;
  RequestIdCounters : list CounterRow
}.

(** The server process: its database and what it wrote with
    [console.error]. *)
Record World := mkWorld {
  db : Db;
  console : list string
}.

(** What one HTTP call finds outside the database. *)
Record Env := mkEnv {
  (** [CONVERT(CHAR(8), GETDATE(), 112)]: the server-local day, yyyymmdd *)
  today112 : string;
  (** [SYSUTCDATETIME()] *)
  sysutc : Z;
  (** [new Date()] in the node process *)
  node_now : Z;
  (** [new Date()] in the browser *)
  client_now : Z;
  (** the Microsoft Graph mail call throws *)
  mail_throws : bool;
  (** [getUserEmailByRole]: the [email] that
      [SELECT TOP 1 email FROM dbo.Users WHERE role=@r] returns, if any
      (no endpoint of this development writes [dbo.Users]) *)
  user_of_role : string -> option string
}.

(** [ok(res, data)] and [fail(res, status, message)] *)
Inductive Response (A : Type) : Type :=
| ok (data : A)
| fail (status : Z) (message : string).
Arguments ok {A} data.
Arguments fail {A} status message.

Definition CHECK_type : list string := ["plant"; "company"].

Definition CHECK_status : list string :=
  ["draft"; "pending-secretary"; "pending-siva"; "pending-raghu";
   "pending-manoj"; "approved"; "rejected"; "sap-updated"; "completed"].

Definition CHECK_decision : list string := ["approve"; "reject"].

Definition mem (s : string) (l : list string) : bool :=
  existsb (String.eqb s) l.

Definition set_Requests (d : Db) (t : list RequestRow) : Db :=
  mkDb t (PlantCodeDetails d) (Approvals d) (HistoryLogs d)
       (RequestIdCounters d).
Definition set_PlantCodeDetails (d : Db) (t : list PlantRow) : Db :=
  mkDb (Requests d) t (Approvals d) (HistoryLogs d) (RequestIdCounters d).
Definition set_Approvals (d : Db) (t : list ApprovalRow) : Db :=
  mkDb (Requests d) (PlantCodeDetails d) t (HistoryLogs d)
       (RequestIdCounters d).
Definition set_HistoryLogs (d : Db) (t : list HistoryRow) : Db :=
  mkDb (Requests d) (PlantCodeDetails d) (Approvals d) t
       (RequestIdCounters d).
Definition set_RequestIdCounters (d : Db) (t : list CounterRow) : Db :=
  mkDb (Requests d) (PlantCodeDetails d) (Approvals d) (HistoryLogs d) t.

Definition with_db (w : World) (d : Db) : World := mkWorld d (console w).
Definition console_error (w : World) (line : string) : World :=
  mkWorld (db w) (console w ++ [line])%list.

(** [SELECT ... FROM dbo.Requests WHERE requestId=@id] *)
Definition find_request (id : string) (d : Db) : option RequestRow :=
  find (fun r => r_requestId r =? id) (Requests d).

(* ---------------------------------------------------------------- *)
(** *** generateRequestId *)
(* ---------------------------------------------------------------- *)

Definition counter_on (prefix d : string) (c : CounterRow) : bool :=
  ((c_prefix c =? prefix) && (c_yyyymmdd c =? d))%bool.

(** The [MERGE ... WITH (HOLDLOCK)] statement, one atomic statement: the
    new table and the rows of its [OUTPUT inserted.lastSeq] clause. *)
Definition merge_counter (prefix d : string) (t : list CounterRow)
  : list CounterRow * list Z :=
  if existsb (counter_on prefix d) t
  then (map (fun c => if counter_on prefix d c
                      then mkCounterRow (c_prefix c) (c_yyyymmdd c)
                                        (c_lastSeq c + 1)
                      else c) t,
        map (fun c => c_lastSeq c + 1) (filter (counter_on prefix d) t))
  else ((t ++ [mkCounterRow prefix d 1])%list, [1]).

Definition ncPrefix (ncType : option string) : string :=
  if toUpperCase (or_default ncType "N") =? "C" then "C" else "N".

Definition ddmmyyyy_of (yyyymmdd : string) : string :=
  slice 6 8 yyyymmdd ++ slice 4 6 yyyymmdd ++ slice 0 4 yyyymmdd.

Definition generateRequestId (e : Env) (ncType : option string) (d : Db)
  : Result string * Db :=
  let prefix := ncPrefix ncType in
  let '(t, recordset) := merge_counter prefix (today112 e)
                                       (RequestIdCounters d) in
  match recordset with
  | nextSeq :: _ =>
      let seq := padStart0 3 (String_of_Z nextSeq) in
      (Return (prefix ++ "_" ++ ddmmyyyy_of (today112 e) ++ "_" ++ seq),
       set_RequestIdCounters d t)
  | [] =>
      (Throw "Cannot read properties of undefined",
       set_RequestIdCounters d t)
  end.

(** The counter of a (prefix, day): [lastSeq] of the row the primary key
    admits. *)
Definition counter_value (prefix day : string) (d : Db) : option Z :=
  option_map c_lastSeq (find (counter_on prefix day) (RequestIdCounters d)).

(* ---------------------------------------------------------------- *)
(** *** Mail, inside its [try { ... } catch (e) { console.error(...) }] *)
(* ---------------------------------------------------------------- *)

(** [sendStageEmail] and [sendConfirmationEmail] read the database and
    post to Microsoft Graph; they write no table.  Both return early,
    without a mail and without an error, when they find nothing to send;
    when the mail call is reached and throws, the handler's [catch] logs
    and goes on. *)

(** [statusToRole] of [sendStageEmail] *)
Definition statusToRole : list (string * string) :=
  [("pending-secretary", "secretary");
   ("pending-siva", "siva");
   ("pending-raghu", "raghu");
   ("pending-manoj", "manoj");
   ("sap-updated", "it")].

(** [o[k]] on an object literal of strings. *)
Definition prop_of (k : string) (o : list (string * string))
  : option string :=
  option_map snd (find (fun kv => fst kv =? k) o).

(** [sendStageEmail(requestId, newStatus)] gets as far as [sendEmail]:
    [getRequestBundle] finds the request, the status has a role, and
    [getUserEmailByRole] finds an address for the role. *)
Definition stage_mail_goes_out (e : Env) (requestId newStatus : string)
           (d : Db) : bool :=
  match find_request requestId d with
  | None => false
  | Some _ =>
      match prop_of newStatus statusToRole with
      | None => false
      | Some role => truthy (user_of_role e role)
      end
  end.

(** [sendConfirmationEmail(requestId)] gets as far as [sendEmail]:
    [getRequestBundle] finds the request. *)
Definition confirmation_mail_goes_out (requestId : string) (d : Db)
  : bool :=
  match find_request requestId d with
  | None => false
  | Some _ => true
  end.

(** The [try]/[catch] around a mail function that gets as far as
    [sendEmail] or does not. *)
Definition try_mail (e : Env) (goes_out : bool) (label : string)
           (w : World) : World :=
  if (goes_out && mail_throws e)%bool then console_error w label else w.

(* ---------------------------------------------------------------- *)
(** *** POST /api/requests *)
(* ---------------------------------------------------------------- *)

Record RequestBody := mkRequestBody {
  rb_requestId : option string;
  rb_type : option string;
  rb_title : option string;
  rb_status : option string;
  rb_createdBy : option string;
  rb_createdAt : option Z;
  rb_updatedAt : option Z;
  rb_ncType : option string
}.

Definition has_request (id : string) (t : list RequestRow) : bool :=
  existsb (fun r => r_requestId r =? id) t.

(** [IF EXISTS (...) UPDATE ... ELSE INSERT ...] on [dbo.Requests]. *)
Definition upsert_request (e : Env) (requestId type title status
                                     createdBy : string)
           (createdAt updatedAt : option Z) (t : list RequestRow)
  : Result (list RequestRow) :=
  if has_request requestId t then
    if (mem type CHECK_type && mem status CHECK_status)%bool then
      Return (map (fun r =>
                     if r_requestId r =? requestId
                     then mkRequestRow (r_requestId r) type title status
                                       createdBy (r_createdAt r)
                                       (nullish updatedAt (sysutc e))
                     else r) t)
    else Throw "The UPDATE statement conflicted with the CHECK constraint"
  else
    if (mem type CHECK_type && mem status CHECK_status)%bool then
      Return (t ++ [mkRequestRow requestId type title status createdBy
                                 (nullish createdAt (sysutc e))
                                 (nullish updatedAt (sysutc e))])%list
    else Throw "The INSERT statement conflicted with the CHECK constraint".

Definition post_requests (e : Env) (b : RequestBody) (w : World)
  : Response string * World :=
  if (negb (truthy (rb_type b)) || negb (truthy (rb_title b))
      || negb (truthy (rb_status b)) || negb (truthy (rb_createdBy b)))%bool
  then (fail 400 "type, title, status, createdBy are required", w)
  else
    let type := nullish (rb_type b) "" in
    let title := nullish (rb_title b) "" in
    let status := nullish (rb_status b) "" in
    let createdBy := nullish (rb_createdBy b) "" in
    let '(rid, d1) :=
      if truthy (rb_requestId b)
      then (Return (nullish (rb_requestId b) ""), db w)
      else generateRequestId e (rb_ncType b) (db w) in
    match rid with
    | Throw _ => (fail 500 "Failed to save request", with_db w d1)
    | Return requestId =>
        let prevStatus :=
          or_null (option_map r_status (find_request requestId d1)) in
        match upsert_request e requestId type title status createdBy
                             (rb_createdAt b) (rb_updatedAt b)
                             (Requests d1) with
        | Throw _ => (fail 500 "Failed to save request", with_db w d1)
        | Return t =>
            let w1 := with_db w (set_Requests d1 t) in
            let differs :=
              match prevStatus with
              | Some p => negb (p =? status)
              | None => true
              end in
            let w2 := if differs
                      then try_mail e
                             (stage_mail_goes_out e requestId status
                                                  (db w1))
                             "sendStageEmail (create) failed:" w1
                      else w1 in
            (ok requestId, w2)
        end
    end.

(* ---------------------------------------------------------------- *)
(** *** PATCH /api/requests/:id/status *)
(* ---------------------------------------------------------------- *)

Definition patch_request_status (e : Env) (id : string)
           (status : option string) (w : World)
  : Response (string * string) * World :=
  if negb (truthy status) then (fail 400 "status is required", w)
  else
    let st := nullish status "" in
    let t := Requests (db w) in
    if (has_request id t && negb (mem st CHECK_status))%bool
    then (fail 500 "Failed to update status", w)
    else
      let t' := map (fun r =>
                       if r_requestId r =? id
                       then mkRequestRow (r_requestId r) (r_type r)
                                         (r_title r) st (r_createdBy r)
                                         (r_createdAt r) (sysutc e)
                       else r) t in
      let w1 := with_db w (set_Requests (db w) t') in
      (ok (id, st),
       try_mail e (stage_mail_goes_out e id st (db w1))
                "sendStageEmail failed:" w1).

(* ---------------------------------------------------------------- *)
(** *** POST /api/plant-details (UPSERT) *)
(* ---------------------------------------------------------------- *)

(** The JSON body: [requestId], [version] and the other own properties,
    each a string or [null] (a JSON object, so no key twice). *)
Record PlantBody := mkPlantBody {
  pb_requestId : option string;
  pb_version : option Z;
  pb_fields : list (string * option string)
}.

(** [d[k]]: [None] is [undefined], [Some None] is [null]. *)
Definition body_get (b : PlantBody) (k : string) : option (option string) :=
  option_map snd (find (fun kv => fst kv =? k) (pb_fields b)).

(** [d[k] == null || d[k] === ""] *)
Definition is_missing (v : option (option string)) : bool :=
  match v with
  | Some (Some s) => s =? ""
  | _ => true
  end.

(** The loop over [required]: the first key that is missing. *)
Definition first_missing (b : PlantBody) : option string :=
  if negb (truthy (pb_requestId b)) then Some "requestId"
  else match pb_version b with
       | None => Some "version"
       | Some _ =>
           find (fun k => is_missing (body_get b k))
                ["companyCode"; "plantCode"; "nameOfPlant"]
       end.

(** The keys that the loop over [Object.entries(d)] binds as
    [NVarChar] inputs. *)
Definition plant_inputs : list string :=
  ["companyCode"; "gstNumber"; "plantCode"; "nameOfPlant";
   "addressOfPlant"; "purchaseOrganization";
   "nameOfPurchaseOrganization"; "salesOrganization";
   "nameOfSalesOrganization"; "profitCenter"; "nameOfProfitCenter";
   "costCenters"; "nameOfCostCenters"; "projectCode";
   "projectCodeDescription"; "storageLocationCode";
   "storageLocationDescription"; "gstCertificate"].

(** The columns the statement sets, each from the parameter of its
    name.  ([gstNumber] is among them; [plant_table] below does not have
    it.) *)
Definition plant_columns : list string :=
  ["companyCode"; "gstNumber"; "gstCertificate"; "plantCode";
   "nameOfPlant"; "addressOfPlant"; "purchaseOrganization";
   "nameOfPurchaseOrganization"; "salesOrganization";
   "nameOfSalesOrganization"; "profitCenter"; "nameOfProfitCenter";
   "costCenters"; "nameOfCostCenters"; "projectCode";
   "projectCodeDescription"; "storageLocationCode";
   "storageLocationDescription"].

(** The value bound to [@k] ([v ?? null]), when the loop bound it. *)
Definition bound_input (b : PlantBody) (k : string)
  : option (option string) :=
  if mem k plant_inputs then body_get b k else None.

Definition plant_key (requestId : string) (version : Z) (p : PlantRow)
  : bool :=
  ((p_requestId p =? requestId) && (p_version p =? version)%Z)%bool.

(** The columns that [CREATE TABLE dbo.PlantCodeDetails] declares after
    [id], [requestId] and [version], each with the [n] of its
    [NVARCHAR(n)]. *)
Definition plant_table : list (string * nat) :=
  [("companyCode", 50); ("gstCertificate", 200); ("plantCode", 50);
   ("nameOfPlant", 200); ("addressOfPlant", 500);
   ("purchaseOrganization", 50); ("nameOfPurchaseOrganization", 200);
   ("salesOrganization", 50); ("nameOfSalesOrganization", 200);
   ("profitCenter", 50); ("nameOfProfitCenter", 200);
   ("costCenters", 200); ("nameOfCostCenters", 200);
   ("projectCode", 50); ("projectCodeDescription", 200);
   ("storageLocationCode", 50); ("storageLocationDescription", 200)]%nat.

Definition has_column (table : list (string * nat)) (k : string) : bool :=
  existsb (fun c => fst c =? k) table.

Definition width_in (table : list (string * nat)) (k : string) : nat :=
  match find (fun c => fst c =? k) table with
  | Some c => snd c
  | None => O
  end.

(** The length that [NVARCHAR(n)] counts: the UTF-16 code units of the
    string, read off the lead bytes of its UTF-8 encoding. *)
Fixpoint utf16_length (s : string) : nat :=
  match s with
  | EmptyString => O
  | String c r =>
      let n := nat_of_ascii c in
      ((if (Nat.leb 128 n && Nat.ltb n 192)%bool then 0
        else if Nat.leb 240 n then 2 else 1)
       + utf16_length r)%nat
  end.

(** The value fits the column it is written to (the parameters are bound
    as [NVarChar(MAX)], so nothing is cut before the statement runs). *)
Definition fits (table : list (string * nat)) (kv : string * option string)
  : bool :=
  match snd kv with
  | Some v => Nat.leb (utf16_length v) (width_in table (fst kv))
  | None => true
  end.

(** [IF EXISTS (...) UPDATE ... ELSE INSERT ...], against a details table
    with the given columns.  The batch is compiled before it runs: a
    column it names that the table does not have, or a parameter it names
    that the loop did not bind, is an SQL error and nothing is executed.
    When it runs, a value too long for its column is an SQL error, and so
    is an insert for a request that [FK_Plant_Request] does not find. *)
Definition upsert_plant_on (table : list (string * nat)) (b : PlantBody)
           (requestId : string) (version : Z) (d : Db)
  : Result (list PlantRow) :=
  if negb (forallb (has_column table) plant_columns)
  then Throw "Invalid column name"
  else if negb (forallb (fun k => match bound_input b k with
                                  | Some _ => true
                                  | None => false
                                  end) plant_columns)
  then Throw "Must declare the scalar variable"
  else
    let cols := map (fun k => (k, match bound_input b k with
                                  | Some v => v
                                  | None => None
                                  end)) plant_columns in
    let t := PlantCodeDetails d in
    if negb (forallb (fits table) cols)
    then Throw "String or binary data would be truncated"
    else if existsb (plant_key requestId version) t
    then Return (map (fun p => if plant_key requestId version p
                               then mkPlantRow (p_requestId p)
                                               (p_version p) cols
                               else p) t)
    else if has_request requestId (Requests d)
         then Return (t ++ [mkPlantRow requestId version cols])%list
         else Throw "The INSERT statement conflicted with the FOREIGN KEY constraint".

(** The statement of the endpoint, against [dbo.PlantCodeDetails] as the
    DDL creates it. *)
Definition upsert_plant (b : PlantBody) (requestId : string) (version : Z)
           (d : Db) : Result (list PlantRow) :=
  upsert_plant_on plant_table b requestId version d.

Definition post_plant_details (e : Env) (b : PlantBody) (w : World)
  : Response (string * Z) * World :=
  match first_missing b with
  | Some k => (fail 400 (k ++ " is required"), w)
  | None =>
      let requestId := nullish (pb_requestId b) "" in
      let version := nullish (pb_version b) 0 in
      match upsert_plant b requestId version (db w) with
      | Throw _ =>
          (fail 500 "Failed to save plant details",
           console_error w "Plant UPSERT failed:")
      | Return t =>
          let w1 := with_db w (set_PlantCodeDetails (db w) t) in
          (ok (requestId, version),
           try_mail e (confirmation_mail_goes_out requestId (db w1))
                    "sendConfirmationEmail (plant) failed:" w1)
      end
  end.

(* ---------------------------------------------------------------- *)
(** *** POST /api/approvals *)
(* ---------------------------------------------------------------- *)

Record ApprovalBody := mkApprovalBody {
  ab_requestId : option string;
  ab_approverEmail : option string;
  ab_role : option string;
  ab_decision : option string;
  ab_comment : option string;
  ab_attachmentId : option string;
  ab_timestamp : option Z
}.

Definition approval_key (requestId approverEmail : string)
           (a : ApprovalRow) : bool :=
  ((a_requestId a =? requestId) && (a_approverEmail a =? approverEmail))%bool.

(** [IF NOT EXISTS (...) INSERT ... ELSE UPDATE ...] on [dbo.Approvals]. *)
Definition upsert_approval (e : Env) (requestId approverEmail role
                                      decision : string)
           (comment attachmentId : option string) (timestamp : option Z)
           (d : Db) : Result (list ApprovalRow) :=
  let t := Approvals d in
  let ts := nullish timestamp (sysutc e) in
  if negb (existsb (approval_key requestId approverEmail) t)
  then
    if negb (mem decision CHECK_decision)
    then Throw "The INSERT statement conflicted with the CHECK constraint"
    else if negb (has_request requestId (Requests d))
    then Throw "The INSERT statement conflicted with the FOREIGN KEY constraint"
    else Return (t ++ [mkApprovalRow requestId approverEmail role decision
                                     comment attachmentId ts])%list
  else
    if negb (mem decision CHECK_decision)
    then Throw "The UPDATE statement conflicted with the CHECK constraint"
    else Return (map (fun a =>
                        if approval_key requestId approverEmail a
                        then mkApprovalRow (a_requestId a)
                                           (a_approverEmail a) role
                                           decision comment attachmentId ts
                        else a) t).

Definition post_approvals (e : Env) (b : ApprovalBody) (w : World)
  : Response (string * string * string * string) * World :=
  if (negb (truthy (ab_requestId b)) || negb (truthy (ab_approverEmail b))
      || negb (truthy (ab_role b)) || negb (truthy (ab_decision b)))%bool
  then (fail 400 "requestId, approverEmail, role, decision are required", w)
  else
    let requestId := nullish (ab_requestId b) "" in
    let approverEmail := nullish (ab_approverEmail b) "" in
    let role := nullish (ab_role b) "" in
    let decision := nullish (ab_decision b) "" in
    match upsert_approval e requestId approverEmail role decision
                          (or_null (ab_comment b))
                          (or_null (ab_attachmentId b))
                          (ab_timestamp b) (db w) with
    | Throw _ => (fail 500 "Failed to save approval", w)
    | Return t =>
        (ok (requestId, approverEmail, role, decision),
         with_db w (set_Approvals (db w) t))
    end.

(* ---------------------------------------------------------------- *)
(** *** POST /api/history *)
(* ---------------------------------------------------------------- *)

Record HistoryBody := mkHistoryBody {
  hb_requestId : option string;
  hb_action : option string;
  hb_user : option string;
  hb_timestamp : option Z;
  hb_metadata : option Json
}.

(** [metadata ? JSON.stringify(metadata) : null] *)
Definition metadata_param (m : option Json) : option Json :=
  match m with
  | Some v => if json_truthy v then Some v else None
  | None => None
  end.

Definition history_key (requestId : string) (timestamp : Z)
           (h : HistoryRow) : bool :=
  ((h_requestId h =? requestId) && (h_timestamp h =? timestamp)%Z)%bool.

(** [INSERT INTO dbo.HistoryLogs ...], under [PK_History] and
    [FK_History_Request]. *)
Definition insert_history (row : HistoryRow) (d : Db)
  : Result (list HistoryRow) :=
  if existsb (history_key (h_requestId row) (h_timestamp row))
             (HistoryLogs d)
  then Throw "Violation of PRIMARY KEY constraint 'PK_History'"
  else if negb (has_request (h_requestId row) (Requests d))
  then Throw "The INSERT statement conflicted with the FOREIGN KEY constraint"
  else Return (HistoryLogs d ++ [row])%list.

Definition post_history (e : Env) (b : HistoryBody) (w : World)
  : Response (string * string) * World :=
  if (negb (truthy (hb_requestId b)) || negb (truthy (hb_action b))
      || negb (truthy (hb_user b)))%bool
  then (fail 400 "requestId, action, user are required", w)
  else
    let requestId := nullish (hb_requestId b) "" in
    let action := nullish (hb_action b) "" in
    let user := nullish (hb_user b) "" in
    let row := mkHistoryRow requestId
                            (nullish (hb_timestamp b) (node_now e))
                            action user (metadata_param (hb_metadata b)) in
    match insert_history row (db w) with
    | Throw _ => (fail 500 "Failed to save history log", w)
    | Return t =>
        (ok (requestId, action), with_db w (set_HistoryLogs (db w) t))
    end.

End Server.

(* ================================================================== *)
(** ** src/lib/storage.ts: the client layer *)
(* ================================================================== *)

Module Storage.
Import Server.

(** An [async] client function: it runs against the server and either
    returns or throws. *)
Definition Client (A : Type) : Type := Env -> World -> Result A * World.

Definition ret {A} (a : A) : Client A := fun _ w => (Return a, w).

(** [await c; k] *)
Definition bind {A B} (c : Client A) (k : A -> Client B) : Client B :=
  fun e w =>
    match c e w with
    | (Return a, w') => k a e w'
    | (Throw m, w') => (Throw m, w')
    end.

Definition throw {A} (m : string) : Client A := fun _ w => (Throw m, w).

(** [try { c } catch (err) { console.error(...) }] around a step whose
    value is not used. *)
Definition try_ignore {A} (c : Client A) : Client unit :=
  fun e w =>
    match c e w with
    | (_, w') => (Return tt, w')
    end.

Declare Scope client_scope.
Delimit Scope client_scope with client.
Notation "x <- c ;; k" := (bind c (fun x => k))
  (at level 61, c at next level, right associativity) : client_scope.
Notation "c ;;; k" := (bind c (fun _ => k))
  (at level 61, right associativity) : client_scope.

(** [http<T>(path, init)]: the data of an [ok] envelope; a reply that is
    not 2xx throws an [Error] with the envelope's message.  ([initDB]'s
    health ping, which every caller awaits first, swallows its own
    failure and writes nothing.) *)
Definition http {A} (endpoint : Env -> World -> Response A * World)
  : Client A :=
  fun e w =>
    match endpoint e w with
    | (ok data, w') => (Return data, w')
    | (fail _ message, w') => (Throw message, w')
    end.

(** [toISO()] *)
Definition toISO : Client Z := fun e w => (Return (client_now e), w).

(** The object the forms hand to [saveRequest]. *)
Record Request := mkRequest {
  requestId : option string;
  type : string;
  title : string;
  status : string;
  createdBy : string;
  createdAt : option Z;
  updatedAt : option Z;
  ncType : option string
}.

(** [saveRequest]: the body it builds carries no [ncType], and the
    function returns nothing. *)
Definition saveRequest (request : Request) : Client unit :=
  (now <- toISO ;;
   _ <- http (fun e => post_requests e
               (mkRequestBody (requestId request)
                              (Some (type request))
                              (Some (title request))
                              (Some (status request))
                              (Some (createdBy request))
                              (Some (nullish (createdAt request) now))
                              (Some (nullish (updatedAt request) now))
                              None)) ;;
   ret tt)%client.

Definition updateRequestStatus (requestId status : string) : Client unit :=
  (_ <- http (fun e => patch_request_status e requestId (Some status)) ;;
   ret tt)%client.

Definition savePlantCodeDetails (details : PlantBody) : Client unit :=
  (_ <- http (fun e => post_plant_details e details) ;; ret tt)%client.

(** ["approve" | "reject"] *)
Inductive Decision := approve | reject.

Definition decision_text (d : Decision) : string :=
  match d with approve => "approve" | reject => "reject" end.

Definition addApproval (requestId approverEmail role : string)
           (decision : Decision) (comment : string)
           (attachmentId : option string) : Client unit :=
  (timestamp <- toISO ;;
   _ <- http (fun e => post_approvals e
               (mkApprovalBody (Some requestId) (Some approverEmail)
                               (Some role) (Some (decision_text decision))
                               (Some comment) attachmentId
                               (Some timestamp))) ;;
   (* Also log the action (for analytics & audit) *)
   _ <- http (fun e => post_history e
               (mkHistoryBody (Some requestId)
                              (Some (match decision with
                                     | approve => "approve"
                                     | reject => "reject"
                                     end))
                              (Some approverEmail) (Some timestamp)
                              (Some (JObj [("comment", JStr comment);
                                           ("role", JStr role);
                                           ("decision",
                                            JStr (decision_text decision))])))) ;;
   ret tt)%client.

(** The [HistoryLog] object handed to [saveHistoryLog]. *)
Record HistoryLog := mkHistoryLog {
  log_requestId : string;
  log_action : string;
  log_user : string;
  log_timestamp : Z;
  log_metadata : Json
}.

Definition saveHistoryLog (log : HistoryLog) : Client unit :=
  (_ <- http (fun e => post_history e
               (mkHistoryBody (Some (log_requestId log))
                              (Some (log_action log))
                              (Some (log_user log))
                              (Some (log_timestamp log))
                              (Some (log_metadata log)))) ;;
   ret tt)%client.

End Storage.

(* ================================================================== *)
(** ** ApprovalDashboard *)
(* ================================================================== *)

Module ApprovalDashboard.
Import Server Storage.

(** A row of the list the dashboard loaded. *)
Record Request := mkRequest {
  id : string;
  status : string
}.

Record State := mkState {
  requests : list Request;
  approvalComment : string;
  userEmail : string;
  userRole : string
}.

(** Look-up in an object literal keyed by status. *)
Definition lookup (k : string) (o : list (string * string))
  : option string :=
  option_map snd (find (fun kv => fst kv =? k) o).

Definition approvalFlow : list (string * string) :=
  [("pending-secretary", "pending-siva");
   ("pending-siva", "pending-raghu");
   ("pending-raghu", "pending-manoj");
   ("pending-manoj", "approved")].

Definition getNextStatus (currentStatus : string) (decision : Decision)
  : string :=
  match decision with
  | reject => "rejected"
  | approve => or_default (lookup currentStatus approvalFlow) currentStatus
  end.

Definition statusRoleMap : list (string * string) :=
  [("pending-secretary", "secretary");
   ("pending-siva", "siva");
   ("pending-raghu", "raghu");
   ("pending-manoj", "manoj")].

Definition canApprove (userRole : string) (request : Request) : bool :=
  match lookup (status request) statusRoleMap with
  | Some role => role =? userRole
  | None => false
  end.

(** The rows of the "Pending My Review" table, the only rows that carry
    the Approve and Reject buttons. *)
Definition pendingRequests (s : State) : list Request :=
  filter (canApprove (userRole s)) (requests s).

(** What the user is shown. *)
Inductive Toast :=
| toast_error (description : string)
| toast_success (description : string)
| no_toast.

Definition handleApproval (s : State) (requestId : string)
           (decision : Decision) (e : Env) (w : World) : Toast * World :=
  if blank (approvalComment s)
  then (toast_error "Please add a comment for your decision", w)
  else
    match find (fun r => id r =? requestId) (requests s) with
    | None => (no_toast, w)
    | Some request =>
        match (addApproval requestId (userEmail s) (userRole s) decision
                           (approvalComment s) None ;;;
               updateRequestStatus requestId
                 (getNextStatus (status request) decision))%client e w with
        | (Return _, w') =>
            (toast_success ("Request " ++ decision_text decision
                                       ++ "d successfully"), w')
        | (Throw _, w') => (toast_error "Failed to process approval", w')
        end
    end.

End ApprovalDashboard.

(* ================================================================== *)
(** ** The request forms *)
(* ================================================================== *)

(** What both forms read from the [existingRequest] prop. *)
Module FormProps.

Record ExistingRequest := mkExistingRequest {
  requestId : option string;
  id : option string;
  createdAt : option Z
}.

Record Props := mkProps {
  existingRequest : option ExistingRequest;
  isChangeRequest : bool;
  userEmail : string
}.

(** [anyReq.requestId || anyReq.id], with [anyReq = existingRequest || {}] *)
Definition baseId (p : Props) : option string :=
  match existingRequest p with
  | Some r => if truthy (requestId r) then requestId r else id r
  | None => None
  end.

(** [String(baseId)] *)
Definition String_of (x : option string) : string :=
  match x with Some s => s | None => "undefined" end.

(** [anyReq.createdAt || now] *)
Definition createdAt_or (p : Props) (now : Z) : Z :=
  match existingRequest p with
  | Some r => nullish (createdAt r) now
  | None => now
  end.

Definition editing (p : Props) : bool :=
  match existingRequest p with
  | Some _ => negb (isChangeRequest p)
  | None => false
  end.

(** [isChangeRequest ? 1 : (latestVersion ?? 0) + 1] *)
Definition nextVersion (p : Props) (latestVersion : option Z) : Z :=
  if isChangeRequest p then 1 else nullish latestVersion 0 + 1.

(** [created?.requestId ?? created?.data?.requestId ?? ...] on what
    [saveRequest] resolved to, which is [undefined]. *)
Definition requestId_of_created (created : unit) : option string := None.

End FormProps.

Module PlantCodeForm.
Import Server Storage FormProps.

Record FormData := mkFormData {
  companyCode : string;
  gstNumber : string;
  gstCertificate : string;
  plantCode : string;
  nameOfPlant : string;
  addressOfPlant : string;
  purchaseOrganization : string;
  nameOfPurchaseOrganization : string;
  salesOrganization : string;
  nameOfSalesOrganization : string;
  profitCenter : string;
  nameOfProfitCenter : string;
  costCenters : string;
  nameOfCostCenters : string;
  projectCode : string;
  projectCodeDescription : string;
  storageLocationCode : string;
  storageLocationDescription : string
}.

(** [Object.entries(formData)] *)
Definition entries (f : FormData) : list (string * string) :=
  [("companyCode", companyCode f);
   ("gstNumber", gstNumber f);
   ("gstCertificate", gstCertificate f);
   ("plantCode", plantCode f);
   ("nameOfPlant", nameOfPlant f);
   ("addressOfPlant", addressOfPlant f);
   ("purchaseOrganization", purchaseOrganization f);
   ("nameOfPurchaseOrganization", nameOfPurchaseOrganization f);
   ("salesOrganization", salesOrganization f);
   ("nameOfSalesOrganization", nameOfSalesOrganization f);
   ("profitCenter", profitCenter f);
   ("nameOfProfitCenter", nameOfProfitCenter f);
   ("costCenters", costCenters f);
   ("nameOfCostCenters", nameOfCostCenters f);
   ("projectCode", projectCode f);
   ("projectCodeDescription", projectCodeDescription f);
   ("storageLocationCode", storageLocationCode f);
   ("storageLocationDescription", storageLocationDescription f)].

Record State := mkState {
  formData : FormData;
  latestVersion : option Z;
  showConfirmation : bool;
  (** [originalData] is not [null] *)
  hasOriginalData : bool
}.

Definition validateForm (f : FormData) : bool :=
  forallb (fun kv => negb (blank (snd kv))) (entries f).

Definition title_of (p : Props) (f : FormData) : string :=
  if isChangeRequest p
  then "Change Request - Plant Code: " ++ plantCode f ++ " - "
                                       ++ nameOfPlant f
  else "Plant Code: " ++ plantCode f ++ " - " ++ nameOfPlant f.

(** "Create/Update request first to get the server-generated ID": the
    two [saveRequest] calls of [handleSubmit] and the id each leaves in
    [requestId]. *)
Definition saveRequestStep (p : Props) (f : FormData) (now : Z)
  : Client (option string) :=
  (if editing p
   then
     let requestId := String_of (baseId p) in
     saveRequest (Storage.mkRequest (Some requestId) "plant"
                                    (title_of p f) "pending-siva"
                                    (userEmail p)
                                    (Some (createdAt_or p now))
                                    (Some now) None) ;;;
     ret (Some requestId)
   else
     created <- saveRequest (Storage.mkRequest
                               None "plant" (title_of p f) "pending-siva"
                               (userEmail p) (Some now) (Some now)
                               (Some (if isChangeRequest p
                                      then "C" else "N"))) ;;
     ret (requestId_of_created created))%client.

(** [{ requestId, ...formData, version: nextVersion }] *)
Definition details_of (requestId : string) (f : FormData) (version : Z)
  : PlantBody :=
  mkPlantBody (Some requestId) (Some version)
              (map (fun kv => (fst kv, Some (snd kv))) (entries f)).

(** The [action] of the history entry. *)
Definition history_action (p : Props) (s : State) : string :=
  if (isChangeRequest p && hasOriginalData s)%bool then "create"
  else match existingRequest p with
       | Some _ => "edit"
       | None => "create"
       end.

Inductive Outcome :=
| validation_error
| ask_confirmation
| saved
| save_failed.

(** [handleSubmit].  [metadata] is the metadata object of the history
    entry, which the form builds with [compareObjects] and
    [formatChangesForNotification] of [lib/changeTracking].  The upload of
    staged attachments, which sits in its own [try]/[catch] and writes
    only [dbo.Attachments], is left out. *)
Definition handleSubmit (p : Props) (s : State) (metadata : Json)
           (e : Env) (w : World) : Outcome * World :=
  if negb (validateForm (formData s)) then (validation_error, w)
  else if ((match existingRequest p with Some _ => true | None => false end
            || isChangeRequest p) && negb (showConfirmation s))%bool
  then (ask_confirmation, w)
  else
    match (now <- toISO ;;
           rid <- saveRequestStep p (formData s) now ;;
           if negb (truthy rid)
           then throw "Missing server-generated requestId"
           else
             let requestId := nullish rid "" in
             savePlantCodeDetails
               (details_of requestId (formData s)
                           (nextVersion p (latestVersion s))) ;;;
             try_ignore
               (saveHistoryLog
                  (mkHistoryLog requestId (history_action p s)
                                (userEmail p) now metadata)))%client e w with
    | (Return _, w') => (saved, w')
    | (Throw _, w') => (save_failed, w')
    end.

End PlantCodeForm.

Module CompanyCodeForm.
Import Server Storage FormProps.

Definition title_of (p : Props) (companyCode nameOfCompanyCode : string)
  : string :=
  if isChangeRequest p
  then "Change Request - Company Code: " ++ companyCode ++ " - "
                                         ++ nameOfCompanyCode
  else "Company Code: " ++ companyCode ++ " - " ++ nameOfCompanyCode.

(** The request-saving step of [handleSubmit]: its two [saveRequest]
    calls and the id each leaves in [requestId]. *)
Definition saveRequestStep (p : Props)
           (companyCode nameOfCompanyCode : string) (now : Z)
  : Client (option string) :=
  (if editing p
   then
     let requestId := String_of (baseId p) in
     saveRequest (Storage.mkRequest
                    (Some requestId) "company"
                    (title_of p companyCode nameOfCompanyCode)
                    "pending-secretary" (userEmail p)
                    (Some (createdAt_or p now)) (Some now) None) ;;;
     ret (Some requestId)
   else
     created <- saveRequest (Storage.mkRequest
                               None "company"
                               (title_of p companyCode nameOfCompanyCode)
                               "pending-secretary" (userEmail p)
                               (Some now) (Some now)
                               (Some (if isChangeRequest p
                                      then "C" else "N"))) ;;
     ret (requestId_of_created created))%client.

End CompanyCodeForm.

(* ================================================================== *)
(** ** RequestDetailsDialog: the display-time diff *)
(* ================================================================== *)

Module RequestDetailsDialog.

(** A stored details row as the dialog receives it. *)
Record Snapshot := mkSnapshot {
  version : option Z;
  fields : list (string * option string)
}.

Record Change := mkChange {
  field : string;
  label : string;
  oldValue : string;
  newValue : string
}.

Record CompareResult := mkCompareResult {
  hasChanges : bool;
  changes : list Change;
  changedFields : list string
}.

(** [Number(x?.version ?? 0)] *)
Definition version_number (x : Snapshot) : Z := nullish (version x) 0.

(** [[...versions].sort((a, b) => Number(b.version) - Number(a.version))]:
    a stable sort, highest version first. *)
Fixpoint insert_desc (x : Snapshot) (l : list Snapshot) : list Snapshot :=
  match l with
  | [] => [x]
  | y :: r =>
      if (version_number y <=? version_number x)%Z
      then x :: y :: r
      else y :: insert_desc x r
  end.

Definition sortedVersions (versions : list Snapshot) : list Snapshot :=
  fold_right insert_desc [] versions.

Section Diff.
(** [compareObjects] of [lib/changeTracking], which the dialog imports. *)
Variable compareObjects : Snapshot -> Snapshot -> string -> CompareResult.

Definition diff (versions : list Snapshot) (type : string)
  : CompareResult :=
  match sortedVersions versions with
  | latest :: prev :: _ => compareObjects prev latest type
  | _ => mkCompareResult false [] []
  end.
End Diff.

End RequestDetailsDialog.

(* ================================================================== *)
(** ** More of JavaScript strings and arrays *)
(* ================================================================== *)

Module Text.

Definition lower_ascii (c : ascii) : ascii :=
  let n := nat_of_ascii c in
  if (Nat.leb 65 n && Nat.leb n 90)%bool then ascii_of_nat (n + 32) else c.

(** [s.toLowerCase()] for a string whose letters are ASCII: the letters A
    to Z are mapped and every other byte is left.  (Letters outside ASCII
    that have a lower case are not mapped here; the statements that depend
    on it are about strings without them.) *)
Fixpoint toLowerCase (s : string) : string :=
  match s with
  | EmptyString => EmptyString
  | String c r => String (lower_ascii c) (toLowerCase r)
  end.

(** [s.trimStart()] *)
Fixpoint trimStart (s : string) : string :=
  match s with
  | EmptyString => EmptyString
  | String a r =>
      if is_space a then trimStart r
      else
        match r with
        | EmptyString => s
        | String b r2 =>
            if is_space2 a b then trimStart r2
            else
              match r2 with
              | EmptyString => s
              | String c r3 => if is_space3 a b c then trimStart r3 else s
              end
        end
  end.

(** [s.trimEnd()]: the string up to its last character that is not white
    space. *)
Fixpoint trimEnd (s : string) : string :=
  match s with
  | EmptyString => EmptyString
  | String c r => if blank s then EmptyString else String c (trimEnd r)
  end.

(** [s.trim()] *)
Definition trim (s : string) : string := trimEnd (trimStart s).

(** [s.includes(c)] for a one-character [c]. *)
Fixpoint includes_char (c : ascii) (s : string) : bool :=
  match s with
  | EmptyString => false
  | String a r => (Ascii.eqb a c || includes_char c r)%bool
  end.

(** [s.endsWith(suffix)] *)
Definition endsWith (s suffix : string) : bool :=
  let n := String.length s in
  let m := String.length suffix in
  (Nat.leb m n && (substring (n - m) m s =? suffix))%bool.

Definition newline_char : ascii := ascii_of_nat 10.

(** The one-character string of a line feed. *)
Definition newline : string := String newline_char EmptyString.

(** [s.split(newline)]: the pieces between line feeds, empty ones
    included. *)
Fixpoint split_newline (s : string) : list string :=
  match s with
  | EmptyString => [EmptyString]
  | String c r =>
      if Ascii.eqb c newline_char then EmptyString :: split_newline r
      else match split_newline r with
           | h :: t => String c h :: t
           | [] => [String c EmptyString]
           end
  end.

(** [s.split(/\n+/).filter(Boolean)]: the non-empty lines.  (Splitting on
    runs of line feeds and splitting on single line feeds differ only in
    empty pieces, which the filter drops.) *)
Definition lines (s : string) : list string :=
  filter (fun l => negb (l =? "")) (split_newline s).

(** [l.join(newline)] *)
Fixpoint join_newline (l : list string) : string :=
  match l with
  | [] => EmptyString
  | [x] => x
  | x :: r => x ++ newline ++ join_newline r
  end.

(** A stable sort by a comparator: [before a b] says that [a] may stand
    before [b].  It is what [Array.prototype.sort] does with a consistent
    comparator, and what ORDER BY gives on distinct keys. *)
Section Sort.
Context {A : Type}.
Variable before : A -> A -> bool.

Fixpoint insert_sorted (x : A) (l : list A) : list A :=
  match l with
  | [] => [x]
  | y :: r => if before x y then x :: y :: r else y :: insert_sorted x r
  end.

Definition sort (l : list A) : list A := fold_right insert_sorted [] l.
End Sort.

(** [l.splice(i, 1)]: the list without its element at index [i]. *)
Fixpoint splice1 {A} (i : nat) (l : list A) : list A :=
  match l, i with
  | [], _ => []
  | _ :: r, O => r
  | x :: r, S k => x :: splice1 k r
  end.

End Text.

(* ================================================================== *)
(** ** server.cjs: helpers and read endpoints *)
(* ================================================================== *)

Module Reads.
Import Server Text.

Definition company_domain : string := "@premierenergies.com".

(** [normalizeToEmail]: [raw] after [String(raw || "")]. *)
Definition normalizeToEmail (raw : option string) : string :=
  let s := toLowerCase (trim (or_default raw "")) in
  if s =? "" then s
  else if includes_char "@"%char s then s else s ++ company_domain.

(** The gate of the OTP endpoints: [normalizeToEmail((email || "").trim())]
    ends with the company domain (anything else is answered 403). *)
Definition company_account (email : option string) : bool :=
  endsWith (normalizeToEmail (Some (trim (or_default email ""))))
           company_domain.

(** [GET /api/requests/:id]: [recordset[0] || null] *)
Definition get_request (id : string) (d : Db) : option RequestRow :=
  find_request id d.

(** A query-string filter that is applied only when it is truthy. *)
Definition passes (filter : option string) (value : string) : bool :=
  if truthy filter then value =? nullish filter "" else true.

(** [GET /api/requests?createdBy=&status=&type=], ORDER BY createdAt DESC. *)
Definition get_requests (createdBy status type : option string) (d : Db)
  : list RequestRow :=
  sort (fun a b => (r_createdAt b <=? r_createdAt a)%Z)
       (filter (fun r => (passes createdBy (r_createdBy r)
                          && passes status (r_status r)
                          && passes type (r_type r))%bool)
               (Requests d)).

(** [GET /api/plant-details/:requestId], ORDER BY version DESC. *)
Definition get_plant_details (requestId : string) (d : Db) : list PlantRow :=
  sort (fun a b => (p_version b <=? p_version a)%Z)
       (filter (fun p => p_requestId p =? requestId) (PlantCodeDetails d)).

(** [GET /api/plant-details/:requestId/latest]: SELECT TOP 1 of the same
    order, [recordset[0] || null]. *)
Definition get_plant_latest (requestId : string) (d : Db)
  : option PlantRow :=
  hd_error (get_plant_details requestId d).

(** [GET /api/approvals/:requestId], ORDER BY timestamp ASC. *)
Definition get_approvals (requestId : string) (d : Db) : list ApprovalRow :=
  sort (fun a b => (a_timestamp a <=? a_timestamp b)%Z)
       (filter (fun a => a_requestId a =? requestId) (Approvals d)).

(** [GET /api/history/:requestId], ORDER BY timestamp ASC. *)
Definition get_history (requestId : string) (d : Db) : list HistoryRow :=
  sort (fun a b => (h_timestamp a <=? h_timestamp b)%Z)
       (filter (fun h => h_requestId h =? requestId) (HistoryLogs d)).

End Reads.

(* ================================================================== *)
(** ** server.cjs: the users endpoints *)
(* ================================================================== *)

Module Users.
Import Server.

(** [dbo.Users] *)
Record UserRow := mkUserRow {
  u_email : string;
  u_role : string;
  u_createdAt : Z
}.

Definition CHECK_role : list string :=
  ["requestor"; "it"; "secretary"; "siva"; "raghu"; "manoj"; "admin"].

Definition has_user (email : string) (t : list UserRow) : bool :=
  existsb (fun u => u_email u =? email) t.

(** [POST /api/users]: [THROW 50001 'User already exists'] when the email
    is there, else the INSERT under the role CHECK; [createdAt] is the
    column default. *)
Definition post_users (e : Env) (email role : option string)
           (t : list UserRow) : Response (string * string) * list UserRow :=
  if (negb (truthy email) || negb (truthy role))%bool
  then (fail 400 "email and role are required", t)
  else
    let em := nullish email "" in
    let ro := nullish role "" in
    if has_user em t then (fail 500 "Failed to create user", t)
    else if negb (mem ro CHECK_role)
    then (fail 500 "Failed to create user", t)
    else (ok (em, ro), (t ++ [mkUserRow em ro (sysutc e)])%list).

(** [GET /api/users/:email]: [recordset[0] || null] *)
Definition get_user (email : string) (t : list UserRow) : option UserRow :=
  find (fun u => u_email u =? email) t.

(** [DELETE /api/users/:email] *)
Definition delete_user (email : string) (t : list UserRow)
  : Response string * list UserRow :=
  (ok email, filter (fun u => negb (u_email u =? email)) t).

(** [getUserRole] of storage.ts: [user?.role || "requestor"], and
    ["requestor"] when the call fails. *)
Definition getUserRole (email : string) (t : list UserRow) : string :=
  or_default (option_map u_role (get_user email t)) "requestor".

End Users.

(* ================================================================== *)
(** ** storage.ts: reads, and completion *)
(* ================================================================== *)

Module StorageReads.
Import Server Storage Text Reads.

(** [http] on a read endpoint: it answers ok with the rows of its query. *)
Definition http_get {A} (query : Db -> A) : Client A :=
  fun _ w => (Return (query (db w)), w).

(** [sortByDateDesc(arr, key)] *)
Definition sortByDateDesc {A} (key : A -> Z) (arr : list A) : list A :=
  sort (fun a b => (key b <=? key a)%Z) arr.

Definition getAllRequests : Client (list RequestRow) :=
  (data <- http_get (get_requests None None None) ;;
   ret (sortByDateDesc r_createdAt data))%client.

Definition statusMap : list (string * string) :=
  [("secretary", "pending-secretary");
   ("siva", "pending-siva");
   ("raghu", "pending-raghu");
   ("manoj", "pending-manoj")].

Definition getPendingRequestsForRole (role : string)
  : Client (list RequestRow) :=
  match ApprovalDashboard.lookup role statusMap with
  | None => ret []
  | Some status =>
      (data <- http_get (get_requests None (Some status) None) ;;
       ret (sortByDateDesc r_createdAt data))%client
  end.

(** [[...data].sort((a, b) => time(a.timestamp) - time(b.timestamp))] *)
Definition getApprovalsForRequest (requestId : string)
  : Client (list ApprovalRow) :=
  (data <- http_get (get_approvals requestId) ;;
   ret (sort (fun a b => (a_timestamp a <=? a_timestamp b)%Z) data))%client.

Definition getHistoryForRequest (requestId : string)
  : Client (list HistoryRow) :=
  (data <- http_get (get_history requestId) ;;
   ret (sortByDateDesc h_timestamp data))%client.

(** One day, in milliseconds. *)
Definition day_ms : Z := 1000 * 60 * 60 * 24.

(** [Math.ceil(a / b)] for a positive [b] (the quotient of two instants of
    the [Date] range by a day is exact enough for the ceiling to be the
    integer one). *)
Definition ceil_div (a b : Z) : Z := - ((- a) / b).

(** [markRequestCompleted]: the request is read first (a failure of that
    read is ignored), then the status is set, then, when the request was
    found, the turnaround is logged. *)
Definition markRequestCompleted (requestId completedBy : string)
  : Client unit :=
  (req <- http_get (get_request requestId) ;;
   completedAt <- toISO ;;
   updateRequestStatus requestId "completed" ;;;
   match req with
   | Some r =>
       let turnaroundTime :=
         ceil_div (completedAt - r_createdAt r) day_ms in
       saveHistoryLog
         (mkHistoryLog requestId "update-sap" completedBy completedAt
                       (JObj [("turnaroundTime", JNum turnaroundTime);
                              ("completedBy", JStr completedBy)]))
   | None => ret tt
   end)%client.

End StorageReads.

(* ================================================================== *)
(** ** ITDashboard *)
(* ================================================================== *)

Module ITDashboard.
Import Server Storage ApprovalDashboard.



End ITDashboard.

(* ================================================================== *)
(** ** PlantCodeForm: the paired lists *)
(* ================================================================== *)

Module PlantPairs.
Import Text.

(** The two newline-separated fields of a pair list (cost centers and
    their names, project codes and their descriptions, ...). *)
Definition Fields : Type := (string * string)%type.

Definition appendPair (prev : Fields) (code name : string) : Fields :=
  let trimmedCode := trim code in
  let trimmedName := trim name in
  if ((trimmedCode =? "") || (trimmedName =? ""))%bool then prev
  else
    (if fst prev =? "" then trimmedCode
     else fst prev ++ newline ++ trimmedCode,
     if snd prev =? "" then trimmedName
     else snd prev ++ newline ++ trimmedName).

(** [Array.from({ length: max }, (_, i) => [a[i] || "", b[i] || ""])] *)
Fixpoint zip_pad (a b : list string) : list (string * string) :=
  match a with
  | [] => map (fun y => ("", y)) b
  | x :: a' =>
      match b with
      | [] => (x, "") :: zip_pad a' []
      | y :: b' => (x, y) :: zip_pad a' b'
      end
  end.

Definition listPairs (codes names : string) : list (string * string) :=
  zip_pad (lines codes) (lines names).

Definition removePair (prev : Fields) (index : Z) : Fields :=
  let codes := lines (fst prev) in
  let names := lines (snd prev) in
  if ((index <? 0)%Z
      || (Z.of_nat (Nat.max (List.length codes) (List.length names))
          <=? index)%Z)%bool
  then prev
  else (join_newline (splice1 (Z.to_nat index) codes),
        join_newline (splice1 (Z.to_nat index) names)).

End PlantPairs.

(* ================================================================== *)
(** ** LoginPage: the address that is sent to the OTP endpoints *)
(* ================================================================== *)

Module LoginPage.
Import Text.

(** [normalizeCompanyEmail] *)
Definition normalizeCompanyEmail (val : string) : string :=
  let raw := toLowerCase (trim (or_default (Some val) "")) in
  if includes_char "@"%char raw then raw
  else raw ++ Reads.company_domain.

(** What a submission of the address form does: it shows an error, or it
    posts an address to [/api/send-otp]. *)
Inductive Submission : Type :=
| shows (error : string)
| posts (email : string).

(** [handleEmailSubmit], up to the request it sends: an empty field is
    refused before anything is normalised ([!email]). *)
Definition handleEmailSubmit (email : string) : Submission :=
  if email =? "" then shows "Please enter your email address"
  else posts (normalizeCompanyEmail email).

End LoginPage.


(* ================================================================== *)
(** ** Sample data *)
(* ================================================================== *)

Module Sample.
Import Server.

(** Every role has a user, whose address is the role at the company
    domain. *)
Definition approvers (role : string) : option string :=
  Some (role ++ "@premierenergies.com").

(** 1 January 2025, 00:00 UTC; mail works. *)
Definition env : Env :=
  mkEnv "20250101" 1735689600000 1735689600000 1735689600000 false
        approvers.

(** The same instant with the Graph call failing. *)
Definition env_mail_down : Env :=
  mkEnv "20250101" 1735689600000 1735689600000 1735689600000 true
        approvers.

Definition empty : World := mkWorld (mkDb [] [] [] [] []) [].

(** One request, in the given type and status. *)
Definition request_row (type status : string) : RequestRow :=
  mkRequestRow "N_01012025_001" type "Plant Code: P100 - Alpha" status
               "user@premierenergies.com" 1735680000000 1735680000000.

Definition one_request (type status : string) : World :=
  mkWorld (mkDb [request_row type status] [] [] []
                [mkCounterRow "N" "20250101" 1]) [].

(** A later call: one minute on. *)
Definition env_later : Env :=
  mkEnv "20250101" 1735689660000 1735689660000 1735689660000 false
        approvers.

Definition secretary : string := "secretary@premierenergies.com".

(** The secretary first rejects, then approves. *)
Definition first_decision : ApprovalBody :=
  mkApprovalBody (Some "N_01012025_001") (Some secretary) (Some "secretary")
                 (Some "reject") (Some "missing GST") None
                 (Some 1735689600000).

Definition second_decision : ApprovalBody :=
  mkApprovalBody (Some "N_01012025_001") (Some secretary) (Some "secretary")
                 (Some "approve") (Some "ok") None (Some 1735689660000).

(** A history entry, and a second one for the same request in the same
    millisecond. *)
Definition first_entry : HistoryBody :=
  mkHistoryBody (Some "N_01012025_001") (Some "edit")
                (Some "user@premierenergies.com") (Some 1735689600000)
                (Some (JObj [("type", JStr "plant")])).

Definition colliding_entry : HistoryBody :=
  mkHistoryBody (Some "N_01012025_001") (Some "approve") (Some secretary)
                (Some 1735689600000)
                (Some (JObj [("comment", JStr "ok")])).

(** A filled-in plant form, by plant name. *)
Definition form (nameOfPlant : string) : PlantCodeForm.FormData :=
  PlantCodeForm.mkFormData "1000" "36AAACP1234F1Z5" "gst.pdf" "P100"
    nameOfPlant "Hyderabad" "PO01" "Purchasing" "SO01" "Sales" "PC01"
    "Profit" "CC01" "Cost" "PR01" "Project" "SL01" "Stores".

(** Version 2 of the sample request, as the form posts it. *)
Definition details (nameOfPlant : string) : PlantBody :=
  PlantCodeForm.details_of "N_01012025_001" (form nameOfPlant) 2.

(** A details row of the sample request as the table holds it: the
    declared columns, with the values of the form. *)
Definition stored_details (nameOfPlant : string) (version : Z) : PlantRow :=
  mkPlantRow "N_01012025_001" version
             (map (fun kv => (fst kv, Some (snd kv)))
                  (filter (fun kv => has_column plant_table (fst kv))
                          (PlantCodeForm.entries (form nameOfPlant)))).

(** The sample request, pending with the secretary, with version 2 of its
    details in the table. *)
Definition with_details : World :=
  mkWorld (mkDb [request_row "plant" "pending-secretary"]
                [stored_details "Alpha" 2] [] []
                [mkCounterRow "N" "20250101" 1]) [].

(** A save of the sample request that names it a company request. *)
Definition retyping_save : RequestBody :=
  mkRequestBody (Some "N_01012025_001") (Some "company")
                (Some "Company Code: 1000 - Alpha")
                (Some "pending-secretary")
                (Some "user@premierenergies.com")
                (Some 1735680000000) (Some 1735689600000) None.

(** Raghu's dashboard, holding the sample request in the given status,
    with a comment typed in. *)
Definition raghu_dashboard (status comment : string)
  : ApprovalDashboard.State :=
  ApprovalDashboard.mkState
    [ApprovalDashboard.mkRequest "N_01012025_001" status]
    comment "raghu@premierenergies.com" "raghu".

(** Three stored versions, as a server might list them, and a stand-in
    comparison that reports, for each side, the [version] field and the
    plant name of the snapshot it was given. *)
Definition snapshot (v : Z) (nameOfPlant : string)
  : RequestDetailsDialog.Snapshot :=
  RequestDetailsDialog.mkSnapshot (Some v)
                                  [("nameOfPlant", Some nameOfPlant)].

Definition three_versions : list RequestDetailsDialog.Snapshot :=
  [snapshot 2 "Beta"; snapshot 3 "Gamma"; snapshot 1 "Alpha"].

Definition compare_versions (old new : RequestDetailsDialog.Snapshot)
           (type : string) : RequestDetailsDialog.CompareResult :=
  let shown (x : RequestDetailsDialog.Snapshot) :=
    match RequestDetailsDialog.version x with
    | Some v => String_of_Z v
    | None => "none"
    end
    ++ match RequestDetailsDialog.fields x with
       | (_, Some name) :: _ => " " ++ name
       | _ => ""
       end in
  RequestDetailsDialog.mkCompareResult
    true
    [RequestDetailsDialog.mkChange "version" "Version" (shown old)
                                   (shown new)]
    ["version"].


(** A brand-new plant request, an edit of the sample request and a change
    request made from it, with the form filled in and confirmed. *)
Definition new_request : FormProps.Props :=
  FormProps.mkProps None false "user@premierenergies.com".

Definition existing : FormProps.ExistingRequest :=
  FormProps.mkExistingRequest (Some "N_01012025_001") None
                              (Some 1735680000000).

Definition edit_request : FormProps.Props :=
  FormProps.mkProps (Some existing) false "user@premierenergies.com".

Definition change_request : FormProps.Props :=
  FormProps.mkProps (Some existing) true "user@premierenergies.com".

Definition confirmed_form (latestVersion : option Z) : PlantCodeForm.State :=
  PlantCodeForm.mkState (form "Alpha") latestVersion true false.

(** The sample request, pending with the secretary, with a history entry
    written in the very millisecond of [env]. *)
Definition logged_this_instant : World :=
  snd (post_history env first_entry
                    (one_request "plant" "pending-secretary")).

Definition secretary_dashboard (comment : string) : ApprovalDashboard.State :=
  ApprovalDashboard.mkState
    [ApprovalDashboard.mkRequest "N_01012025_001" "pending-secretary"]
    comment secretary "secretary".

(** White space only: a space, a no-break space (U+00A0), a tab and an
    ideographic space (U+3000). *)
Definition spaces : string :=
  String (ascii_of_nat 32)
    (String (ascii_of_nat 194) (String (ascii_of_nat 160)
       (String (ascii_of_nat 9)
          (String (ascii_of_nat 227) (String (ascii_of_nat 128)
             (String (ascii_of_nat 128) EmptyString)))))).

(** A new request whose status is not one of the nine. *)
Definition bad_status_save : RequestBody :=
  mkRequestBody None (Some "plant") (Some "Plant Code: P200 - Delta")
                (Some "pending") (Some "user@premierenergies.com")
                None None (Some "N").

(** An edit of the sample request by someone else, with a creation time
    of its own. *)
Definition foreign_edit : RequestBody :=
  mkRequestBody (Some "N_01012025_001") (Some "plant")
                (Some "Plant Code: P100 - Beta") (Some "pending-secretary")
                (Some "other@premierenergies.com")
                (Some 1) (Some 1735689600000) None.


(** A second history entry of the sample request, one minute after the
    first. *)
Definition later_entry : HistoryBody :=
  mkHistoryBody (Some "N_01012025_001") (Some "approve") (Some secretary)
                (Some 1735689660000)
                (Some (JObj [("comment", JStr "ok")])).

Definition logged_twice : World :=
  snd (post_history env_later later_entry logged_this_instant).


(** A users table: the secretary and an approver. *)
Definition two_users : list Users.UserRow :=
  [Users.mkUserRow secretary "secretary" 1735680000000;
   Users.mkUserRow "raghu@premierenergies.com" "raghu" 1735680000000].


End Sample.

(* ================================================================== *)
(** ** Predicates of the statements *)
(* ================================================================== *)

(** [ncType] is the letter C in either case. *)
Definition is_C (ncType : option string) : bool :=
  match ncType with
  | Some s => ((s =? "C") || (s =? "c"))%bool
  | None => false
  end.

(** The sequence number an allocation for (prefix, day) hands out: one
    more than the stored counter, and 1 when the day has no counter yet. *)
Definition next_seq (prefix day : string) (d : Server.Db) : Z :=
  match Server.counter_value prefix day d with
  | Some n => n + 1
  | None => 1
  end.

(** All [padStart0 3]-ed numbers from 1 to [n] have three characters. *)
Definition three_digits_upto (n : nat) : bool :=
  forallb (fun k => Nat.eqb (String.length
                               (padStart0 3 (String_of_Z (Z.of_nat k)))) 3)
          (seq 1 n).





(** A details write for (requestId, version) that passes the endpoint's
    required-field check and carries every property the statement names. *)
Definition details_for (requestId : string) (version : Z)
           (b : Server.PlantBody) : bool :=
  (match Server.pb_requestId b, Server.pb_version b with
   | Some r, Some v => (r =? requestId) && (v =? version)%Z
   | _, _ => false
   end
   && match Server.first_missing b with None => true | Some _ => false end
   && forallb (fun k => match Server.body_get b k with
                        | Some _ => true
                        | None => false
                        end) Server.plant_columns)%bool.

(** The approve/reject rows of the transition table: current state,
    actor role, decision, next state. *)
Definition transition_table
  : list (string * string * Storage.Decision * string) :=
  [("pending-secretary", "secretary", Storage.approve, "pending-siva");
   ("pending-secretary", "secretary", Storage.reject, "rejected");
   ("pending-siva", "siva", Storage.approve, "pending-raghu");
   ("pending-siva", "siva", Storage.reject, "rejected");
   ("pending-raghu", "raghu", Storage.approve, "pending-manoj");
   ("pending-raghu", "raghu", Storage.reject, "rejected");
   ("pending-manoj", "manoj", Storage.approve, "approved");
   ("pending-manoj", "manoj", Storage.reject, "rejected")].

(** (status, role, decision) is a row of the table. *)
Definition listed (status role : string) (d : Storage.Decision) : bool :=
  existsb (fun row =>
             match row with
             | (st, ro, de, _) =>
                 (st =? status) && (ro =? role)
                 && match de, d with
                    | Storage.approve, Storage.approve => true
                    | Storage.reject, Storage.reject => true
                    | _, _ => false
                    end
             end)%bool transition_table.

(** The stored status of a request. *)
Definition stored_status (requestId : string) (w : Server.World)
  : option string :=
  option_map Server.r_status (Server.find_request requestId (Server.db w)).

(** The same approval body with another comment. *)
Definition with_comment (b : Server.ApprovalBody) (c : option string)
  : Server.ApprovalBody :=
  Server.mkApprovalBody (Server.ab_requestId b) (Server.ab_approverEmail b)
                        (Server.ab_role b) (Server.ab_decision b) c
                        (Server.ab_attachmentId b) (Server.ab_timestamp b).

(** The same call with the mail service up or down. *)
Definition with_mail (e : Server.Env) (throws : bool) : Server.Env :=
  Server.mkEnv (Server.today112 e) (Server.sysutc e) (Server.node_now e)
               (Server.client_now e) throws (Server.user_of_role e).

(** The version number a stored snapshot carries in its [version] field
    (0 when it carries none). *)
Definition stored_version (x : RequestDetailsDialog.Snapshot) : Z :=
  match RequestDetailsDialog.version x with
  | Some v => v
  | None => 0
  end.

(** Descending order of the [version] fields: [a] may stand before [b]. *)
Definition above (a b : RequestDetailsDialog.Snapshot) : Prop :=
  stored_version b <= stored_version a.

(** A run of allocations, one after the other, each with the
    environment of its own call. *)
Fixpoint allocate_all (calls : list (Server.Env * option string))
         (d : Server.Db) : list (Result string) :=
  match calls with
  | [] => []
  | (e, ncType) :: rest =>
      let '(id, d') := Server.generateRequestId e ncType d in
      id :: allocate_all rest d'
  end.

(** The text of the id with the given prefix, day (yyyymmdd) and sequence
    number. *)
Definition id_text (prefix day : string) (n : Z) : string :=
  prefix ++ "_" ++ Server.ddmmyyyy_of day ++ "_"
         ++ padStart0 3 (String_of_Z n).

(** The number a string of decimal digits denotes. *)
Definition digits_value (s : string) : option Z :=
  option_map Z.of_uint (NilEmpty.uint_of_string s).

(** No stored counter is negative (they start at 1 and only grow). *)
Definition counters_nonneg (d : Server.Db) : Prop :=
  Forall (fun c => 0 <= Server.c_lastSeq c) (Server.RequestIdCounters d).

(** Every call sees a well-formed day: eight characters. *)
Definition days_well_formed (calls : list (Server.Env * option string))
  : Prop :=
  Forall (fun c => String.length (Server.today112 (fst c)) = 8%nat) calls.


(** A details row as the dialog receives it. *)
Definition snapshot_of (p : Server.PlantRow) : RequestDetailsDialog.Snapshot :=
  RequestDetailsDialog.mkSnapshot (Some (Server.p_version p))
                                  (Server.p_columns p).

(** The details rows of one request. *)
Definition plant_rows_of (requestId : string) (d : Server.Db)
  : list Server.PlantRow :=
  filter (fun p => Server.p_requestId p =? requestId)
         (Server.PlantCodeDetails d).

(** A list is in the order of a comparator: every element may stand
    before all the later ones. *)
Definition ordered {A} (before : A -> A -> bool) (l : list A) : Prop :=
  StronglySorted (fun a b => before a b = true) l.


(** The write endpoints, as calls. *)
Inductive Call : Type :=
| PostRequests (b : Server.RequestBody)
| PatchStatus (id : string) (status : option string)
| PostPlantDetails (b : Server.PlantBody)
| PostApprovals (b : Server.ApprovalBody)
| PostHistory (b : Server.HistoryBody).

(** Whether the call is answered ok, and the server afterwards. *)
Definition answer (e : Server.Env) (c : Call) (w : Server.World)
  : bool * Server.World :=
  match c with
  | PostRequests b =>
      match Server.post_requests e b w with
      | (Server.ok _, w') => (true, w')
      | (Server.fail _ _, w') => (false, w')
      end
  | PatchStatus id status =>
      match Server.patch_request_status e id status w with
      | (Server.ok _, w') => (true, w')
      | (Server.fail _ _, w') => (false, w')
      end
  | PostPlantDetails b =>
      match Server.post_plant_details e b w with
      | (Server.ok _, w') => (true, w')
      | (Server.fail _ _, w') => (false, w')
      end
  | PostApprovals b =>
      match Server.post_approvals e b w with
      | (Server.ok _, w') => (true, w')
      | (Server.fail _ _, w') => (false, w')
      end
  | PostHistory b =>
      match Server.post_history e b w with
      | (Server.ok _, w') => (true, w')
      | (Server.fail _ _, w') => (false, w')
      end
  end.

Definition run (e : Server.Env) (c : Call) (w : Server.World)
  : Server.World := snd (answer e c w).

(** A history of calls, each in the environment of its moment. *)
Fixpoint run_all (calls : list (Server.Env * Call)) (w : Server.World)
  : Server.World :=
  match calls with
  | [] => w
  | (e, c) :: rest => run_all rest (run e c w)
  end.

(** The primary keys and the UNIQUE constraints of the DDL. *)
Definition keys_unique (d : Server.Db) : Prop :=
  NoDup (map Server.r_requestId (Server.Requests d))
  /\ NoDup (map (fun p => (Server.p_requestId p, Server.p_version p))
               (Server.PlantCodeDetails d))
  /\ NoDup (map (fun a => (Server.a_requestId a, Server.a_approverEmail a))
               (Server.Approvals d))
  /\ NoDup (map (fun h => (Server.h_requestId h, Server.h_timestamp h))
               (Server.HistoryLogs d))
  /\ NoDup (map (fun c => (Server.c_prefix c, Server.c_yyyymmdd c))
               (Server.RequestIdCounters d)).

(** How a write statement may change a table: not at all, by updating
    stored rows in place without touching their key, or by adding one row
    under a key that was free.  [updated old new] is what is known of a
    rewritten row, [added] what is known of an added one. *)
Definition table_step {A K} (key : A -> K) (updated : A -> A -> Prop)
           (added : A -> Prop) (t t' : list A) : Prop :=
  t' = t
  \/ (exists f, t' = map f t
                /\ forall a, In a t ->
                             key (f a) = key a
                             /\ (f a = a \/ updated a (f a)))
  \/ (exists row, ~ In (key row) (map key t) /\ added row
                  /\ t' = (t ++ [row])%list).

(** One write, table by table. *)
Definition db_step (d d' : Server.Db) : Prop :=
  table_step Server.r_requestId
     (fun r r' =>
        Server.mem (Server.r_status r') Server.CHECK_status = true
        /\ (Server.r_type r' = Server.r_type r
            \/ Server.mem (Server.r_type r') Server.CHECK_type = true))
     (fun r => Server.mem (Server.r_type r) Server.CHECK_type = true
               /\ Server.mem (Server.r_status r) Server.CHECK_status = true)
     (Server.Requests d) (Server.Requests d')
  /\ table_step (fun p => (Server.p_requestId p, Server.p_version p))
       (fun _ _ => True)
       (fun p => Server.has_request (Server.p_requestId p)
                                    (Server.Requests d) = true)
       (Server.PlantCodeDetails d) (Server.PlantCodeDetails d')
  /\ table_step (fun a => (Server.a_requestId a, Server.a_approverEmail a))
       (fun _ a' => Server.mem (Server.a_decision a') Server.CHECK_decision
                    = true)
       (fun a => Server.mem (Server.a_decision a) Server.CHECK_decision
                 = true
                 /\ Server.has_request (Server.a_requestId a)
                                       (Server.Requests d) = true)
       (Server.Approvals d) (Server.Approvals d')
  /\ table_step (fun h => (Server.h_requestId h, Server.h_timestamp h))
       (fun _ _ => True)
       (fun h => Server.has_request (Server.h_requestId h)
                                    (Server.Requests d) = true)
       (Server.HistoryLogs d) (Server.HistoryLogs d')
  /\ table_step (fun c => (Server.c_prefix c, Server.c_yyyymmdd c))
       (fun _ _ => True) (fun _ => True)
       (Server.RequestIdCounters d) (Server.RequestIdCounters d').


(** A stored request as the approver dashboard holds it. *)
Definition loaded (r : Server.RequestRow) : ApprovalDashboard.Request :=
  ApprovalDashboard.mkRequest (Server.r_requestId r) (Server.r_status r).

(** The stored decisions of one request. *)
Definition approvals_of (requestId : string) (d : Server.Db)
  : list Server.ApprovalRow :=
  filter (fun a => Server.a_requestId a =? requestId) (Server.Approvals d).

(** The stored history entries of one request. *)
Definition history_of (requestId : string) (d : Server.Db)
  : list Server.HistoryRow :=
  filter (fun h => Server.h_requestId h =? requestId) (Server.HistoryLogs d).

(** Every key stored in [d] is still stored in [d'], table by table. *)
Definition keys_kept (d d' : Server.Db) : Prop :=
  incl (map Server.r_requestId (Server.Requests d))
       (map Server.r_requestId (Server.Requests d'))
  /\ incl (map (fun p => (Server.p_requestId p, Server.p_version p))
               (Server.PlantCodeDetails d))
          (map (fun p => (Server.p_requestId p, Server.p_version p))
               (Server.PlantCodeDetails d'))
  /\ incl (map (fun a => (Server.a_requestId a, Server.a_approverEmail a))
               (Server.Approvals d))
          (map (fun a => (Server.a_requestId a, Server.a_approverEmail a))
               (Server.Approvals d'))
  /\ incl (map (fun c => (Server.c_prefix c, Server.c_yyyymmdd c))
               (Server.RequestIdCounters d))
          (map (fun c => (Server.c_prefix c, Server.c_yyyymmdd c))
               (Server.RequestIdCounters d')).


(** The primary key and the CHECK constraint of [dbo.Users]. *)
Definition users_well_formed (t : list Users.UserRow) : Prop :=
  NoDup (map Users.u_email t)
  /\ Forall (fun u => Server.mem (Users.u_role u) Users.CHECK_role = true) t.

(** The address as both normalisations first make it: trimmed and in
    lower case. *)
Definition cleaned (s : string) : string :=
  Text.toLowerCase (Text.trim s).

(** The string does not start with white space. *)
Definition headed (s : string) : Prop := after_space s = None.

(** Every character of the string is an ASCII character or a white-space
    character: the strings on which [Text.toLowerCase] is the whole of
    JavaScript's [toLowerCase]. *)
Fixpoint plain (s : string) : bool :=
  match s with
  | EmptyString => true
  | String a r =>
      if (nat_of_ascii a <? 128)%nat then plain r
      else
        match r with
        | EmptyString => false
        | String b r2 =>
            if is_space2 a b then plain r2
            else
              match r2 with
              | EmptyString => false
              | String c r3 => if is_space3 a b c then plain r3 else false
              end
        end
  end.

(** No white-space character holds a byte below 128 other than the six
    ASCII ones; every byte of a blank string is a byte of white space. *)
Definition space_byte (c : ascii) : bool :=
  (is_space c || Nat.leb 128 (nat_of_ascii c))%bool.


(** A line of a pair list: not empty, and with no line feed in it. *)
Definition is_line (s : string) : Prop :=
  s <> "" /\ Text.includes_char Text.newline_char s = false.

(** The pairs a form shows for the two fields of a pair list. *)
Definition pairs_of (prev : PlantPairs.Fields) : list (string * string) :=
  PlantPairs.listPairs (fst prev) (snd prev).

(** The two fields of a pair list hold as many lines each. *)
Definition paired (prev : PlantPairs.Fields) : Prop :=
  List.length (Text.lines (fst prev)) = List.length (Text.lines (snd prev)).


(** The details row the plant form writes for a request and a version:
    every field of the form, as typed. *)
Definition details_row (requestId : string) (f : PlantCodeForm.FormData)
           (version : Z) : Server.PlantRow :=
  Server.mkPlantRow requestId version
                    (map (fun kv => (fst kv, Some (snd kv)))
                         (PlantCodeForm.entries f)).


(* ================================================================== *)
(** ** Lists and strings *)
(* ================================================================== *)

Section ListFacts.
Context {A : Type}.
Variable f : A -> bool.

Lemma existsb_find_some (l : list A) :
  existsb f l = true -> exists x, find f l = Some x /\ f x = true.
Proof.
  induction l as [|a l IH]; simpl; [discriminate|].
  destruct (f a) eqn:Ha; [eauto|].
  simpl. exact IH.
Qed.

Lemma existsb_false_find (l : list A) :
  existsb f l = false -> find f l = None.
Proof.
  induction l as [|a l IH]; simpl; [reflexivity|].
  destruct (f a); simpl; [discriminate|exact IH].
Qed.

Lemma find_some_filter (l : list A) (x : A) :
  find f l = Some x -> exists r, filter f l = x :: r.
Proof.
  induction l as [|a l IH]; simpl; [discriminate|].
  destruct (f a) eqn:Ha.
  - intros [= ->]. eauto.
  - exact IH.
Qed.

Lemma find_app_none (l : list A) (x : A) :
  find f l = None -> f x = true -> find f (l ++ [x]) = Some x.
Proof.
  induction l as [|a l IH]; simpl; intros Hn Hx.
  - now rewrite Hx.
  - destruct (f a); [discriminate|auto].
Qed.

Lemma find_app_other (l : list A) (x : A) :
  f x = false -> find f (l ++ [x]) = find f l.
Proof.
  intros Hx. induction l as [|a l IH]; simpl.
  - now rewrite Hx.
  - destruct (f a); auto.
Qed.

Lemma find_map_stable (g : A -> A) (l : list A) :
  (forall a, f (g a) = f a) ->
  find f (map g l) = option_map g (find f l).
Proof.
  intros Hg. induction l as [|a l IH]; simpl; [reflexivity|].
  rewrite Hg. destruct (f a); simpl; auto.
Qed.


End ListFacts.

Lemma length4 (s : string) :
  String.length s = 4%nat ->
  exists a b c d, s = String a (String b (String c (String d ""))).
Proof.
  destruct s as [|a [|b [|c [|d [|x s]]]]]; simpl; try discriminate.
  intros _. now exists a, b, c, d.
Qed.

Lemma length2 (s : string) :
  String.length s = 2%nat -> exists a b, s = String a (String b "").
Proof.
  destruct s as [|a [|b [|x s]]]; simpl; try discriminate.
  intros _. now exists a, b.
Qed.

Lemma toUpperCase_empty (s : string) : toUpperCase s = "" -> s = "".
Proof. destruct s; simpl; [reflexivity|discriminate]. Qed.

Lemma upper_ascii_C (c : ascii) :
  upper_ascii c = "C"%char -> c = "C"%char \/ c = "c"%char.
Proof.
  destruct c as [[] [] [] [] [] [] [] []]; vm_compute; intros H;
    try discriminate H; auto.
Qed.

Lemma toUpperCase_C (s : string) :
  toUpperCase s = "C" <-> s = "C" \/ s = "c".
Proof.
  split.
  - destruct s as [|c r]; simpl; [discriminate|].
    intros [= Hc Hr]. apply toUpperCase_empty in Hr. subst r.
    destruct (upper_ascii_C c Hc) as [-> | ->]; auto.
  - intros [-> | ->]; reflexivity.
Qed.

Lemma length_app (s t : string) :
  String.length (s ++ t) = (String.length s + String.length t)%nat.
Proof. induction s; simpl; auto. Qed.

Lemma length_repeat_zero (n : nat) :
  String.length (repeat_string n "0") = n.
Proof. induction n; simpl; auto. Qed.

Lemma length_padStart0 (n : nat) (s : string) :
  String.length (padStart0 n s) = Nat.max n (String.length s).
Proof.
  unfold padStart0. rewrite length_app, length_repeat_zero. lia.
Qed.


(* ================================================================== *)
(** ** The request-id allocator *)
(* ================================================================== *)

Import Server.

Lemma ncPrefix_spec (ncType : option string) :
  ncPrefix ncType = if is_C ncType then "C" else "N".
Proof.
  unfold ncPrefix, is_C, or_default.
  destruct ncType as [s|]; [|reflexivity].
  destruct (String.eqb_spec s "") as [->|Hne]; [reflexivity|].
  destruct (String.eqb_spec (toUpperCase s) "C") as [Hu|Hu].
  - apply toUpperCase_C in Hu. destruct Hu as [-> | ->]; reflexivity.
  - destruct (String.eqb_spec s "C") as [->|]; [now elim Hu|].
    destruct (String.eqb_spec s "c") as [->|]; [now elim Hu|].
    reflexivity.
Qed.

Lemma counter_on_bump (prefix day : string) (c : CounterRow) :
  counter_on prefix day
    (if counter_on prefix day c
     then mkCounterRow (c_prefix c) (c_yyyymmdd c) (c_lastSeq c + 1)
     else c) = counter_on prefix day c.
Proof. destruct (counter_on prefix day c) eqn:H; [exact H|exact H]. Qed.

Lemma merge_counter_spec (prefix day : string) (d : Db) :
  exists t rest,
    merge_counter prefix day (RequestIdCounters d)
      = (t, next_seq prefix day d :: rest)
    /\ find (counter_on prefix day) t
        = Some (mkCounterRow prefix day (next_seq prefix day d)).
Proof.
  unfold merge_counter, next_seq, counter_value.
  destruct (existsb (counter_on prefix day) (RequestIdCounters d)) eqn:Hex.
  - destruct (existsb_find_some _ _ Hex) as (c & Hfind & Hc).
    destruct (find_some_filter _ _ _ Hfind) as (r & Hfilter).
    rewrite Hfind, Hfilter. simpl.
    eexists _, _. split; [reflexivity|].
    rewrite (find_map_stable (counter_on prefix day)) by apply counter_on_bump.
    rewrite Hfind. simpl. rewrite Hc.
    unfold counter_on in Hc. apply andb_prop in Hc as [Hp Hd].
    apply String.eqb_eq in Hp, Hd. now rewrite Hp, Hd.
  - rewrite (existsb_false_find _ _ Hex). simpl.
    eexists _, _. split; [reflexivity|].
    apply find_app_none; [now apply existsb_false_find|].
    unfold counter_on. simpl. now rewrite !String.eqb_refl.
Qed.

Lemma ddmmyyyy_of_spec (yyyy mm dd : string) :
  String.length yyyy = 4%nat -> String.length mm = 2%nat ->
  String.length dd = 2%nat ->
  ddmmyyyy_of (yyyy ++ mm ++ dd) = dd ++ mm ++ yyyy.
Proof.
  intros Hy Hm Hd.
  destruct (length4 _ Hy) as (a & b & c & e & ->).
  destruct (length2 _ Hm) as (m1 & m2 & ->).
  destruct (length2 _ Hd) as (d1 & d2 & ->).
  reflexivity.
Qed.

Lemma three_digits (n : Z) :
  1 <= n <= 999 -> String.length (padStart0 3 (String_of_Z n)) = 3%nat.
Proof.
  intros Hn.
  assert (Hall : three_digits_upto 999 = true) by (vm_compute; reflexivity).
  unfold three_digits_upto in Hall. rewrite forallb_forall in Hall.
  specialize (Hall (Z.to_nat n)).
  rewrite Z2Nat.id in Hall by lia.
  apply Nat.eqb_eq, Hall, in_seq. lia.
Qed.

(** C6 (as amended).  [generateRequestId] always returns, and what it
    returns is [prefix_DDMMYYYY_seq]: the prefix is C when [ncType] is the
    letter C in either case and N otherwise; DDMMYYYY is the server-local
    day rearranged; the sequence is the value the (prefix, day) counter has
    after the single MERGE statement -- its old value plus one, or 1 on the
    day's first allocation -- padded with zeros to three characters (exactly
    three up to 999).  No other table is written. *)
Theorem generateRequestId_format
        (e : Env) (ncType : option string) (d : Db) (yyyy mm dd : string) :
  String.length yyyy = 4%nat ->
  String.length mm = 2%nat ->
  String.length dd = 2%nat ->
  today112 e = yyyy ++ mm ++ dd ->
  let prefix := if is_C ncType then "C" else "N" in
  let n := next_seq prefix (today112 e) d in
  exists d',
    generateRequestId e ncType d
      = (Return (prefix ++ "_" ++ (dd ++ mm ++ yyyy) ++ "_"
                        ++ padStart0 3 (String_of_Z n)), d')
    /\ counter_value prefix (today112 e) d' = Some n
    /\ (counter_value prefix (today112 e) d = None -> n = 1)
    /\ (forall k, counter_value prefix (today112 e) d = Some k -> n = k + 1)
    /\ (1 <= n <= 999 ->
        String.length (padStart0 3 (String_of_Z n)) = 3%nat)
    /\ Requests d' = Requests d
    /\ PlantCodeDetails d' = PlantCodeDetails d
    /\ Approvals d' = Approvals d
    /\ HistoryLogs d' = HistoryLogs d.
Proof.
  intros Hy Hm Hd Hday prefix n.
  unfold generateRequestId. rewrite ncPrefix_spec. fold prefix.
  destruct (merge_counter_spec prefix (today112 e) d) as (t & rest & Hm' & Hf).
  rewrite Hm'. fold n. eexists. split.
  - rewrite <- (ddmmyyyy_of_spec yyyy mm dd Hy Hm Hd), <- Hday. reflexivity.
  - split; [|split; [|split; [|split]]].
    + unfold counter_value. simpl. fold n in Hf. now rewrite Hf.
    + intros Hnone. unfold n, next_seq. now rewrite Hnone.
    + intros k Hk. unfold n, next_seq. now rewrite Hk.
    + apply three_digits.
    + repeat split.
Qed.

Lemma generateRequestId_format_witness :
  exists d',
    generateRequestId Sample.env (Some "C") (db Sample.empty)
      = (Return "C_01012025_001", d')
    /\ counter_value "C" "20250101" d' = Some 1.
Proof.
  destruct (generateRequestId_format Sample.env (Some "C") (db Sample.empty)
              "2025" "01" "01" eq_refl eq_refl eq_refl eq_refl)
    as (d' & Hrun & Hc & _).
  exists d'. split; [exact Hrun|exact Hc].
Defined.

(** C6, the claim as written, fails: the prefix is not C "exactly when
    ncType is 'C'" -- a lower-case c is upper-cased first and gets a C id
    too. *)
Lemma generateRequestId_lowercase_c :
  Some "c" <> Some "C"
  /\ fst (generateRequestId Sample.env (Some "c") (db Sample.empty))
     = Return "C_01012025_001".
Proof. split; [discriminate|reflexivity]. Qed.


(* ================================================================== *)
(** ** The approval ledger *)
(* ================================================================== *)



Lemma approval_key_eq (rid email : string) (a : ApprovalRow) :
  approval_key rid email a = true ->
  a_requestId a = rid /\ a_approverEmail a = email.
Proof.
  unfold approval_key. intros H. apply andb_prop in H as [H1 H2].
  now apply String.eqb_eq in H1, H2.
Qed.






(* ================================================================== *)
(** ** The history log *)
(* ================================================================== *)

Lemma existsb_app_one {A} (f : A -> bool) (l : list A) (x : A) :
  f x = true -> existsb f (l ++ [x]) = true.
Proof.
  intros Hx. rewrite existsb_app. simpl. rewrite Hx.
  now rewrite orb_true_r.
Qed.

(** Whatever a call to the history endpoint does, the rows that were
    there stay as they were, in place: the table afterwards is the table
    before, with at most one row added at the end. *)
Lemma post_history_appends (e : Env) (b : HistoryBody) (w : World) :
  exists added,
    HistoryLogs (db (snd (post_history e b w)))
      = (HistoryLogs (db w) ++ added)%list
    /\ (List.length added <= 1)%nat.
Proof.
  unfold post_history, insert_history.
  destruct (negb (truthy (hb_requestId b)) || negb (truthy (hb_action b))
            || negb (truthy (hb_user b)))%bool; simpl.
  - exists []. split; [now rewrite app_nil_r|simpl; lia].
  - destruct (existsb _ (HistoryLogs (db w))); simpl.
    + exists []. split; [now rewrite app_nil_r|simpl; lia].
    + destruct (has_request _ (Requests (db w))); simpl.
      * eexists [_]. split; [reflexivity|simpl; lia].
      * exists []. split; [now rewrite app_nil_r|simpl; lia].
Qed.

(** C10.  A history append only inserts: after any call the earlier rows
    are all still there, unchanged.  And once an append for a request has
    succeeded, a second append for the same requestId with the same
    millisecond timestamp is refused: its INSERT violates the (requestId,
    timestamp) primary key, the endpoint answers 500 "Failed to save
    history log", and the table is left as it was -- the colliding entry is
    neither merged nor stored. *)
Theorem history_append_only_collision_rejected
        (e1 e2 : Env) (b1 b2 : HistoryBody) (w w1 : World)
        (r1 : string * string) :
  post_history e1 b1 w = (ok r1, w1) ->
  hb_requestId b2 = hb_requestId b1 ->
  nullish (hb_timestamp b2) (node_now e2)
    = nullish (hb_timestamp b1) (node_now e1) ->
  truthy (hb_action b2) = true ->
  truthy (hb_user b2) = true ->
  (exists row,
      HistoryLogs (db w1) = (HistoryLogs (db w) ++ [row])%list
      /\ Some (h_requestId row) = hb_requestId b1
      /\ h_timestamp row = nullish (hb_timestamp b1) (node_now e1))
  /\ post_history e2 b2 w1 = (fail 500 "Failed to save history log", w1)
  /\ (forall e b w0, exists added,
         HistoryLogs (db (snd (post_history e b w0)))
           = (HistoryLogs (db w0) ++ added)%list
         /\ (List.length added <= 1)%nat).
Proof.
  intros Hfirst Hid Hts Hact Huser.
  assert (Hrow : exists row,
             HistoryLogs (db w1) = (HistoryLogs (db w) ++ [row])%list
             /\ Some (h_requestId row) = hb_requestId b1
             /\ h_timestamp row = nullish (hb_timestamp b1) (node_now e1)
             /\ truthy (hb_requestId b1) = true).
  { revert Hfirst. unfold post_history, insert_history.
    destruct (truthy (hb_requestId b1)) eqn:Hrid; simpl; [|discriminate].
    destruct (negb (truthy (hb_action b1)) || negb (truthy (hb_user b1)))%bool;
      simpl; [discriminate|].
    destruct (existsb _ (HistoryLogs (db w))); simpl; [discriminate|].
    destruct (has_request _ (Requests (db w))); simpl; [|discriminate].
    intros [= _ <-]. eexists. split; [reflexivity|]. simpl.
    split; [|split; reflexivity].
    destruct (hb_requestId b1); [reflexivity|discriminate]. }
  destruct Hrow as (row & Htab & Hrid & Hrts & Htruthy).
  split; [exists row; auto|]. split; [|apply post_history_appends].
  unfold post_history, insert_history.
  rewrite Hid, Htruthy, Hact, Huser. simpl.
  rewrite Hts, Htab, existsb_app_one; [reflexivity|].
  unfold history_key. rewrite Hrts, Z.eqb_refl, andb_true_r.
  apply String.eqb_eq. rewrite <- Hrid. reflexivity.
Qed.

Lemma history_collision_witness :
  exists w1,
    post_history Sample.env Sample.first_entry
                 (Sample.one_request "plant" "pending-secretary")
      = (ok ("N_01012025_001", "edit"), w1)
    /\ post_history Sample.env_later Sample.colliding_entry w1
        = (fail 500 "Failed to save history log", w1)
    /\ List.length (HistoryLogs (db w1)) = 1%nat.
Proof.
  eexists. split; [reflexivity|]. split; [|reflexivity].
  apply (history_append_only_collision_rejected
           Sample.env Sample.env_later
           Sample.first_entry Sample.colliding_entry
           (Sample.one_request "plant" "pending-secretary") _
           ("N_01012025_001", "edit"));
    reflexivity.
Defined.


(* ================================================================== *)
(** ** The versioned details store *)
(* ================================================================== *)

Lemma db_try_mail (e : Env) (goes_out : bool) (label : string)
      (w : World) :
  db (try_mail e goes_out label w) = db w.
Proof. unfold try_mail. now destruct (goes_out && mail_throws e)%bool. Qed.

Lemma plant_columns_are_inputs (k : string) :
  In k plant_columns -> mem k plant_inputs = true.
Proof.
  unfold plant_columns. simpl.
  intros H; repeat (destruct H as [<-|H]; [reflexivity|]); elim H.
Qed.

(** The table of the DDL has no [gstNumber] column, which the statement
    names: the batch does not compile, whatever the body. *)
Lemma upsert_plant_fails (b : PlantBody) (rid : string) (v : Z) (d : Db) :
  upsert_plant b rid v d = Throw "Invalid column name".
Proof. reflexivity. Qed.

(** So the endpoint has two answers only: 400 for a missing required
    field and 500 for everything else, with the tables as they were. *)
Lemma post_plant_details_answer (e : Env) (b : PlantBody) (w : World) :
  post_plant_details e b w
  = match first_missing b with
    | Some k => (fail 400 (k ++ " is required"), w)
    | None => (fail 500 "Failed to save plant details",
               console_error w "Plant UPSERT failed:")
    end.
Proof.
  unfold post_plant_details. destruct (first_missing b); [reflexivity|].
  now rewrite upsert_plant_fails.
Qed.

Lemma plant_details_write_always_fails (e : Env) (b : PlantBody)
      (w : World) :
  exists status message w',
    post_plant_details e b w = (fail status message, w')
    /\ db w' = db w.
Proof.
  rewrite post_plant_details_answer.
  destruct (first_missing b); eexists _, _, _; split; reflexivity.
Qed.

(** The statement itself is an overwriting upsert: against a table that
    has every column it names, wide enough for the values, a write under
    a stored key replaces the values of the stored row and is no error.
    What turns the write away on the table of the DDL is the missing
    column, not a test of the key. *)
Lemma statement_overwrites_where_it_compiles
      (table : list (string * nat)) (b : PlantBody) (rid : string) (v : Z)
      (d : Db) :
  forallb (has_column table) plant_columns = true ->
  details_for rid v b = true ->
  forallb (fits table)
          (map (fun k => (k, match body_get b k with
                             | Some x => x
                             | None => None
                             end)) plant_columns) = true ->
  existsb (plant_key rid v) (PlantCodeDetails d) = true ->
  upsert_plant_on table b rid v d
  = Return (map (fun p => if plant_key rid v p
                          then mkPlantRow
                                 (p_requestId p) (p_version p)
                                 (map (fun k => (k, match body_get b k with
                                                    | Some x => x
                                                    | None => None
                                                    end)) plant_columns)
                          else p) (PlantCodeDetails d)).
Proof.
  intros Htable Hb Hfit Hex. unfold details_for in Hb.
  apply andb_prop in Hb as [_ Hbound].
  assert (Hsame : forall k, In k plant_columns ->
                            bound_input b k = body_get b k).
  { intros k Hk. unfold bound_input.
    now rewrite (plant_columns_are_inputs k Hk). }
  assert (Hcols : map (fun k => (k, match bound_input b k with
                                    | Some x => x
                                    | None => None
                                    end)) plant_columns
                  = map (fun k => (k, match body_get b k with
                                      | Some x => x
                                      | None => None
                                      end)) plant_columns).
  { apply map_ext_in. intros k Hk. now rewrite (Hsame k Hk). }
  assert (Hall : forallb (fun k => match bound_input b k with
                                   | Some _ => true
                                   | None => false
                                   end) plant_columns = true).
  { rewrite forallb_forall in Hbound |- *. intros k Hk.
    rewrite (Hsame k Hk). now apply Hbound. }
  unfold upsert_plant_on. rewrite Htable, Hall. cbn [negb].
  rewrite Hcols, Hfit. cbn [negb]. now rewrite Hex.
Qed.




(* ================================================================== *)
(** ** The request entity: its type *)
(* ================================================================== *)

Lemma find_existsb {A} (f : A -> bool) (l : list A) (x : A) :
  find f l = Some x -> existsb f l = true.
Proof.
  induction l as [|a l IH]; simpl; [discriminate|].
  destruct (f a); simpl; auto.
Qed.

Lemma generated_id_nonempty (e : Env) (ncType : option string) (d d' : Db) :
  generateRequestId e ncType d <> (Return "", d').
Proof.
  unfold generateRequestId. rewrite ncPrefix_spec.
  destruct (merge_counter _ _ _) as [t [|n rest]]; [discriminate|].
  destruct (is_C ncType); discriminate.
Qed.

(** What a successful save does to the Requests table: the rows of the
    saved id take the supplied type, title, status and creator. *)
Lemma post_requests_existing (e : Env) (b : RequestBody) (w w' : World)
      (rid : string) (r : RequestRow) :
  rb_requestId b = Some rid ->
  find_request rid (db w) = Some r ->
  post_requests e b w = (ok rid, w') ->
  Requests (db w')
  = map (fun x => if r_requestId x =? rid
                  then mkRequestRow (r_requestId x)
                                    (nullish (rb_type b) "")
                                    (nullish (rb_title b) "")
                                    (nullish (rb_status b) "")
                                    (nullish (rb_createdBy b) "")
                                    (r_createdAt x)
                                    (nullish (rb_updatedAt b) (sysutc e))
                  else x) (Requests (db w)).
Proof.
  intros Hid Hfind. unfold post_requests.
  destruct (negb (truthy (rb_type b)) || negb (truthy (rb_title b))
            || negb (truthy (rb_status b))
            || negb (truthy (rb_createdBy b)))%bool; [discriminate|].
  rewrite Hid.
  destruct (truthy (Some rid)) eqn:Htr.
  - cbn [nullish]. unfold upsert_request.
    unfold find_request in Hfind.
    unfold has_request. rewrite (find_existsb _ _ _ Hfind).
    destruct (mem _ CHECK_type && mem _ CHECK_status)%bool; [|discriminate].
    intros [= <-].
    match goal with
    | |- context [if ?c then _ else _] => destruct c
    end; rewrite ?db_try_mail; reflexivity.
  - destruct rid; [|discriminate Htr].
    destruct (generateRequestId e (rb_ncType b) (db w)) as [[g|m] d1] eqn:Hg;
      [|discriminate].
    destruct (upsert_request _ _ _ _ _ _ _ _ _); [|discriminate].
    intros [= -> _]. now apply generated_id_nonempty in Hg.
Qed.

Lemma patch_keeps_types (e : Env) (id : string) (st : option string)
      (w : World) :
  map (fun r => (r_requestId r, r_type r))
      (Requests (db (snd (patch_request_status e id st w))))
  = map (fun r => (r_requestId r, r_type r)) (Requests (db w)).
Proof.
  unfold patch_request_status.
  destruct (negb (truthy st)); [reflexivity|].
  destruct (has_request id (Requests (db w)) && _)%bool; [reflexivity|].
  cbn [snd]. rewrite db_try_mail. cbn [db with_db set_Requests Requests].
  rewrite map_map. apply map_ext. intros r.
  now destruct (r_requestId r =? id).
Qed.

Lemma other_endpoints_keep_requests (e : Env) (w : World) :
  (forall b, Requests (db (snd (post_plant_details e b w))) = Requests (db w))
  /\ (forall b, Requests (db (snd (post_approvals e b w))) = Requests (db w))
  /\ (forall b, Requests (db (snd (post_history e b w))) = Requests (db w)).
Proof.
  split; [|split]; intros b.
  - unfold post_plant_details.
    destruct (first_missing b); [reflexivity|].
    destruct (upsert_plant _ _ _ _); cbn [snd];
      [now rewrite db_try_mail|reflexivity].
  - unfold post_approvals.
    destruct (_ || _)%bool; [reflexivity|].
    now destruct (upsert_approval _ _ _ _ _ _ _ _ _).
  - unfold post_history.
    destruct (_ || _)%bool; [reflexivity|].
    now destruct (insert_history _ _).
Qed.

(** C5 (as amended).  The status update, the details, approval and
    history writes never change a request's stored type.  A save (POST
    /api/requests) on an existing requestId writes the type it is given:
    afterwards the request's stored type is the type of that save, so it is
    unchanged exactly when the save carries the type already stored; the
    other requests keep theirs. *)
Theorem request_type_follows_save
        (e : Env) (b : RequestBody) (w w' : World) (rid : string)
        (r : RequestRow) :
  rb_requestId b = Some rid ->
  find_request rid (db w) = Some r ->
  post_requests e b w = (ok rid, w') ->
  (exists r',
      find_request rid (db w') = Some r'
      /\ r_type r' = nullish (rb_type b) ""
      /\ (r_type r' = r_type r <-> rb_type b = Some (r_type r)))
  /\ (forall id, id <> rid -> find_request id (db w') = find_request id (db w))
  /\ (forall e0 w0 id st,
         map (fun x => (r_requestId x, r_type x))
             (Requests (db (snd (patch_request_status e0 id st w0))))
         = map (fun x => (r_requestId x, r_type x)) (Requests (db w0)))
  /\ (forall e0 w0,
         (forall p, Requests (db (snd (post_plant_details e0 p w0)))
                    = Requests (db w0))
         /\ (forall a, Requests (db (snd (post_approvals e0 a w0)))
                       = Requests (db w0))
         /\ (forall h, Requests (db (snd (post_history e0 h w0)))
                       = Requests (db w0))).
Proof.
  intros Hid Hfind Hpost.
  pose proof (post_requests_existing e b w w' rid r Hid Hfind Hpost) as Htab.
  assert (Htype : truthy (rb_type b) = true).
  { revert Hpost. unfold post_requests.
    destruct (truthy (rb_type b)); [reflexivity|discriminate]. }
  split; [|split; [|split]].
  - unfold find_request in *. rewrite Htab.
    rewrite (find_map_stable (fun x => r_requestId x =? rid)).
    + rewrite Hfind. cbn [option_map].
      apply find_some in Hfind as [_ Hr]. rewrite Hr.
      eexists. split; [reflexivity|]. cbn [r_type].
      split; [reflexivity|].
      destruct (rb_type b) as [ty|]; [|discriminate].
      cbn [nullish]. split; [now intros ->|now intros [= ->]].
    + intros a. now destruct (r_requestId a =? rid) eqn:Ha.
  - intros id Hne. unfold find_request. rewrite Htab.
    rewrite (find_map_stable (fun x => r_requestId x =? id)).
    + destruct (find _ (Requests (db w))) as [x|] eqn:Hx; [|reflexivity].
      cbn [option_map]. apply find_some in Hx as [_ Hx].
      apply String.eqb_eq in Hx.
      destruct (String.eqb_spec (r_requestId x) rid) as [Heq|]; [|reflexivity].
      elim Hne. now rewrite <- Hx.
    + intros a. now destruct (r_requestId a =? rid).
  - intros. apply patch_keeps_types.
  - intros. apply other_endpoints_keep_requests.
Qed.

Lemma request_type_follows_save_witness :
  exists w' r',
    post_requests Sample.env Sample.retyping_save
                  (Sample.one_request "plant" "pending-secretary")
      = (ok "N_01012025_001", w')
    /\ find_request "N_01012025_001" (db w') = Some r'
    /\ r_type r' = "company".
Proof.
  eexists.
  destruct (request_type_follows_save
              Sample.env Sample.retyping_save
              (Sample.one_request "plant" "pending-secretary") _
              "N_01012025_001"
              (Sample.request_row "plant" "pending-secretary")
              eq_refl eq_refl eq_refl) as ((r' & Hf & Ht & _) & _).
  exists r'. split; [reflexivity|]. split; [exact Hf|exact Ht].
Defined.

(** C5, the claim as written, fails: a save on the id of an existing
    plant request that names the type company is answered ok and the stored
    type becomes company. *)
Lemma save_changes_type :
  map r_type (Requests (db (Sample.one_request "plant" "pending-secretary")))
    = ["plant"]
  /\ fst (post_requests Sample.env Sample.retyping_save
                        (Sample.one_request "plant" "pending-secretary"))
     = ok "N_01012025_001"
  /\ map r_type
         (Requests (db (snd (post_requests
                               Sample.env Sample.retyping_save
                               (Sample.one_request "plant"
                                                   "pending-secretary")))))
     = ["company"].
Proof. vm_compute. repeat split. Qed.


(* ================================================================== *)
(** ** The approval step *)
(* ================================================================== *)

Import Storage ApprovalDashboard.

Lemma truthy_some (s : string) : s <> "" -> truthy (Some s) = true.
Proof.
  intros H. unfold truthy. now destruct (String.eqb_spec s "").
Qed.

Lemma decision_text_checked (d : Decision) :
  mem (decision_text d) CHECK_decision = true.
Proof. now destruct d. Qed.

Lemma decision_text_truthy (d : Decision) :
  truthy (Some (decision_text d)) = true.
Proof. now destruct d. Qed.

(** [addApproval] goes through whenever the request exists and no history
    entry of the request carries the client's current millisecond. *)
Lemma addApproval_returns (rid email role : string) (d : Decision)
      (comment : string) (att : option string) (e : Env) (w : World) :
  rid <> "" -> email <> "" -> role <> "" ->
  has_request rid (Requests (db w)) = true ->
  existsb (history_key rid (client_now e)) (HistoryLogs (db w)) = false ->
  exists w',
    addApproval rid email role d comment att e w = (Return tt, w')
    /\ Requests (db w') = Requests (db w)
    /\ console w' = console w.
Proof.
  intros Hrid Hemail Hrole Hreq Hfree.
  unfold addApproval, bind, toISO, http, ret, post_approvals.
  cbn [ab_requestId ab_approverEmail ab_role ab_decision ab_comment
       ab_attachmentId ab_timestamp].
  rewrite (truthy_some rid Hrid), (truthy_some email Hemail),
    (truthy_some role Hrole), decision_text_truthy.
  cbn [negb orb nullish]. unfold upsert_approval.
  rewrite decision_text_checked, Hreq. cbn [negb].
  assert (Hd : (match d with approve => "approve" | reject => "reject" end)
               <> "") by (destruct d; discriminate).
  destruct (existsb (approval_key rid email) (Approvals (db w)));
    cbn [negb]; unfold post_history, insert_history;
    cbn [hb_requestId hb_action hb_user hb_timestamp hb_metadata
         h_requestId h_timestamp db with_db set_Approvals HistoryLogs
         Requests];
    rewrite (truthy_some rid Hrid), (truthy_some email Hemail),
      (truthy_some _ Hd);
    cbn [negb orb nullish h_requestId h_timestamp];
    rewrite Hfree, Hreq; cbn [negb];
    eexists; (split; [reflexivity|split; reflexivity]).
Qed.

Lemma updateRequestStatus_sets (rid st : string) (e : Env) (w : World)
      (r : RequestRow) :
  st <> "" ->
  mem st CHECK_status = true ->
  find_request rid (db w) = Some r ->
  exists w',
    updateRequestStatus rid st e w = (Return tt, w')
    /\ stored_status rid w' = Some st.
Proof.
  intros Hst Hchk Hfind.
  unfold updateRequestStatus, bind, http, ret, patch_request_status.
  rewrite (truthy_some st Hst). cbn [negb nullish].
  rewrite Hchk. cbn [negb]. rewrite andb_false_r.
  eexists. split; [reflexivity|].
  unfold stored_status, find_request in *. rewrite db_try_mail.
  cbn [db with_db set_Requests Requests].
  rewrite (find_map_stable (fun x => r_requestId x =? rid)).
  - rewrite Hfind. cbn [option_map].
    apply find_some in Hfind as [_ Hr]. now rewrite Hr.
  - intros a. now destruct (r_requestId a =? rid) eqn:Ha.
Qed.


Lemma lookup_In (k : string) (o : list (string * string)) (v : string) :
  lookup k o = Some v -> In (k, v) o.
Proof.
  unfold lookup. induction o as [|[k' v'] o IH]; cbn [find fst];
    [discriminate|].
  destruct (String.eqb_spec k' k) as [->|Hne].
  - cbn. intros [= ->]. now left.
  - intros H. right. exact (IH H).
Qed.

Lemma canApprove_pairs (role : string) (req : Request) :
  canApprove role req = true
  <-> In (status req, role) statusRoleMap.
Proof.
  unfold canApprove. split.
  - destruct (lookup (status req) statusRoleMap) as [r|] eqn:Hl;
      [|discriminate].
    intros H. apply String.eqb_eq in H. subst r. now apply lookup_In.
  - intros H. unfold statusRoleMap in H.
    repeat (destruct H as [H|H];
            [injection H as <- <-; reflexivity|]).
    elim H.
Qed.

Lemma upsert_approval_member (e : Env) (rid email role decision : string)
      (comment att : option string) (ts : option Z) (d : Db) :
  mem decision CHECK_decision = true ->
  has_request rid (Requests d) = true ->
  exists t,
    upsert_approval e rid email role decision comment att ts d = Return t
    /\ In (mkApprovalRow rid email role decision comment att
                         (nullish ts (sysutc e))) t.
Proof.
  intros Hdec Hreq. unfold upsert_approval. rewrite Hdec, Hreq. cbn [negb].
  destruct (existsb (approval_key rid email) (Approvals d)) eqn:Hex;
    cbn [negb]; eexists; (split; [reflexivity|]).
  - destruct (existsb_find_some _ _ Hex) as (a & Hfind & Hkey).
    apply find_some in Hfind as [Hin _].
    apply in_map_iff. exists a. rewrite Hkey. split; [|exact Hin].
    apply approval_key_eq in Hkey as [-> ->]. reflexivity.
  - apply in_or_app. right. now left.
Qed.

Lemma updateRequestStatus_frame (rid st : string) (e : Env) (w w' : World)
      (res : Result unit) :
  updateRequestStatus rid st e w = (res, w') ->
  PlantCodeDetails (db w') = PlantCodeDetails (db w)
  /\ Approvals (db w') = Approvals (db w)
  /\ HistoryLogs (db w') = HistoryLogs (db w)
  /\ RequestIdCounters (db w') = RequestIdCounters (db w).
Proof.
  unfold updateRequestStatus, bind, http, ret, patch_request_status.
  destruct (negb (truthy (Some st))); [now intros [= _ <-]|].
  destruct (_ && _)%bool; [now intros [= _ <-]|].
  intros [= _ <-]. rewrite db_try_mail. repeat split.
Qed.






(** The same through the user interface: raghu's list still shows the
    request as pending-raghu while the requestor's resubmission has put it
    back to pending-secretary; his approval goes through and the request
    lands on pending-manoj, past two stages that never saw it. *)
Lemma stale_list_skips_stages :
  pendingRequests (Sample.raghu_dashboard "pending-raghu" "ok")
    = [ApprovalDashboard.mkRequest "N_01012025_001" "pending-raghu"]
  /\ listed "pending-secretary" "raghu" approve = false
  /\ fst (handleApproval (Sample.raghu_dashboard "pending-raghu" "ok")
                         "N_01012025_001" approve Sample.env
                         (Sample.one_request "plant" "pending-secretary"))
     = toast_success "Request approved successfully"
  /\ stored_status "N_01012025_001"
       (snd (handleApproval (Sample.raghu_dashboard "pending-raghu" "ok")
                            "N_01012025_001" approve Sample.env
                            (Sample.one_request "plant" "pending-secretary")))
     = Some "pending-manoj".
Proof. vm_compute. repeat split. Qed.

(* ================================================================== *)
(** ** The mandatory comment *)
(* ================================================================== *)

Lemma post_approvals_ignores_comment (e : Env) (b : ApprovalBody)
      (c : option string) (w : World) :
  fst (post_approvals e (with_comment b c) w) = fst (post_approvals e b w).
Proof.
  unfold post_approvals, with_comment.
  cbn [ab_requestId ab_approverEmail ab_role ab_decision ab_comment
       ab_attachmentId ab_timestamp].
  destruct (_ || _)%bool; [reflexivity|].
  unfold upsert_approval.
  destruct (negb (existsb _ (Approvals (db w))));
    destruct (negb (mem _ CHECK_decision)); try reflexivity.
  destruct (negb (has_request _ (Requests (db w)))); reflexivity.
Qed.

Lemma post_approvals_stores_null (e : Env) (b : ApprovalBody)
      (w w' : World) (data : string * string * string * string)
      (a : ApprovalRow) :
  truthy (ab_comment b) = false ->
  post_approvals e b w = (ok data, w') ->
  In a (Approvals (db w')) ->
  approval_key (nullish (ab_requestId b) "")
               (nullish (ab_approverEmail b) "") a = true ->
  a_comment a = None.
Proof.
  intros Hc. unfold post_approvals.
  destruct (_ || _)%bool; [discriminate|].
  unfold upsert_approval, or_null. rewrite Hc.
  destruct (existsb _ (Approvals (db w))) eqn:Hex; cbn [negb];
    (destruct (mem _ CHECK_decision); cbn [negb]; [|discriminate]).
  - intros [= _ <-]. cbn [db with_db set_Approvals Approvals].
    intros Hin Hkey. apply in_map_iff in Hin as (a0 & <- & _).
    destruct (approval_key _ _ a0) eqn:Ha0; [reflexivity|congruence].
  - destruct (has_request _ (Requests (db w))); cbn [negb]; [|discriminate].
    intros [= _ <-]. cbn [db with_db set_Approvals Approvals].
    intros Hin Hkey. apply in_app_or in Hin as [Hin|[<-|[]]];
      [|reflexivity].
    assert (Hex' : existsb (approval_key (nullish (ab_requestId b) "")
                                         (nullish (ab_approverEmail b) ""))
                           (Approvals (db w)) = true)
      by (apply existsb_exists; eauto).
    congruence.
Qed.

(** C3 (as amended).  In the approver dashboard a decision whose comment
    is empty or holds only white space is turned away before anything is
    sent: the user is told to add a comment and the server is left exactly
    as it was, so no approval row is written and no status changes.  The
    approvals endpoint itself asks for no comment: its answer is the same
    whatever the comment, and when the comment is missing or empty the row
    of the pair is stored with a NULL comment. *)
Theorem handleApproval_blank_comment_sends_nothing
        (s : State) (rid : string) (d : Decision) (e : Env) (w : World) :
  blank (approvalComment s) = true ->
  handleApproval s rid d e w
    = (toast_error "Please add a comment for your decision", w)
  /\ (forall e0 b c w0,
         fst (post_approvals e0 (with_comment b c) w0)
         = fst (post_approvals e0 b w0))
  /\ (forall e0 b w0 w1 data a,
         truthy (ab_comment b) = false ->
         post_approvals e0 b w0 = (ok data, w1) ->
         In a (Approvals (db w1)) ->
         approval_key (nullish (ab_requestId b) "")
                      (nullish (ab_approverEmail b) "") a = true ->
         a_comment a = None).
Proof.
  intros Hblank. split; [|split].
  - unfold handleApproval. now rewrite Hblank.
  - intros. apply post_approvals_ignores_comment.
  - intros. eapply post_approvals_stores_null; eassumption.
Qed.

Lemma handleApproval_blank_comment_witness :
  handleApproval (Sample.raghu_dashboard "pending-raghu" Sample.spaces)
                 "N_01012025_001" approve Sample.env
                 (Sample.one_request "plant" "pending-raghu")
  = (toast_error "Please add a comment for your decision",
     Sample.one_request "plant" "pending-raghu").
Proof.
  apply (handleApproval_blank_comment_sends_nothing
           (Sample.raghu_dashboard "pending-raghu" Sample.spaces)
           "N_01012025_001" approve Sample.env
           (Sample.one_request "plant" "pending-raghu")).
  reflexivity.
Defined.

(** C3, the claim as written, fails: recording a decision with a missing
    or an empty comment does not fail.  The endpoint answers ok and the
    ledger row is written with a NULL comment, and so does [addApproval]
    of the client layer. *)
Lemma decision_without_comment_is_recorded :
  fst (post_approvals Sample.env (with_comment Sample.first_decision None)
                      (Sample.one_request "plant" "pending-secretary"))
    = ok ("N_01012025_001", Sample.secretary, "secretary", "reject")
  /\ map a_comment
         (Approvals
            (db (snd (post_approvals
                        Sample.env (with_comment Sample.first_decision None)
                        (Sample.one_request "plant" "pending-secretary")))))
     = [None]
  /\ fst (addApproval "N_01012025_001" Sample.secretary "secretary" approve
                      "" None Sample.env
                      (Sample.one_request "plant" "pending-secretary"))
     = Return tt
  /\ map a_comment
         (Approvals
            (db (snd (addApproval
                        "N_01012025_001" Sample.secretary "secretary" approve
                        "" None Sample.env
                        (Sample.one_request "plant" "pending-secretary")))))
     = [None].
Proof. vm_compute. repeat split. Qed.


(* ================================================================== *)
(** ** Submission: the status a form writes *)
(* ================================================================== *)

Lemma post_requests_stores_status (e : Env) (b : RequestBody) (w w' : World)
      (rid : string) :
  post_requests e b w = (ok rid, w') ->
  stored_status rid w' = Some (nullish (rb_status b) "").
Proof.
  unfold post_requests, stored_status.
  destruct (_ || _)%bool; [discriminate|].
  destruct (if truthy (rb_requestId b) then _ else _) as [[g|m] d1];
    [|discriminate].
  unfold upsert_request, has_request.
  destruct (existsb (fun r => r_requestId r =? g) (Requests d1)) eqn:Hex;
    (destruct (mem _ CHECK_type && mem _ CHECK_status)%bool; [|discriminate]);
    intros [= <- <-];
    match goal with
    | |- context [if ?c then _ else _] => destruct c
    end; rewrite ?db_try_mail;
    unfold find_request; cbn [db with_db set_Requests Requests].
  1,2: destruct (existsb_find_some _ _ Hex) as (x & Hx & Hkey);
       rewrite (find_map_stable (fun r => r_requestId r =? g))
         by (intros a; now destruct (r_requestId a =? g) eqn:Ha);
       rewrite Hx; cbn [option_map]; now rewrite Hkey.
  1,2: rewrite find_app_none;
       [reflexivity | now apply existsb_false_find
        | cbn [r_requestId]; apply String.eqb_refl].
Qed.

Lemma saveRequest_stores_status (request : Storage.Request) (e : Env)
      (w w' : World) :
  saveRequest request e w = (Return tt, w') ->
  exists b rid,
    post_requests e b w = (ok rid, w')
    /\ rb_type b = Some (Storage.type request)
    /\ rb_status b = Some (Storage.status request)
    /\ stored_status rid w' = Some (Storage.status request).
Proof.
  unfold saveRequest, bind, toISO, http, ret.
  match goal with
  | |- context [post_requests e ?b w] =>
      destruct (post_requests e b w) as [[rid|c m] w1] eqn:Hpost
  end; [|discriminate].
  intros [= <-]. eexists _, rid. split; [exact Hpost|].
  split; [reflexivity|]. split; [reflexivity|].
  now rewrite (post_requests_stores_status _ _ _ _ _ Hpost).
Qed.

(** The company form, for comparison: every request it saves -- new,
    edited or change request -- is stored as pending-secretary. *)
Lemma company_submission_enters_at_secretary
      (p : FormProps.Props) (companyCode nameOfCompanyCode : string)
      (now : Z) (e : Env) (w w' : World) (out : option string) :
  CompanyCodeForm.saveRequestStep p companyCode nameOfCompanyCode now e w
    = (Return out, w') ->
  exists b rid,
    post_requests e b w = (ok rid, w')
    /\ rb_type b = Some "company"
    /\ rb_status b = Some "pending-secretary"
    /\ stored_status rid w' = Some "pending-secretary".
Proof.
  unfold CompanyCodeForm.saveRequestStep.
  destruct (FormProps.editing p); unfold bind at 1;
    match goal with
    | |- context [saveRequest ?r e w] =>
        destruct (saveRequest r e w) as [[[]|m] w1] eqn:Hsave
    end; try discriminate;
    unfold ret; intros [= _ <-];
    exact (saveRequest_stores_status _ _ _ _ Hsave).
Qed.

(** C1: where the code departs from the claim.  Every request the plant
    form saves -- new, edited or change request -- is stored with status
    pending-siva, not pending-secretary: plant submissions enter the chain
    at the second stage. *)
Theorem plant_submission_enters_at_siva
        (p : FormProps.Props) (f : PlantCodeForm.FormData) (now : Z)
        (e : Env) (w w' : World) (out : option string) :
  PlantCodeForm.saveRequestStep p f now e w = (Return out, w') ->
  exists b rid,
    post_requests e b w = (ok rid, w')
    /\ rb_type b = Some "plant"
    /\ rb_status b = Some "pending-siva"
    /\ stored_status rid w' = Some "pending-siva".
Proof.
  unfold PlantCodeForm.saveRequestStep.
  destruct (FormProps.editing p); unfold bind at 1;
    match goal with
    | |- context [saveRequest ?r e w] =>
        destruct (saveRequest r e w) as [[[]|m] w1] eqn:Hsave
    end; try discriminate;
    unfold ret; intros [= _ <-];
    exact (saveRequest_stores_status _ _ _ _ Hsave).
Qed.

Lemma plant_submission_witness :
  exists b rid w',
    post_requests Sample.env b Sample.empty = (ok rid, w')
    /\ rb_type b = Some "plant"
    /\ rb_status b = Some "pending-siva"
    /\ stored_status rid w' = Some "pending-siva".
Proof.
  destruct (plant_submission_enters_at_siva
              Sample.new_request (Sample.form "Alpha") 1735689600000
              Sample.env Sample.empty _ None eq_refl)
    as (b & rid & H).
  exists b, rid. eexists. exact H.
Defined.

(** The three submissions of the plant form, run: a new request, the
    resubmission of a rejected request and a change request each leave
    their request at pending-siva. *)
Lemma plant_form_runs :
  map (fun r => (r_requestId r, r_status r))
      (Requests (db (snd (PlantCodeForm.handleSubmit
                            Sample.new_request (Sample.confirmed_form None)
                            (JObj [("type", JStr "plant")]) Sample.env
                            Sample.empty))))
    = [("N_01012025_001", "pending-siva")]
  /\ map (fun r => (r_requestId r, r_status r))
         (Requests (db (snd (PlantCodeForm.handleSubmit
                               Sample.edit_request
                               (Sample.confirmed_form (Some 1))
                               (JObj [("type", JStr "plant")]) Sample.env
                               (Sample.one_request "plant" "rejected")))))
     = [("N_01012025_001", "pending-siva")]
  /\ map (fun r => (r_requestId r, r_status r))
         (Requests (db (snd (PlantCodeForm.handleSubmit
                               Sample.change_request
                               (Sample.confirmed_form (Some 1))
                               (JObj [("type", JStr "plant")]) Sample.env
                               (Sample.one_request "plant" "approved")))))
     = [("N_01012025_001", "approved"); ("N_01012025_002", "pending-siva")].
Proof. vm_compute. repeat split. Qed.


(* ================================================================== *)
(** ** Side channels: mail and the history log *)
(* ================================================================== *)

Lemma generateRequestId_with_mail (e : Env) (m : bool) (n : option string)
      (d : Db) :
  generateRequestId (with_mail e m) n d = generateRequestId e n d.
Proof. reflexivity. Qed.

(** On the server a failing mail call is caught and logged: the three
    endpoints that send mail give the same answer and leave the same
    database with the mail service down as with it up. *)
Lemma mail_failure_is_swallowed (e : Env) (w : World) :
  (forall b,
      fst (post_plant_details (with_mail e true) b w)
      = fst (post_plant_details (with_mail e false) b w)
      /\ db (snd (post_plant_details (with_mail e true) b w))
         = db (snd (post_plant_details (with_mail e false) b w)))
  /\ (forall id st,
         fst (patch_request_status (with_mail e true) id st w)
         = fst (patch_request_status (with_mail e false) id st w)
         /\ db (snd (patch_request_status (with_mail e true) id st w))
            = db (snd (patch_request_status (with_mail e false) id st w)))
  /\ (forall b,
         fst (post_requests (with_mail e true) b w)
         = fst (post_requests (with_mail e false) b w)
         /\ db (snd (post_requests (with_mail e true) b w))
            = db (snd (post_requests (with_mail e false) b w))).
Proof.
  split; [|split].
  - intros b. rewrite !post_plant_details_answer.
    destruct (first_missing b); split; reflexivity.
  - intros id st. unfold patch_request_status.
    destruct (negb (truthy st)); [split; reflexivity|].
    destruct (_ && _)%bool; [split; reflexivity|].
    cbn [fst snd]. split; [reflexivity|]. now rewrite !db_try_mail.
  - intros b. unfold post_requests.
    destruct (_ || _)%bool; [split; reflexivity|].
    rewrite !generateRequestId_with_mail.
    destruct (if truthy (rb_requestId b) then _ else _) as [[g|m] d1];
      [|split; reflexivity].
    unfold upsert_request. cbn [with_mail sysutc].
    destruct (has_request g (Requests d1));
      (destruct (mem _ CHECK_type && mem _ CHECK_status)%bool;
       [|split; reflexivity]);
      match goal with
      | |- context [if ?c then _ else _] => destruct c
      end; cbn [fst snd]; (split; [reflexivity|]);
      now rewrite ?db_try_mail.
Qed.

(** A save with the mail service down: answered ok, the failure only
    logged.  A status that has no role to notify sends no mail, so there
    is nothing to log. *)
Lemma save_with_mail_down :
  fst (post_requests Sample.env_mail_down Sample.retyping_save
                     (Sample.one_request "plant" "rejected"))
    = ok "N_01012025_001"
  /\ console (snd (post_requests
                     Sample.env_mail_down Sample.retyping_save
                     (Sample.one_request "plant" "rejected")))
     = ["sendStageEmail (create) failed:"]
  /\ console (snd (patch_request_status
                     Sample.env_mail_down "N_01012025_001" (Some "approved")
                     (Sample.one_request "plant" "pending-manoj")))
     = [].
Proof. vm_compute. repeat split. Qed.

(** C8: where the code departs from the claim.  In [addApproval] the
    history entry is posted with no [try]/[catch] around it.  When that
    insert fails -- here because the request already has a history entry
    in the same millisecond -- [addApproval] throws although the approval
    row is already stored, and [handleApproval] reports "Failed to process
    approval" and never reaches the status update: the failure of the audit
    log is reported as a failure of the approval. *)
Theorem history_failure_fails_the_approval
        (s : State) (rid : string) (d : Decision) (e : Env) (w : World)
        (request : Request) :
  blank (approvalComment s) = false ->
  find (fun x => id x =? rid) (requests s) = Some request ->
  rid <> "" -> userEmail s <> "" -> userRole s <> "" ->
  has_request rid (Requests (db w)) = true ->
  existsb (history_key rid (client_now e)) (HistoryLogs (db w)) = true ->
  exists w',
    addApproval rid (userEmail s) (userRole s) d (approvalComment s) None e w
      = (Throw "Failed to save history log", w')
    /\ handleApproval s rid d e w
        = (toast_error "Failed to process approval", w')
    /\ In (mkApprovalRow rid (userEmail s) (userRole s) (decision_text d)
                         (or_null (Some (approvalComment s))) None
                         (client_now e))
          (Approvals (db w'))
    /\ Requests (db w') = Requests (db w)
    /\ HistoryLogs (db w') = HistoryLogs (db w).
Proof.
  intros Hcomment Hloaded Hrid Hemail Hrole Hreq Hcoll.
  destruct (upsert_approval_member e rid (userEmail s) (userRole s)
              (decision_text d) (or_null (Some (approvalComment s))) None
              (Some (client_now e)) (db w) (decision_text_checked d) Hreq)
    as (t & Hup & Hin).
  assert (Hd : (match d with approve => "approve" | reject => "reject" end)
               <> "") by (destruct d; discriminate).
  assert (Hadd : addApproval rid (userEmail s) (userRole s) d
                             (approvalComment s) None e w
                 = (Throw "Failed to save history log",
                    with_db w (set_Approvals (db w) t))).
  { unfold addApproval, bind, toISO, http, ret, post_approvals.
    cbn [ab_requestId ab_approverEmail ab_role ab_decision ab_comment
         ab_attachmentId ab_timestamp].
    rewrite (truthy_some rid Hrid), (truthy_some _ Hemail),
      (truthy_some _ Hrole), decision_text_truthy.
    cbn [negb orb nullish].
    replace (or_null None) with (@None string) by reflexivity.
    rewrite Hup.
    unfold post_history, insert_history.
    cbn [hb_requestId hb_action hb_user hb_timestamp hb_metadata
         h_requestId h_timestamp db with_db set_Approvals HistoryLogs
         Requests].
    rewrite (truthy_some rid Hrid), (truthy_some _ Hemail),
      (truthy_some _ Hd).
    cbn [negb orb nullish h_requestId h_timestamp].
    now rewrite Hcoll. }
  eexists. split; [exact Hadd|]. split.
  - unfold handleApproval. rewrite Hcomment, Hloaded.
    unfold bind. now rewrite Hadd.
  - split; [exact Hin|]. split; reflexivity.
Qed.

Lemma history_failure_witness :
  exists w',
    handleApproval (Sample.secretary_dashboard "ok") "N_01012025_001"
                   approve Sample.env Sample.logged_this_instant
      = (toast_error "Failed to process approval", w')
    /\ map a_decision (Approvals (db w')) = ["approve"]
    /\ stored_status "N_01012025_001" w' = Some "pending-secretary".
Proof.
  destruct (history_failure_fails_the_approval
              (Sample.secretary_dashboard "ok") "N_01012025_001" approve
              Sample.env Sample.logged_this_instant
              (ApprovalDashboard.mkRequest "N_01012025_001"
                                           "pending-secretary"))
    as (w' & _ & Hhandle & _); try reflexivity; try discriminate.
  eexists. split; [reflexivity|]. split; reflexivity.
Defined.

(** The forms wrap their history write in [try]/[catch] ("non-critical:
    do not fail overall if this throws"): whatever happens to the insert,
    a colliding entry included, the step returns; and when the insert
    failed the server is as it was. *)
Lemma plant_form_survives_history_failure (log : HistoryLog) (e : Env)
      (w : World) :
  fst (try_ignore (saveHistoryLog log) e w) = Return tt
  /\ (forall m, fst (saveHistoryLog log e w) = Throw m ->
                snd (try_ignore (saveHistoryLog log) e w) = w).
Proof.
  unfold try_ignore, saveHistoryLog, bind, http, ret, post_history.
  destruct (_ || _)%bool; [split; [reflexivity|intros; reflexivity]|].
  destruct (insert_history _ _);
    (split; [reflexivity|]); intros m Hm; [discriminate|reflexivity].
Qed.

(* ================================================================== *)
(** ** The display-time diff *)
(* ================================================================== *)

Import RequestDetailsDialog.

Lemma insert_desc_perm (x : Snapshot) (l : list Snapshot) :
  Permutation (x :: l) (insert_desc x l).
Proof.
  induction l as [|y r IH]; simpl; [apply Permutation_refl|].
  destruct (version_number y <=? version_number x)%Z.
  - apply Permutation_refl.
  - eapply perm_trans; [apply perm_swap|]. now apply perm_skip.
Qed.

Lemma sortedVersions_perm (versions : list Snapshot) :
  Permutation versions (sortedVersions versions).
Proof.
  induction versions as [|x l IH]; simpl; [constructor|].
  eapply perm_trans; [apply perm_skip, IH|apply insert_desc_perm].
Qed.

(** The key of the dialog's sort is the [version] field. *)
Lemma stored_version_is_the_key (x : Snapshot) :
  stored_version x = version_number x.
Proof. reflexivity. Qed.

Ltac by_version_field :=
  unfold above, stored_version, version_number, nullish in *.

Lemma insert_desc_sorted (x : Snapshot) (l : list Snapshot) :
  StronglySorted above l -> StronglySorted above (insert_desc x l).
Proof.
  induction l as [|y r IH]; simpl; intros Hs.
  - constructor; constructor.
  - apply StronglySorted_inv in Hs as [Hr Hy].
    destruct (Z.leb_spec (version_number y) (version_number x)) as [Hle|Hgt].
    + constructor; [constructor; assumption|].
      constructor; [by_version_field; exact Hle|].
      eapply Forall_impl; [|exact Hy]. cbn beta. intros z Hz.
      by_version_field. lia.
    + constructor; [now apply IH|].
      eapply Permutation_Forall; [apply insert_desc_perm|].
      constructor; [by_version_field; lia|exact Hy].
Qed.

Lemma sortedVersions_sorted (versions : list Snapshot) :
  StronglySorted above (sortedVersions versions).
Proof.
  induction versions as [|x l IH]; simpl; [constructor|].
  now apply insert_desc_sorted.
Qed.

(** C9.  With fewer than two stored versions the display-time diff is
    [hasChanges = false] with no changes.  With two or more, the diff is
    [compareObjects(prev, latest)] of two stored snapshots: [latest]
    carries, in its [version] field, a number that no stored snapshot
    exceeds, [prev] one that no remaining snapshot exceeds, and [latest],
    the higher, is the new side. *)
Theorem diff_compares_two_highest
        (compareObjects : Snapshot -> Snapshot -> string -> CompareResult)
        (versions : list Snapshot) (type : string) :
  ((List.length versions < 2)%nat ->
   diff compareObjects versions type = mkCompareResult false [] []
   /\ hasChanges (diff compareObjects versions type) = false
   /\ changes (diff compareObjects versions type) = [])
  /\ ((2 <= List.length versions)%nat ->
      exists latest prev rest,
        sortedVersions versions = latest :: prev :: rest
        /\ Permutation versions (latest :: prev :: rest)
        /\ stored_version prev <= stored_version latest
        /\ (forall x, In x rest -> stored_version x <= stored_version prev)
        /\ (forall x, In x versions ->
                      stored_version x <= stored_version latest)
        /\ diff compareObjects versions type
           = compareObjects prev latest type).
Proof.
  pose proof (sortedVersions_perm versions) as Hperm.
  pose proof (sortedVersions_sorted versions) as Hsorted.
  pose proof (Permutation_length Hperm) as Hlen.
  unfold diff.
  destruct (sortedVersions versions) as [|latest [|prev rest]] eqn:Hs;
    simpl in Hlen; split; intros Hn; try lia.
  - repeat split.
  - repeat split.
  - exists latest, prev, rest.
    apply StronglySorted_inv in Hsorted as [Htail Hlatest].
    apply StronglySorted_inv in Htail as [_ Hprev].
    split; [reflexivity|]. split; [exact Hperm|].
    split; [now inversion Hlatest|].
    split; [|split; [|reflexivity]].
    + intros x Hx. rewrite Forall_forall in Hprev. now apply Hprev.
    + intros x Hx. rewrite Forall_forall in Hlatest.
      destruct (Permutation_in _ Hperm Hx) as [<-|Hin];
        [unfold stored_version; lia|now apply Hlatest].
Qed.

Lemma diff_witness :
  diff Sample.compare_versions Sample.three_versions "plant"
  = mkCompareResult true
                    [mkChange "version" "Version" "2 Beta" "3 Gamma"]
                    ["version"]
  /\ diff Sample.compare_versions [Sample.snapshot 1 "Alpha"] "plant"
     = mkCompareResult false [] [].
Proof.
  split.
  - destruct (diff_compares_two_highest
                Sample.compare_versions Sample.three_versions "plant")
      as [_ Htwo].
    destruct Htwo as (latest & prev & rest & Hs & _ & _ & _ & _ & Hdiff);
      [simpl; lia|].
    injection Hs as <- <- _. exact Hdiff.
  - apply (diff_compares_two_highest
             Sample.compare_versions [Sample.snapshot 1 "Alpha"] "plant").
    simpl. lia.
Defined.

(* ================================================================== *)
(** ** The allocator: ids are never handed out twice *)
(* ================================================================== *)

Lemma digits_value_zero (s : string) :
  digits_value (String "0" s) = digits_value s.
Proof.
  unfold digits_value. cbn [NilEmpty.uint_of_string].
  destruct (NilEmpty.uint_of_string s); reflexivity.
Qed.

Lemma digits_value_zeros (k : nat) (s : string) :
  digits_value (repeat_string k "0" ++ s) = digits_value s.
Proof.
  induction k as [|k IH]; [reflexivity|].
  cbn [repeat_string append]. now rewrite digits_value_zero.
Qed.

(** The sequence number can be read back from its padded text. *)
Lemma digits_value_padded (n : Z) :
  0 <= n -> digits_value (padStart0 3 (String_of_Z n)) = Some n.
Proof.
  intros Hn. unfold padStart0. rewrite digits_value_zeros.
  unfold String_of_Z, digits_value.
  destruct n as [|p|p]; [reflexivity| |lia].
  cbn [Z.to_int NilZero.string_of_int].
  unfold NilZero.string_of_uint.
  pose proof (DecimalPos.Unsigned.to_uint_nonnil p) as Hnil.
  destruct (Pos.to_uint p) eqn:Hu; try (now elim Hnil);
    rewrite <- Hu, NilEmpty.usu; cbn [option_map]; unfold Z.of_uint;
    now rewrite DecimalPos.Unsigned.of_to.
Qed.

Lemma padded_inj (n m : Z) :
  0 <= n -> 0 <= m ->
  padStart0 3 (String_of_Z n) = padStart0 3 (String_of_Z m) -> n = m.
Proof.
  intros Hn Hm H.
  pose proof (digits_value_padded n Hn) as Hdn.
  rewrite H, (digits_value_padded m Hm) in Hdn. now injection Hdn.
Qed.

Lemma length8 (s : string) :
  String.length s = 8%nat ->
  exists a b c d e f g h,
    s = String a (String b (String c (String d
          (String e (String f (String g (String h ""))))))).
Proof.
  destruct s as [|a [|b [|c [|d [|e [|f [|g [|h [|x s]]]]]]]]]; simpl;
    try discriminate.
  intros _. now exists a, b, c, d, e, f, g, h.
Qed.

Lemma id_text_inj (p q day day' : string) (n m : Z) :
  (p = "C" \/ p = "N") -> (q = "C" \/ q = "N") ->
  String.length day = 8%nat -> String.length day' = 8%nat ->
  0 <= n -> 0 <= m ->
  id_text p day n = id_text q day' m ->
  p = q /\ day = day' /\ n = m.
Proof.
  intros Hp Hq Hd Hd' Hn Hm.
  destruct (length8 _ Hd) as (a1 & a2 & a3 & a4 & a5 & a6 & a7 & a8 & ->).
  destruct (length8 _ Hd') as (b1 & b2 & b3 & b4 & b5 & b6 & b7 & b8 & ->).
  unfold id_text, ddmmyyyy_of, slice.
  cbn [substring Nat.sub append].
  destruct Hp as [-> | ->], Hq as [-> | ->]; cbn [append];
    intros H; injection H as H; try discriminate;
    repeat match goal with
           | H : _ = _ |- _ => progress subst
           end.
  all: split; [reflexivity|]; split; [reflexivity|];
    now apply padded_inj.
Qed.

Lemma counter_on_key (p day q day' : string) (c : CounterRow) :
  counter_on p day c = true -> counter_on q day' c = true ->
  p = q /\ day = day'.
Proof.
  unfold counter_on. intros H1 H2.
  apply andb_prop in H1 as [A1 B1]. apply andb_prop in H2 as [A2 B2].
  apply String.eqb_eq in A1, B1, A2, B2. split; congruence.
Qed.

Lemma find_bump_other (prefix day p day' : string) (t : list CounterRow) :
  ~ (p = prefix /\ day' = day) ->
  option_map c_lastSeq
    (find (counter_on p day')
          (map (fun c => if counter_on prefix day c
                         then mkCounterRow (c_prefix c) (c_yyyymmdd c)
                                           (c_lastSeq c + 1)
                         else c) t))
  = option_map c_lastSeq (find (counter_on p day') t).
Proof.
  intros Hother. induction t as [|c t IH]; [reflexivity|].
  cbn [map find].
  destruct (counter_on prefix day c) eqn:Hc.
  - assert (Hp : counter_on p day' c = false).
    { destruct (counter_on p day' c) eqn:Hpc; [|reflexivity].
      elim Hother. destruct (counter_on_key _ _ _ _ _ Hpc Hc). auto. }
    change (counter_on p day'
              (mkCounterRow (c_prefix c) (c_yyyymmdd c) (c_lastSeq c + 1)))
      with (counter_on p day' c).
    now rewrite Hp.
  - destruct (counter_on p day' c); [reflexivity|exact IH].
Qed.

(** An allocation moves the counter of its own (prefix, day) by one and
    leaves every other counter where it was. *)
Lemma merge_counter_other (prefix day p day' : string) (d : Db) :
  ~ (p = prefix /\ day' = day) ->
  option_map c_lastSeq
    (find (counter_on p day')
          (fst (merge_counter prefix day (RequestIdCounters d))))
  = counter_value p day' d.
Proof.
  intros Hother. unfold merge_counter, counter_value.
  destruct (existsb (counter_on prefix day) (RequestIdCounters d));
    cbn [fst].
  - now apply find_bump_other.
  - rewrite find_app_other; [reflexivity|].
    unfold counter_on. cbn.
    destruct (String.eqb_spec prefix p) as [->|]; [|reflexivity].
    destruct (String.eqb_spec day day') as [->|]; [|reflexivity].
    now elim Hother.
Qed.

Lemma generateRequestId_run (e : Env) (ncType : option string) (d : Db) :
  exists d',
    generateRequestId e ncType d
    = (Return (id_text (if is_C ncType then "C" else "N") (today112 e)
                       (next_seq (if is_C ncType then "C" else "N")
                                 (today112 e) d)), d')
    /\ RequestIdCounters d'
       = fst (merge_counter (if is_C ncType then "C" else "N") (today112 e)
                            (RequestIdCounters d))
    /\ next_seq (if is_C ncType then "C" else "N") (today112 e) d'
       = next_seq (if is_C ncType then "C" else "N") (today112 e) d + 1
    /\ counter_value (if is_C ncType then "C" else "N") (today112 e) d'
       = Some (next_seq (if is_C ncType then "C" else "N") (today112 e) d).
Proof.
  unfold generateRequestId. rewrite ncPrefix_spec.
  set (prefix := if is_C ncType then "C" else "N").
  destruct (merge_counter_spec prefix (today112 e) d)
    as (t & rest & Hm & Hf).
  rewrite Hm. eexists. split; [reflexivity|]. split; [reflexivity|].
  unfold next_seq at 1, counter_value. cbn [RequestIdCounters
    set_RequestIdCounters]. rewrite Hf. split; reflexivity.
Qed.

Lemma next_seq_positive (p day : string) (d : Db) :
  counters_nonneg d -> 1 <= next_seq p day d.
Proof.
  unfold counters_nonneg, next_seq, counter_value. intros Hall.
  destruct (find (counter_on p day) (RequestIdCounters d)) as [c|] eqn:Hf;
    [|cbn; lia].
  apply find_some in Hf as [Hin _]. rewrite Forall_forall in Hall.
  specialize (Hall c Hin). cbn. lia.
Qed.

Lemma merge_counter_nonneg (prefix day : string) (d : Db) :
  counters_nonneg d ->
  Forall (fun c => 0 <= c_lastSeq c)
         (fst (merge_counter prefix day (RequestIdCounters d))).
Proof.
  unfold counters_nonneg, merge_counter. intros Hall.
  destruct (existsb _ _); cbn [fst].
  - rewrite Forall_forall in *. intros c Hc.
    apply in_map_iff in Hc as (c0 & <- & Hin). specialize (Hall c0 Hin).
    destruct (counter_on prefix day c0); cbn; lia.
  - apply Forall_app. split; [exact Hall|]. constructor; [cbn; lia|constructor].
Qed.

Lemma next_seq_monotone (e : Env) (ncType : option string) (d d' : Db)
      (id : Result string) (p day : string) :
  generateRequestId e ncType d = (id, d') ->
  next_seq p day d <= next_seq p day d'.
Proof.
  intros Hg.
  destruct (generateRequestId_run e ncType d) as (d1 & Hrun & Htab & Hnext & _).
  rewrite Hrun in Hg. injection Hg as _ <-.
  set (prefix := if is_C ncType then "C" else "N") in *.
  destruct (String.eqb_spec p prefix) as [->|Hp].
  - destruct (String.eqb_spec day (today112 e)) as [->|Hd]; [lia|].
    unfold next_seq, counter_value. rewrite Htab.
    rewrite merge_counter_other by (intros [_ ?]; now elim Hd).
    unfold counter_value. lia.
  - unfold next_seq, counter_value. rewrite Htab.
    rewrite merge_counter_other by (intros [? _]; now elim Hp).
    unfold counter_value. lia.
Qed.

Lemma allocated_ids_are_fresh (calls : list (Env * option string)) (d : Db)
      (x : Result string) :
  days_well_formed calls ->
  In x (allocate_all calls d) ->
  exists p day n,
    x = Return (id_text p day n)
    /\ (p = "C" \/ p = "N")
    /\ String.length day = 8%nat
    /\ next_seq p day d <= n.
Proof.
  revert d. induction calls as [|[e ncType] rest IH]; intros d Hdays Hin;
    [elim Hin|].
  cbn [allocate_all] in Hin.
  destruct (generateRequestId e ncType d) as [id d'] eqn:Hg.
  apply Forall_cons_iff in Hdays as [Hday Hdays]. cbn [fst] in Hday.
  destruct Hin as [<-|Hin].
  - destruct (generateRequestId_run e ncType d) as (d1 & Hrun & _).
    rewrite Hrun in Hg. injection Hg as <- _.
    eexists _, _, _. split; [reflexivity|]. split.
    + destruct (is_C ncType); auto.
    + split; [exact Hday|lia].
  - destruct (IH d' Hdays Hin) as (p & day & n & Hx & Hp & Hl & Hn).
    exists p, day, n. repeat split; try assumption.
    pose proof (next_seq_monotone e ncType d d' id p day Hg). lia.
Qed.

(** X1.  Whatever the order and kinds of the allocations, and across
    days, no id is handed out twice: a run of [generateRequestId] calls on
    a counter table without negative counters returns pairwise different
    ids, and every call returns one. *)
Theorem allocations_never_repeat
        (calls : list (Env * option string)) (d : Db) :
  counters_nonneg d ->
  days_well_formed calls ->
  NoDup (allocate_all calls d)
  /\ List.length (allocate_all calls d) = List.length calls
  /\ (forall x, In x (allocate_all calls d) -> exists id, x = Return id).
Proof.
  intros Hnn Hdays. split; [|split].
  - revert d Hnn. induction calls as [|[e ncType] rest IH]; intros d Hnn;
      [constructor|].
    cbn [allocate_all].
    destruct (generateRequestId e ncType d) as [id d'] eqn:Hg.
    pose proof Hdays as Hdays0.
    apply Forall_cons_iff in Hdays as [Hday Hrest]. cbn [fst] in Hday.
    destruct (generateRequestId_run e ncType d)
      as (d1 & Hrun & Htab & Hnext & _).
    rewrite Hrun in Hg. injection Hg as <- <-.
    assert (Hnn1 : counters_nonneg d1).
    { unfold counters_nonneg. rewrite Htab.
      now apply merge_counter_nonneg. }
    constructor; [|now apply IH].
    intros Hin.
    destruct (allocated_ids_are_fresh rest d1 _ Hrest Hin)
      as (p & day & n & Hx & Hp & Hl & Hn).
    injection Hx as Hx.
    pose proof (next_seq_positive (if is_C ncType then "C" else "N")
                                  (today112 e) d Hnn) as H1.
    pose proof (next_seq_positive p day d1 Hnn1) as H2.
    apply id_text_inj in Hx as (Ep & Ed & En); try assumption; try lia.
    + rewrite <- Ep, <- Ed in Hn. lia.
    + destruct (is_C ncType); auto.
  - clear Hnn Hdays. revert d.
    induction calls as [|[e ncType] rest IH]; intros d; [reflexivity|].
    cbn [allocate_all]. destruct (generateRequestId e ncType d).
    cbn. now rewrite IH.
  - intros x Hin.
    destruct (allocated_ids_are_fresh calls d x Hdays Hin)
      as (p & day & n & -> & _). eauto.
Qed.

Lemma allocations_never_repeat_witness :
  allocate_all [(Sample.env, None); (Sample.env, Some "C");
                (Sample.env, Some "N"); (Sample.env_later, Some "c")]
               (db (Sample.one_request "plant" "approved"))
  = [Return "N_01012025_002"; Return "C_01012025_001";
     Return "N_01012025_003"; Return "C_01012025_002"]
  /\ NoDup (allocate_all [(Sample.env, None); (Sample.env, Some "C");
                          (Sample.env, Some "N");
                          (Sample.env_later, Some "c")]
                         (db (Sample.one_request "plant" "approved"))).
Proof.
  split; [reflexivity|].
  apply (allocations_never_repeat
           [(Sample.env, None); (Sample.env, Some "C");
            (Sample.env, Some "N"); (Sample.env_later, Some "c")]
           (db (Sample.one_request "plant" "approved"))).
  - repeat constructor. cbn. lia.
  - repeat constructor.
Defined.

(** X2.  An allocation touches one counter only: after
    [generateRequestId], the counter of every other (prefix, day) is what
    it was, and the allocation's own counter is one more than before (1 if
    there was none). *)
Theorem allocation_touches_one_counter
        (e : Env) (ncType : option string) (d d' : Db) (id : Result string)
        (p day : string) :
  generateRequestId e ncType d = (id, d') ->
  ~ (p = (if is_C ncType then "C" else "N") /\ day = today112 e) ->
  counter_value p day d' = counter_value p day d
  /\ counter_value (if is_C ncType then "C" else "N") (today112 e) d'
     = Some (next_seq (if is_C ncType then "C" else "N") (today112 e) d).
Proof.
  intros Hg Hother.
  destruct (generateRequestId_run e ncType d)
    as (d1 & Hrun & Htab & _ & Hc).
  rewrite Hrun in Hg. injection Hg as _ <-. split; [|exact Hc].
  unfold counter_value at 1. rewrite Htab.
  now apply merge_counter_other.
Qed.

Lemma allocation_touches_one_counter_witness :
  counter_value "N" "20250101"
    (snd (generateRequestId Sample.env (Some "C")
                            (db (Sample.one_request "plant" "approved"))))
  = Some 1
  /\ counter_value "C" "20250101"
       (snd (generateRequestId Sample.env (Some "C")
                               (db (Sample.one_request "plant" "approved"))))
     = Some 1.
Proof.
  apply (allocation_touches_one_counter
           Sample.env (Some "C") (db (Sample.one_request "plant" "approved"))
           _ _ "N" "20250101" eq_refl).
  intros [H _]. discriminate H.
Defined.

(* ================================================================== *)
(** ** Sorting, as ORDER BY and [Array.prototype.sort] do it *)
(* ================================================================== *)

Section SortFacts.
Context {A : Type}.
Variable before : A -> A -> bool.
Hypothesis before_total : forall a b, before a b = true \/ before b a = true.
Hypothesis before_trans :
  forall a b c, before a b = true -> before b c = true -> before a c = true.

Lemma insert_sorted_perm (x : A) (l : list A) :
  Permutation (x :: l) (Text.insert_sorted before x l).
Proof.
  induction l as [|y r IH]; cbn; [apply Permutation_refl|].
  destruct (before x y); [apply Permutation_refl|].
  eapply perm_trans; [apply perm_swap|]. now apply perm_skip.
Qed.

Lemma sort_perm (l : list A) : Permutation l (Text.sort before l).
Proof.
  induction l as [|x l IH]; cbn; [constructor|].
  eapply perm_trans; [apply perm_skip, IH|apply insert_sorted_perm].
Qed.

Lemma insert_sorted_ordered (x : A) (l : list A) :
  ordered before l -> ordered before (Text.insert_sorted before x l).
Proof.
  unfold ordered. induction l as [|y r IH]; cbn; intros Hs.
  - constructor; constructor.
  - apply StronglySorted_inv in Hs as [Hr Hy].
    destruct (before x y) eqn:Hxy.
    + constructor; [constructor; assumption|].
      constructor; [exact Hxy|].
      eapply Forall_impl; [|exact Hy]. cbn. intros z Hz.
      now apply before_trans with y.
    + constructor; [now apply IH|].
      eapply Permutation_Forall; [apply insert_sorted_perm|].
      constructor; [|exact Hy].
      destruct (before_total x y) as [H|H]; [congruence|exact H].
Qed.

Lemma sort_ordered (l : list A) : ordered before (Text.sort before l).
Proof.
  induction l as [|x l IH]; cbn; [constructor|].
  now apply insert_sorted_ordered.
Qed.

Lemma sort_of_ordered (l : list A) :
  ordered before l -> Text.sort before l = l.
Proof.
  unfold ordered. induction l as [|x l IH]; [reflexivity|].
  intros Hs. apply StronglySorted_inv in Hs as [Hl Hx].
  change (Text.sort before (x :: l))
    with (Text.insert_sorted before x (Text.sort before l)).
  rewrite (IH Hl). destruct l as [|y r]; [reflexivity|].
  cbn. apply Forall_inv in Hx. now rewrite Hx.
Qed.

Lemma sort_idempotent (l : list A) :
  Text.sort before (Text.sort before l) = Text.sort before l.
Proof. apply sort_of_ordered, sort_ordered. Qed.
End SortFacts.

Lemma desc_total {A} (key : A -> Z) (a b : A) :
  (key b <=? key a)%Z = true \/ (key a <=? key b)%Z = true.
Proof. destruct (Z.leb_spec (key b) (key a)); [auto|right; apply Z.leb_le; lia]. Qed.

Lemma desc_trans {A} (key : A -> Z) (a b c : A) :
  (key b <=? key a)%Z = true -> (key c <=? key b)%Z = true ->
  (key c <=? key a)%Z = true.
Proof. rewrite !Z.leb_le. lia. Qed.

Lemma asc_total {A} (key : A -> Z) (a b : A) :
  (key a <=? key b)%Z = true \/ (key b <=? key a)%Z = true.
Proof. destruct (Z.leb_spec (key a) (key b)); [auto|right; apply Z.leb_le; lia]. Qed.

Lemma asc_trans {A} (key : A -> Z) (a b c : A) :
  (key a <=? key b)%Z = true -> (key b <=? key c)%Z = true ->
  (key a <=? key c)%Z = true.
Proof. rewrite !Z.leb_le. lia. Qed.

(* ================================================================== *)
(** ** The versioned details store: reads *)
(* ================================================================== *)

Import Reads.

Lemma get_plant_details_perm (rid : string) (d : Db) :
  Permutation (plant_rows_of rid d) (get_plant_details rid d).
Proof. apply sort_perm. Qed.

Lemma get_plant_details_ordered (rid : string) (d : Db) :
  ordered (fun a b => (p_version b <=? p_version a)%Z)
          (get_plant_details rid d).
Proof.
  apply sort_ordered.
  - intros a b. apply (desc_total p_version).
  - intros a b c. apply (desc_trans p_version).
Qed.

(** X3.  The latest-details endpoint answers null exactly when the
    request has no details row; otherwise it answers a row of the request
    whose version no other row of the request exceeds, the first row of
    the versions list. *)
Theorem latest_is_highest_version (rid : string) (d : Db) :
  (get_plant_latest rid d = None <-> plant_rows_of rid d = [])
  /\ (forall p,
         get_plant_latest rid d = Some p ->
         In p (PlantCodeDetails d)
         /\ p_requestId p = rid
         /\ (forall q, In q (PlantCodeDetails d) -> p_requestId q = rid ->
                       p_version q <= p_version p)
         /\ hd_error (get_plant_details rid d) = Some p).
Proof.
  pose proof (get_plant_details_perm rid d) as Hperm.
  pose proof (get_plant_details_ordered rid d) as Hord.
  unfold get_plant_latest. split.
  - split; intros H.
    + destruct (get_plant_details rid d) as [|x l]; [|discriminate].
      now apply Permutation_sym, Permutation_nil in Hperm.
    + rewrite H in Hperm. apply Permutation_nil in Hperm. now rewrite Hperm.
  - intros p Hp.
    destruct (get_plant_details rid d) as [|x l] eqn:Hl; [discriminate|].
    injection Hp as ->.
    assert (Hin : In p (plant_rows_of rid d)).
    { eapply Permutation_in; [apply Permutation_sym, Hperm|now left]. }
    apply filter_In in Hin as [Hin Hkey]. apply String.eqb_eq in Hkey.
    repeat split; try assumption.
    intros q Hq Hqk.
    assert (Hq' : In q (p :: l)).
    { eapply Permutation_in; [exact Hperm|].
      apply filter_In. split; [exact Hq|now apply String.eqb_eq]. }
    destruct Hq' as [<-|Hq']; [lia|].
    apply StronglySorted_inv in Hord as [_ Hall].
    rewrite Forall_forall in Hall. apply Z.leb_le. now apply Hall.
Qed.

Lemma sortedVersions_of_descending (l : list RequestDetailsDialog.Snapshot) :
  StronglySorted above l -> sortedVersions l = l.
Proof.
  induction l as [|x l IH]; [reflexivity|].
  intros Hs. apply StronglySorted_inv in Hs as [Hl Hx].
  change (sortedVersions (x :: l)) with (insert_desc x (sortedVersions l)).
  rewrite (IH Hl). destruct l as [|y r]; [reflexivity|].
  cbn. apply Forall_inv in Hx. by_version_field.
  apply Z.leb_le in Hx. now rewrite Hx.
Qed.

Lemma StronglySorted_weaken {A} (R R' : A -> A -> Prop) (l : list A) :
  (forall a b, R a b -> R' a b) -> StronglySorted R l -> StronglySorted R' l.
Proof.
  intros Himp. induction 1 as [|a l Hs IH Ha]; constructor; [exact IH|].
  eapply Forall_impl; [|exact Ha]. intros b. apply Himp.
Qed.

Lemma StronglySorted_map {A B} (f : A -> B) (R : B -> B -> Prop)
      (l : list A) :
  StronglySorted (fun a b => R (f a) (f b)) l -> StronglySorted R (map f l).
Proof.
  induction 1 as [|a l Hs IH Ha]; cbn; constructor; [exact IH|].
  now apply Forall_map.
Qed.

(** X4.  The versions endpoint lists exactly the details rows of the
    request, highest version first, and the dialog's own re-sort leaves
    that list as it is: with two or more versions the display-time diff is
    [compareObjects] of the list's second row (old side) and first row (new
    side). *)
Theorem versions_listed_descending
        (compareObjects : RequestDetailsDialog.Snapshot ->
                          RequestDetailsDialog.Snapshot -> string ->
                          RequestDetailsDialog.CompareResult)
        (rid type : string) (d : Db) :
  Permutation (plant_rows_of rid d) (get_plant_details rid d)
  /\ ordered (fun a b => (p_version b <=? p_version a)%Z)
             (get_plant_details rid d)
  /\ sortedVersions (map snapshot_of (get_plant_details rid d))
     = map snapshot_of (get_plant_details rid d)
  /\ (forall latest prev rest,
         get_plant_details rid d = latest :: prev :: rest ->
         diff compareObjects (map snapshot_of (get_plant_details rid d)) type
         = compareObjects (snapshot_of prev) (snapshot_of latest) type).
Proof.
  pose proof (get_plant_details_ordered rid d) as Hord.
  assert (Hsame : sortedVersions (map snapshot_of (get_plant_details rid d))
                  = map snapshot_of (get_plant_details rid d)).
  { apply sortedVersions_of_descending, StronglySorted_map.
    eapply StronglySorted_weaken; [|exact Hord].
    cbn. intros a b H. unfold above, snapshot_of. cbn.
    now apply Z.leb_le. }
  split; [apply get_plant_details_perm|]. split; [exact Hord|].
  split; [exact Hsame|].
  intros latest prev rest Hl. unfold diff. rewrite Hsame, Hl. reflexivity.
Qed.

(* ================================================================== *)
(** ** The constraints of the schema are kept by every write *)
(* ================================================================== *)

Lemma NoDup_app_one {A} (l : list A) (x : A) :
  NoDup l -> ~ In x l -> NoDup (l ++ [x]).
Proof.
  intros Hl Hx. apply NoDup_app; [exact Hl|repeat constructor; auto|].
  intros a Ha [<-|[]]. now apply Hx.
Qed.

Section TableStep.
Context {A K : Type}.
Variable key : A -> K.
Variable updated : A -> A -> Prop.
Variable added : A -> Prop.

Lemma step_same (t : list A) : table_step key updated added t t.
Proof. now left. Qed.

Lemma step_map_keys (f : A -> A) (t : list A) :
  (forall a, In a t -> key (f a) = key a /\ (f a = a \/ updated a (f a))) ->
  map key (map f t) = map key t.
Proof.
  intros Hf. rewrite map_map. apply map_ext_in. intros a Ha.
  now apply Hf.
Qed.

Lemma step_NoDup (t t' : list A) :
  table_step key updated added t t' ->
  NoDup (map key t) -> NoDup (map key t').
Proof.
  intros [->|[(f & -> & Hf)|(row & Hfresh & _ & ->)]] Hnd; [exact Hnd| |].
  - now rewrite (step_map_keys f t Hf).
  - rewrite map_app. cbn. apply NoDup_app_one; assumption.
Qed.

Lemma step_keys (t t' : list A) (k : K) :
  table_step key updated added t t' ->
  In k (map key t) -> In k (map key t').
Proof.
  intros [->|[(f & -> & Hf)|(row & _ & _ & ->)]] Hin; [exact Hin| |].
  - now rewrite (step_map_keys f t Hf).
  - rewrite map_app. apply in_or_app. now left.
Qed.

(** The shape of every UPDATE of the endpoints: the stored rows a key
    test picks are rewritten, the others are left. *)
Lemma step_update (pick : A -> bool) (g : A -> A) (t : list A) :
  (forall a, In a t -> pick a = true ->
             key (g a) = key a /\ updated a (g a)) ->
  table_step key updated added t
             (map (fun a => if pick a then g a else a) t).
Proof.
  intros Hg. right. left. eexists. split; [reflexivity|].
  intros a Hin. cbn beta. destruct (pick a) eqn:Hp; [|auto].
  destruct (Hg a Hin Hp). auto.
Qed.

(** The shape of every INSERT: a row under a key that no stored row
    has. *)
Lemma step_insert (pick : A -> bool) (row : A) (t : list A) :
  (forall a, key a = key row -> pick a = true) ->
  existsb pick t = false -> added row ->
  table_step key updated added t (t ++ [row]).
Proof.
  intros Hpick Hfree Hrow. right. right. exists row.
  split; [|auto]. intros Hin. apply in_map_iff in Hin as (a & Hk & Hin).
  assert (Hex : existsb pick t = true)
    by (apply existsb_exists; exists a; auto).
  congruence.
Qed.
End TableStep.

Lemma has_request_In (id : string) (t : list RequestRow) :
  has_request id t = true <-> In id (map r_requestId t).
Proof.
  unfold has_request. rewrite existsb_exists, in_map_iff.
  split; intros (r & H1 & H2).
  - exists r. split; [now apply String.eqb_eq|exact H1].
  - exists r. split; [exact H2|now apply String.eqb_eq].
Qed.

Lemma merge_counter_step (prefix day : string) (t : list CounterRow) :
  table_step (fun c => (c_prefix c, c_yyyymmdd c))
             (fun _ _ => True) (fun _ => True)
             t (fst (merge_counter prefix day t)).
Proof.
  unfold merge_counter.
  destruct (existsb (counter_on prefix day) t) eqn:Hex; cbn [fst].
  - apply step_update. intros a _ _. split; [reflexivity|exact I].
  - eapply step_insert; [|exact Hex|exact I].
    intros a Ha. cbn in Ha. injection Ha as Hp Hd.
    unfold counter_on. now rewrite Hp, Hd, !String.eqb_refl.
Qed.

Lemma generateRequestId_tables (e : Env) (n : option string) (d : Db) :
  let d' := snd (generateRequestId e n d) in
  Requests d' = Requests d
  /\ PlantCodeDetails d' = PlantCodeDetails d
  /\ Approvals d' = Approvals d
  /\ HistoryLogs d' = HistoryLogs d
  /\ RequestIdCounters d'
     = fst (merge_counter (ncPrefix n) (today112 e) (RequestIdCounters d)).
Proof.
  unfold generateRequestId.
  destruct (merge_counter _ _ _) as [t [|x r]]; cbn; repeat split.
Qed.

Lemma upsert_request_step (e : Env) (rid ty ti st cb : string)
      (ca ua : option Z) (t t' : list RequestRow) :
  upsert_request e rid ty ti st cb ca ua t = Return t' ->
  table_step r_requestId
     (fun r r' => mem (r_status r') CHECK_status = true
                  /\ (r_type r' = r_type r
                      \/ mem (r_type r') CHECK_type = true))
     (fun r => mem (r_type r) CHECK_type = true
               /\ mem (r_status r) CHECK_status = true)
     t t'.
Proof.
  unfold upsert_request.
  destruct (has_request rid t) eqn:Hhas;
    (destruct (mem ty CHECK_type && mem st CHECK_status)%bool eqn:Hchk;
     [|discriminate]);
    apply andb_prop in Hchk as [Hty Hst]; intros [= <-].
  - apply step_update. intros a _ _. cbn. auto.
  - eapply step_insert; [|exact Hhas|cbn; auto].
    intros a Ha. cbn in Ha. now apply String.eqb_eq.
Qed.

Lemma post_requests_db_step (e : Env) (b : RequestBody) (w : World) :
  db_step (db w) (db (snd (post_requests e b w))).
Proof.
  unfold post_requests.
  destruct (_ || _)%bool; [repeat split; apply step_same|].
  assert (Hgen : forall g d1,
             (if truthy (rb_requestId b)
              then (Return (nullish (rb_requestId b) ""), db w)
              else generateRequestId e (rb_ncType b) (db w)) = (g, d1) ->
             Requests d1 = Requests (db w)
             /\ PlantCodeDetails d1 = PlantCodeDetails (db w)
             /\ Approvals d1 = Approvals (db w)
             /\ HistoryLogs d1 = HistoryLogs (db w)
             /\ table_step (fun c => (c_prefix c, c_yyyymmdd c))
                  (fun _ _ => True) (fun _ => True)
                  (RequestIdCounters (db w)) (RequestIdCounters d1)).
  { intros g d1. destruct (truthy (rb_requestId b)).
    - intros [= _ <-]. repeat split. apply step_same.
    - intros Hg.
      pose proof (generateRequestId_tables e (rb_ncType b) (db w)) as Ht.
      rewrite Hg in Ht. cbn [snd] in Ht.
      destruct Ht as (H1 & H2 & H3 & H4 & H5).
      repeat split; try assumption. rewrite H5. apply merge_counter_step. }
  destruct (if truthy (rb_requestId b) then _ else _) as [g d1] eqn:Hg.
  destruct (Hgen g d1 eq_refl) as (H1 & H2 & H3 & H4 & H5).
  assert (Hfail : db_step (db w) d1).
  { unfold db_step. rewrite H1, H2, H3, H4.
    repeat split; try apply step_same. exact H5. }
  destruct g as [rid|m]; [|exact Hfail].
  destruct (upsert_request _ _ _ _ _ _ _ _ _) as [t|m] eqn:Hup;
    [|exact Hfail].
  apply upsert_request_step in Hup. rewrite H1 in Hup.
  match goal with
  | |- context [if ?c then _ else _] => destruct c
  end; cbn [snd]; rewrite ?db_try_mail; unfold db_step;
    cbn [db with_db set_Requests Requests PlantCodeDetails Approvals
         HistoryLogs RequestIdCounters];
    rewrite H2, H3, H4;
    (repeat split; try apply step_same; assumption).
Qed.

Lemma patch_db_step (e : Env) (id : string) (st : option string)
      (w : World) :
  db_step (db w) (db (snd (patch_request_status e id st w))).
Proof.
  unfold patch_request_status.
  destruct (negb (truthy st)); [repeat split; apply step_same|].
  destruct (has_request id (Requests (db w))
            && negb (mem (nullish st "") CHECK_status))%bool eqn:Hc;
    [repeat split; apply step_same|].
  cbn [snd]. rewrite db_try_mail.
  cbn [db with_db set_Requests]. unfold db_step.
  cbn [Requests PlantCodeDetails Approvals HistoryLogs RequestIdCounters].
  repeat split; try apply step_same.
  apply step_update. intros a Hin Ha. cbn. split; [reflexivity|].
  split; [|now left].
  apply String.eqb_eq in Ha.
  assert (Hhas : has_request id (Requests (db w)) = true).
  { apply has_request_In. rewrite <- Ha. now apply in_map. }
  rewrite Hhas in Hc. cbn in Hc. now apply negb_false_iff in Hc.
Qed.

Lemma plant_db_step (e : Env) (b : PlantBody) (w : World) :
  db_step (db w) (db (snd (post_plant_details e b w))).
Proof.
  rewrite post_plant_details_answer.
  destruct (first_missing b); repeat split; apply step_same.
Qed.

Lemma approvals_db_step (e : Env) (b : ApprovalBody) (w : World) :
  db_step (db w) (db (snd (post_approvals e b w))).
Proof.
  unfold post_approvals.
  destruct (_ || _)%bool; [repeat split; apply step_same|].
  destruct (upsert_approval _ _ _ _ _ _ _ _ _) as [t|m] eqn:Hup; cbn [snd];
    [|repeat split; apply step_same].
  cbn [db with_db set_Approvals]. unfold db_step.
  cbn [Requests PlantCodeDetails Approvals HistoryLogs RequestIdCounters].
  repeat split; try apply step_same.
  revert Hup. unfold upsert_approval.
  destruct (existsb _ (Approvals (db w))) eqn:Hex; cbn [negb];
    (destruct (mem _ CHECK_decision) eqn:Hdec; cbn [negb]; [|discriminate]).
  - intros [= <-]. apply step_update. intros a _ _. cbn. auto.
  - destruct (has_request _ (Requests (db w))) eqn:Hreq; cbn [negb];
      [|discriminate].
    intros [= <-]. eapply step_insert; [|exact Hex|cbn; auto].
    intros a Ha. cbn in Ha. injection Ha as H1 H2.
    unfold approval_key. now rewrite H1, H2, !String.eqb_refl.
Qed.

Lemma history_db_step (e : Env) (b : HistoryBody) (w : World) :
  db_step (db w) (db (snd (post_history e b w))).
Proof.
  unfold post_history.
  destruct (_ || _)%bool; [repeat split; apply step_same|].
  destruct (insert_history _ _) as [t|m] eqn:Hins; cbn [snd];
    [|repeat split; apply step_same].
  cbn [db with_db set_HistoryLogs]. unfold db_step.
  cbn [Requests PlantCodeDetails Approvals HistoryLogs RequestIdCounters].
  repeat split; try apply step_same.
  revert Hins. unfold insert_history.
  destruct (existsb _ (HistoryLogs (db w))) eqn:Hex; [discriminate|].
  destruct (has_request _ (Requests (db w))) eqn:Hreq; cbn [negb];
    [|discriminate].
  intros [= <-]. eapply step_insert; [|exact Hex|exact Hreq].
  intros a Ha. cbn in Ha. injection Ha as H1 H2.
  unfold history_key. cbn. now rewrite H1, H2, String.eqb_refl, Z.eqb_refl.
Qed.

Lemma run_db_step (e : Env) (c : Call) (w : World) :
  db_step (db w) (db (run e c w)).
Proof.
  unfold run, answer. destruct c as [b|id st|b|b|b].
  - pose proof (post_requests_db_step e b w) as H.
    destruct (post_requests e b w) as [[x|x y] w']; exact H.
  - pose proof (patch_db_step e id st w) as H.
    destruct (patch_request_status e id st w) as [[x|x y] w']; exact H.
  - pose proof (plant_db_step e b w) as H.
    destruct (post_plant_details e b w) as [[x|x y] w']; exact H.
  - pose proof (approvals_db_step e b w) as H.
    destruct (post_approvals e b w) as [[x|x y] w']; exact H.
  - pose proof (history_db_step e b w) as H.
    destruct (post_history e b w) as [[x|x y] w']; exact H.
Qed.

Lemma run_all_invariant (P : Db -> Prop) :
  (forall e c w, P (db w) -> P (db (run e c w))) ->
  forall calls w, P (db w) -> P (db (run_all calls w)).
Proof.
  intros Hstep calls. induction calls as [|[e c] rest IH]; intros w Hw;
    [exact Hw|].
  cbn [run_all]. apply IH, Hstep, Hw.
Qed.

(** X5.  No write ever breaks a primary key or a UNIQUE constraint:
    whatever the call and its body, if request ids, (requestId, version)
    pairs, (requestId, approverEmail) pairs, (requestId, timestamp) pairs
    and (prefix, day) pairs were each stored once before, they are each
    stored once afterwards -- and so after any history of calls that
    starts from the empty database. *)
Theorem writes_keep_keys_unique (e : Env) (c : Call) (w : World) :
  keys_unique (db w) ->
  keys_unique (db (run e c w))
  /\ (forall calls, keys_unique (db (run_all calls w))).
Proof.
  assert (Hstep : forall e c w,
             keys_unique (db w) -> keys_unique (db (run e c w))).
  { clear. intros e c w (H1 & H2 & H3 & H4 & H5).
    destruct (run_db_step e c w) as (S1 & S2 & S3 & S4 & S5).
    repeat split; eapply step_NoDup; eassumption. }
  intros Hw. split; [now apply Hstep|].
  intros calls. now apply run_all_invariant.
Qed.

Lemma writes_keep_keys_unique_witness :
  keys_unique
    (db (run_all [(Sample.env, PostPlantDetails (Sample.details "Alpha"));
                  (Sample.env_later,
                   PostPlantDetails (Sample.details "Beta"));
                  (Sample.env, PostApprovals Sample.first_decision);
                  (Sample.env_later, PostApprovals Sample.second_decision);
                  (Sample.env, PostHistory Sample.first_entry);
                  (Sample.env_later, PostHistory Sample.colliding_entry)]
                 (Sample.one_request "plant" "pending-secretary"))).
Proof.
  apply (writes_keep_keys_unique
           Sample.env (PatchStatus "none" None)
           (Sample.one_request "plant" "pending-secretary")).
  repeat split; repeat constructor; cbn; tauto.
Defined.

(* ================================================================== *)
(** ** Failed writes, and what a save keeps *)
(* ================================================================== *)

(** X8.  A write that is not answered ok has written no row: the
    Requests, details, approvals and history tables are exactly what they
    were.  The one thing a failed call can leave behind is a consumed
    sequence number, and only a save that carried no requestId can do
    that. *)
Theorem failed_write_writes_no_row (e : Env) (c : Call) (w : World) :
  fst (answer e c w) = false ->
  Requests (db (run e c w)) = Requests (db w)
  /\ PlantCodeDetails (db (run e c w)) = PlantCodeDetails (db w)
  /\ Approvals (db (run e c w)) = Approvals (db w)
  /\ HistoryLogs (db (run e c w)) = HistoryLogs (db w)
  /\ (RequestIdCounters (db (run e c w)) = RequestIdCounters (db w)
      \/ exists b, c = PostRequests b /\ truthy (rb_requestId b) = false).
Proof.
  unfold run, answer. destruct c as [b|id st|b|b|b].
  - unfold post_requests.
    destruct (_ || _)%bool; [intros _; repeat split; now left|].
    destruct (truthy (rb_requestId b)) eqn:Hrid.
    + destruct (upsert_request _ _ _ _ _ _ _ _ _);
        [|intros _; repeat split; now left].
      match goal with
      | |- context [if ?c then _ else _] => destruct c
      end; discriminate.
    + pose proof (generateRequestId_tables e (rb_ncType b) (db w)) as Ht.
      destruct (generateRequestId e (rb_ncType b) (db w)) as [[g|m] d1];
        cbn [snd] in Ht; destruct Ht as (H1 & H2 & H3 & H4 & _).
      * destruct (upsert_request _ _ _ _ _ _ _ _ _).
        -- match goal with
           | |- context [if ?c then _ else _] => destruct c
           end; discriminate.
        -- intros _. cbn. repeat split; try assumption. right. eauto.
      * intros _. cbn. repeat split; try assumption. right. eauto.
  - unfold patch_request_status.
    destruct (negb (truthy st)); [intros _; repeat split; now left|].
    destruct (_ && _)%bool; [intros _; repeat split; now left|discriminate].
  - unfold post_plant_details.
    destruct (first_missing b); [intros _; repeat split; now left|].
    destruct (upsert_plant _ _ _ _); [discriminate|].
    intros _; repeat split; now left.
  - unfold post_approvals.
    destruct (_ || _)%bool; [intros _; repeat split; now left|].
    destruct (upsert_approval _ _ _ _ _ _ _ _ _); [discriminate|].
    intros _; repeat split; now left.
  - unfold post_history.
    destruct (_ || _)%bool; [intros _; repeat split; now left|].
    destruct (insert_history _ _); [discriminate|].
    intros _; repeat split; now left.
Qed.

Lemma failed_write_witness :
  Requests (db (run Sample.env (PostHistory Sample.colliding_entry)
                    Sample.logged_this_instant))
  = Requests (db Sample.logged_this_instant)
  /\ HistoryLogs (db (run Sample.env (PostHistory Sample.colliding_entry)
                          Sample.logged_this_instant))
     = HistoryLogs (db Sample.logged_this_instant).
Proof.
  destruct (failed_write_writes_no_row
              Sample.env (PostHistory Sample.colliding_entry)
              Sample.logged_this_instant eq_refl)
    as (H1 & _ & _ & H4 & _).
  split; assumption.
Defined.

(** X9.  A save without a requestId takes its sequence number before it
    writes the request.  When the write then fails -- a status or a type
    outside the schema's lists -- the answer is 500 and no request is
    stored, but the number is gone: the day's counter has moved on, and the
    id is never handed out. *)
Theorem rejected_save_consumes_a_number
        (e : Env) (b : RequestBody) (w : World) :
  truthy (rb_requestId b) = false ->
  truthy (rb_type b) = true -> truthy (rb_title b) = true ->
  truthy (rb_status b) = true -> truthy (rb_createdBy b) = true ->
  (mem (nullish (rb_type b) "") CHECK_type
   && mem (nullish (rb_status b) "") CHECK_status)%bool = false ->
  exists w',
    post_requests e b w = (fail 500 "Failed to save request", w')
    /\ Requests (db w') = Requests (db w)
    /\ counter_value (if is_C (rb_ncType b) then "C" else "N")
                     (today112 e) (db w')
       = Some (next_seq (if is_C (rb_ncType b) then "C" else "N")
                        (today112 e) (db w)).
Proof.
  intros Hrid Hty Hti Hst Hcb Hchk.
  unfold post_requests. rewrite Hrid, Hty, Hti, Hst, Hcb. cbn [negb orb].
  destruct (generateRequestId_run e (rb_ncType b) (db w))
    as (d1 & Hrun & Htab & _ & Hc).
  rewrite Hrun. unfold upsert_request. rewrite Hchk.
  destruct (has_request _ (Requests d1)); eexists;
    (split; [reflexivity|]); cbn [db with_db];
    (split; [|exact Hc]);
    pose proof (generateRequestId_tables e (rb_ncType b) (db w)) as Ht;
    rewrite Hrun in Ht; apply Ht.
Qed.

Lemma rejected_save_witness :
  exists w',
    post_requests Sample.env Sample.bad_status_save
                  (Sample.one_request "plant" "approved")
      = (fail 500 "Failed to save request", w')
    /\ Requests (db w') = Requests (db (Sample.one_request "plant" "approved"))
    /\ counter_value "N" "20250101" (db w') = Some 2.
Proof.
  apply (rejected_save_consumes_a_number
           Sample.env Sample.bad_status_save
           (Sample.one_request "plant" "approved")); reflexivity.
Defined.

(** X10.  A save on an existing request keeps the stored creation time,
    whatever [createdAt] the body carries, and replaces the rest: title,
    status and [updatedAt], and also [createdBy], which becomes whoever
    sent the save. *)
Theorem save_keeps_creation_time
        (e : Env) (b : RequestBody) (w w' : World) (rid : string)
        (r : RequestRow) :
  rb_requestId b = Some rid ->
  find_request rid (db w) = Some r ->
  post_requests e b w = (ok rid, w') ->
  find_request rid (db w')
  = Some (mkRequestRow rid (nullish (rb_type b) "") (nullish (rb_title b) "")
                       (nullish (rb_status b) "")
                       (nullish (rb_createdBy b) "")
                       (r_createdAt r)
                       (nullish (rb_updatedAt b) (sysutc e))).
Proof.
  intros Hid Hfind Hpost.
  unfold find_request in *.
  rewrite (post_requests_existing e b w w' rid r Hid Hfind Hpost).
  rewrite (find_map_stable (fun x => r_requestId x =? rid))
    by (intros a; now destruct (r_requestId a =? rid) eqn:Ha).
  rewrite Hfind. cbn [option_map].
  apply find_some in Hfind as [_ Hr]. rewrite Hr.
  apply String.eqb_eq in Hr. now rewrite Hr.
Qed.

Lemma save_keeps_creation_time_witness :
  exists w',
    post_requests Sample.env Sample.foreign_edit
                  (Sample.one_request "plant" "rejected")
      = (ok "N_01012025_001", w')
    /\ find_request "N_01012025_001" (db w')
       = Some (mkRequestRow "N_01012025_001" "plant"
                            "Plant Code: P100 - Beta" "pending-secretary"
                            "other@premierenergies.com"
                            1735680000000 1735689600000).
Proof.
  eexists. split; [reflexivity|].
  apply (save_keeps_creation_time
           Sample.env Sample.foreign_edit
           (Sample.one_request "plant" "rejected") _ "N_01012025_001"
           (Sample.request_row "plant" "rejected")); reflexivity.
Defined.

Lemma map_unpicked {A} (pick : A -> bool) (g : A -> A) (t : list A) :
  existsb pick t = false ->
  map (fun a => if pick a then g a else a) t = t.
Proof.
  induction t as [|a t IH]; [reflexivity|].
  cbn. intros H. apply orb_false_iff in H as [Ha Ht].
  now rewrite Ha, IH.
Qed.

(** X11.  A status update for an id that no request has is not an error:
    given any non-empty status, even one outside the schema's list, the
    endpoint answers ok with that id and status, and the database is
    exactly what it was. *)
Theorem status_update_of_unknown_id_is_ok
        (e : Env) (id st : string) (w : World) :
  st <> "" ->
  has_request id (Requests (db w)) = false ->
  fst (patch_request_status e id (Some st) w) = ok (id, st)
  /\ db (snd (patch_request_status e id (Some st) w)) = db w.
Proof.
  intros Hst Hno. unfold patch_request_status.
  rewrite (truthy_some st Hst), Hno. cbn [negb andb nullish fst snd].
  split; [reflexivity|]. rewrite db_try_mail.
  cbn [db with_db set_Requests].
  unfold has_request in Hno. rewrite (map_unpicked _ _ _ Hno).
  now destruct (db w).
Qed.

Lemma status_update_of_unknown_id_witness :
  fst (patch_request_status Sample.env "N_31122024_009" (Some "bogus")
                            (Sample.one_request "plant" "approved"))
  = ok ("N_31122024_009", "bogus")
  /\ db (snd (patch_request_status Sample.env "N_31122024_009" (Some "bogus")
                                   (Sample.one_request "plant" "approved")))
     = db (Sample.one_request "plant" "approved").
Proof.
  apply (status_update_of_unknown_id_is_ok
           Sample.env "N_31122024_009" "bogus"
           (Sample.one_request "plant" "approved"));
    [discriminate|reflexivity].
Defined.

(** X12.  A successful status update changes the status and [updatedAt]
    of its request and nothing else: the request keeps its type, title,
    creator and creation time, every other request is untouched, and the
    endpoint accepts any of the nine states from any state. *)
Theorem status_update_frame
        (e : Env) (id st : string) (w : World) (r : RequestRow) :
  mem st CHECK_status = true ->
  find_request id (db w) = Some r ->
  exists w',
    patch_request_status e id (Some st) w = (ok (id, st), w')
    /\ find_request id (db w')
       = Some (mkRequestRow (r_requestId r) (r_type r) (r_title r) st
                            (r_createdBy r) (r_createdAt r) (sysutc e))
    /\ (forall other, other <> id ->
                      find_request other (db w') = find_request other (db w))
    /\ PlantCodeDetails (db w') = PlantCodeDetails (db w)
    /\ Approvals (db w') = Approvals (db w)
    /\ HistoryLogs (db w') = HistoryLogs (db w).
Proof.
  intros Hchk Hfind.
  assert (Hst : st <> "").
  { intros ->. discriminate Hchk. }
  unfold patch_request_status.
  rewrite (truthy_some st Hst). cbn [negb nullish]. rewrite Hchk.
  cbn [negb]. rewrite andb_false_r.
  eexists. split; [reflexivity|]. rewrite db_try_mail.
  cbn [db with_db].
  split; [|split; [|repeat split]].
  - unfold find_request in *. cbn [Requests set_Requests].
    rewrite (find_map_stable (fun x => r_requestId x =? id))
      by (intros a; now destruct (r_requestId a =? id) eqn:Ha).
    rewrite Hfind. cbn [option_map].
    apply find_some in Hfind as [_ Hr]. now rewrite Hr.
  - intros other Hne. unfold find_request. cbn [Requests set_Requests].
    rewrite (find_map_stable (fun x => r_requestId x =? other))
      by (intros a; now destruct (r_requestId a =? id)).
    destruct (find _ (Requests (db w))) as [x|] eqn:Hx; [|reflexivity].
    cbn [option_map]. apply find_some in Hx as [_ Hx].
    apply String.eqb_eq in Hx.
    destruct (String.eqb_spec (r_requestId x) id) as [Heq|]; [|reflexivity].
    elim Hne. now rewrite <- Hx.
Qed.

Lemma status_update_frame_witness :
  exists w',
    patch_request_status Sample.env "N_01012025_001" (Some "draft")
                         (Sample.one_request "plant" "completed")
      = (ok ("N_01012025_001", "draft"), w')
    /\ stored_status "N_01012025_001" w' = Some "draft".
Proof.
  destruct (status_update_frame
              Sample.env "N_01012025_001" "draft"
              (Sample.one_request "plant" "completed")
              (Sample.request_row "plant" "completed") eq_refl eq_refl)
    as (w' & Hrun & Hrow & _).
  exists w'. split; [exact Hrun|].
  unfold stored_status. now rewrite Hrow.
Defined.

(* ================================================================== *)
(** ** What the read functions return *)
(* ================================================================== *)

Import StorageReads.

Lemma sort_In {A} (before : A -> A -> bool) (l : list A) (x : A) :
  In x (Text.sort before l) <-> In x l.
Proof.
  split; intros H.
  - eapply Permutation_in; [apply Permutation_sym, sort_perm|exact H].
  - eapply Permutation_in; [apply sort_perm|exact H].
Qed.

Lemma passes_spec (f : option string) (v : string) :
  passes f v = true <-> (truthy f = true -> f = Some v).
Proof.
  unfold passes. destruct f as [s|]; cbn [truthy nullish].
  - destruct (String.eqb_spec s "") as [->|Hne]; cbn [negb].
    + split; [discriminate|reflexivity].
    + split.
      * intros H _. apply String.eqb_eq in H. now subst.
      * intros H. specialize (H eq_refl). injection H as ->.
        apply String.eqb_refl.
  - split; [discriminate|reflexivity].
Qed.

Lemma get_requests_ordered (c s t : option string) (d : Db) :
  ordered (fun a b => (r_createdAt b <=? r_createdAt a)%Z)
          (get_requests c s t d).
Proof.
  apply sort_ordered.
  - intros a b. apply (desc_total r_createdAt).
  - intros a b x. apply (desc_trans r_createdAt).
Qed.

(** X13.  The request list holds exactly the stored requests that match
    every filter that was given, newest first; a filter that is absent or
    the empty string is no filter. *)
Theorem request_list_honours_filters
        (createdBy status type : option string) (d : Db) :
  (forall r,
      In r (get_requests createdBy status type d) <->
      In r (Requests d)
      /\ (truthy createdBy = true -> createdBy = Some (r_createdBy r))
      /\ (truthy status = true -> status = Some (r_status r))
      /\ (truthy type = true -> type = Some (r_type r)))
  /\ ordered (fun a b => (r_createdAt b <=? r_createdAt a)%Z)
             (get_requests createdBy status type d)
  /\ Permutation (Requests d) (get_requests None (Some "") None d).
Proof.
  split; [|split; [apply get_requests_ordered|]].
  - intros r. unfold get_requests. rewrite sort_In, filter_In.
    rewrite !andb_true_iff, !passes_spec. tauto.
  - unfold get_requests.
    eapply perm_trans; [|apply sort_perm].
    cbn. induction (Requests d) as [|x l IH]; cbn; [constructor|].
    now apply perm_skip.
Qed.

Lemma statusMap_roles (role st : string) :
  lookup role statusMap = Some st <-> In (st, role) statusRoleMap.
Proof.
  split.
  - intros H. apply lookup_In in H. unfold statusMap in H.
    repeat (destruct H as [H|H]; [injection H as <- <-; cbn; tauto|]).
    elim H.
  - unfold statusRoleMap. intros H.
    repeat (destruct H as [H|H]; [injection H as <- <-; reflexivity|]).
    elim H.
Qed.

(** X14.  [getPendingRequestsForRole] returns, newest first, exactly the
    stored requests that [canApprove] lets the role decide: the list the
    storage layer computes from its own role-to-status table and the
    dashboard's status-to-role test agree, for every role string. *)
Theorem pending_list_is_what_the_role_can_approve
        (role : string) (e : Env) (w : World) :
  exists l,
    getPendingRequestsForRole role e w = (Return l, w)
    /\ (forall r, In r l <->
                  In r (Requests (db w))
                  /\ canApprove role (loaded r) = true)
    /\ ordered (fun a b => (r_createdAt b <=? r_createdAt a)%Z) l.
Proof.
  unfold getPendingRequestsForRole.
  destruct (lookup role statusMap) as [st|] eqn:Hl.
  - exists (sortByDateDesc r_createdAt
                           (get_requests None (Some st) None (db w))).
    split; [reflexivity|]. split.
    + intros r. unfold sortByDateDesc. rewrite sort_In.
      unfold get_requests. rewrite sort_In, filter_In.
      rewrite canApprove_pairs. cbn [loaded ApprovalDashboard.status].
      rewrite !andb_true_iff, !passes_spec.
      apply statusMap_roles in Hl. unfold statusRoleMap in Hl |- *.
      repeat (destruct Hl as [Hl|Hl];
              [injection Hl as <- <-; cbn [truthy String.eqb negb];
               split;
               [intros (Hin & (_ & Hs) & _); split; [exact Hin|];
                specialize (Hs eq_refl); injection Hs as <-; cbn; tauto
               |intros (Hin & Hp); split; [exact Hin|];
                repeat split; try discriminate; intros _;
                repeat (destruct Hp as [Hp|Hp];
                        [injection Hp as <-; try reflexivity;
                         try discriminate|]);
                elim Hp]|]).
      elim Hl.
    + apply sort_ordered.
      * intros a b. apply (desc_total r_createdAt).
      * intros a b x. apply (desc_trans r_createdAt).
  - exists []. split; [reflexivity|]. split; [|constructor].
    intros r. split; [intros []|]. intros (_ & Hc).
    apply canApprove_pairs, statusMap_roles in Hc. congruence.
Qed.

(** X15.  [getApprovalsForRequest] returns the answer of the approvals
    endpoint as it is (its own sort changes nothing), and that answer
    holds exactly the stored decisions of the request, earliest first. *)
Theorem approvals_are_read_in_time_order
        (rid : string) (e : Env) (w : World) :
  getApprovalsForRequest rid e w = (Return (get_approvals rid (db w)), w)
  /\ Permutation (approvals_of rid (db w)) (get_approvals rid (db w))
  /\ ordered (fun a b => (a_timestamp a <=? a_timestamp b)%Z)
             (get_approvals rid (db w)).
Proof.
  split; [|split].
  - unfold getApprovalsForRequest, bind, http_get, ret, get_approvals.
    rewrite sort_idempotent; [reflexivity| |].
    + intros a b. apply (asc_total a_timestamp).
    + intros a b x. apply (asc_trans a_timestamp).
  - apply sort_perm.
  - apply sort_ordered.
    + intros a b. apply (asc_total a_timestamp).
    + intros a b x. apply (asc_trans a_timestamp).
Qed.

Lemma insert_sorted_last {A} (before : A -> A -> bool) (x : A)
      (l : list A) :
  Forall (fun y => before x y = false) l ->
  Text.insert_sorted before x l = (l ++ [x])%list.
Proof.
  induction 1 as [|y r Hy Hr IH]; cbn; [reflexivity|].
  now rewrite Hy, IH.
Qed.

Lemma sort_desc_of_rising {A} (key : A -> Z) (l : list A) :
  StronglySorted (fun a b => key a < key b) l ->
  Text.sort (fun a b => (key b <=? key a)%Z) l = rev l.
Proof.
  induction 1 as [|x l Hs IH Hx]; [reflexivity|].
  change (Text.sort (fun a b => (key b <=? key a)%Z) (x :: l))
    with (Text.insert_sorted (fun a b => (key b <=? key a)%Z) x
            (Text.sort (fun a b => (key b <=? key a)%Z) l)).
  rewrite IH. cbn [rev]. apply insert_sorted_last.
  apply Forall_rev. eapply Forall_impl; [|exact Hx].
  cbn. intros y Hy. apply Z.leb_gt. exact Hy.
Qed.

Lemma rising_of_distinct {A} (key : A -> Z) (l : list A) :
  ordered (fun a b => (key a <=? key b)%Z) l ->
  NoDup (map key l) ->
  StronglySorted (fun a b => key a < key b) l.
Proof.
  unfold ordered. induction 1 as [|x l Hs IH Hx]; cbn; intros Hnd;
    [constructor|].
  apply NoDup_cons_iff in Hnd as [Hnot Hnd].
  constructor; [now apply IH|].
  rewrite Forall_forall in *. intros y Hy.
  specialize (Hx y Hy). apply Z.leb_le in Hx.
  assert (key x <> key y).
  { intros Heq. apply Hnot. rewrite Heq. now apply in_map. }
  lia.
Qed.

Lemma history_timestamps_distinct (rid : string) (t : list HistoryRow) :
  NoDup (map (fun h => (h_requestId h, h_timestamp h)) t) ->
  NoDup (map h_timestamp (filter (fun h => h_requestId h =? rid) t)).
Proof.
  induction t as [|h t IH]; cbn; intros Hnd; [constructor|].
  apply NoDup_cons_iff in Hnd as [Hnot Hnd].
  destruct (String.eqb_spec (h_requestId h) rid) as [Hh|Hh];
    [|now apply IH].
  cbn. constructor; [|now apply IH].
  intros Hin. apply in_map_iff in Hin as (h' & Hts & Hin').
  apply filter_In in Hin' as [Hin' Hk]. apply String.eqb_eq in Hk.
  apply Hnot. apply in_map_iff. exists h'. split; [|exact Hin'].
  now rewrite Hts, Hk, Hh.
Qed.

(** X16.  [getHistoryForRequest] returns the stored history entries of
    the request newest first: the server lists them in strictly rising
    time, and the client's sort turns that list round. *)
Theorem history_is_read_newest_first (rid : string) (e : Env) (w : World) :
  keys_unique (db w) ->
  getHistoryForRequest rid e w
  = (Return (rev (get_history rid (db w))), w)
  /\ Permutation (history_of rid (db w)) (get_history rid (db w))
  /\ StronglySorted (fun a b => h_timestamp a < h_timestamp b)
                    (get_history rid (db w)).
Proof.
  intros (_ & _ & _ & Hh & _).
  assert (Hperm : Permutation (history_of rid (db w))
                              (get_history rid (db w)))
    by apply sort_perm.
  assert (Hrise : StronglySorted (fun a b => h_timestamp a < h_timestamp b)
                                 (get_history rid (db w))).
  { apply rising_of_distinct.
    - apply sort_ordered.
      + intros a b. apply (asc_total h_timestamp).
      + intros a b x. apply (asc_trans h_timestamp).
    - eapply Permutation_NoDup; [apply Permutation_map, Hperm|].
      now apply history_timestamps_distinct. }
  split; [|split; assumption].
  unfold getHistoryForRequest, bind, http_get, ret, sortByDateDesc.
  now rewrite (sort_desc_of_rising h_timestamp).
Qed.

Lemma history_is_read_newest_first_witness :
  keys_unique (db Sample.logged_twice)
  /\ fst (getHistoryForRequest "N_01012025_001" Sample.env
                               Sample.logged_twice)
     = Return (rev (get_history "N_01012025_001" (db Sample.logged_twice)))
  /\ map h_timestamp (get_history "N_01012025_001" (db Sample.logged_twice))
     = [1735689600000; 1735689660000].
Proof.
  assert (Hk : keys_unique (db Sample.logged_twice)).
  { unfold keys_unique. vm_compute.
    repeat split; repeat constructor; cbn; intuition discriminate. }
  split; [exact Hk|]. split; [|reflexivity].
  now rewrite (proj1 (history_is_read_newest_first
                        "N_01012025_001" Sample.env Sample.logged_twice Hk)).
Defined.

(* ================================================================== *)
(** ** No write deletes *)
(* ================================================================== *)

Lemma keys_kept_refl (d : Db) : keys_kept d d.
Proof. repeat split; apply incl_refl. Qed.

Lemma keys_kept_trans (a b c : Db) :
  keys_kept a b -> keys_kept b c -> keys_kept a c.
Proof.
  intros (H1 & H2 & H3 & H4) (K1 & K2 & K3 & K4).
  repeat split; eapply incl_tran; eassumption.
Qed.

Lemma db_step_keys_kept (d d' : Db) : db_step d d' -> keys_kept d d'.
Proof.
  intros (H1 & H2 & H3 & _ & H5).
  repeat split; intros k Hk; eapply step_keys; eassumption.
Qed.

Lemma post_requests_keeps_history (e : Env) (b : RequestBody) (w : World) :
  HistoryLogs (db (snd (post_requests e b w))) = HistoryLogs (db w).
Proof.
  unfold post_requests.
  destruct (_ || _)%bool; [reflexivity|].
  assert (Hgen : forall g d1,
             (if truthy (rb_requestId b)
              then (Return (nullish (rb_requestId b) ""), db w)
              else generateRequestId e (rb_ncType b) (db w)) = (g, d1) ->
             HistoryLogs d1 = HistoryLogs (db w)).
  { intros g d1. destruct (truthy (rb_requestId b)).
    - now intros [= _ <-].
    - intros Hg.
      pose proof (generateRequestId_tables e (rb_ncType b) (db w)) as Ht.
      rewrite Hg in Ht. cbn [snd] in Ht.
      now destruct Ht as (_ & _ & _ & H4 & _). }
  destruct (if truthy (rb_requestId b) then _ else _) as [g d1] eqn:Hg.
  specialize (Hgen g d1 eq_refl).
  destruct g as [rid|m]; [|exact Hgen].
  destruct (upsert_request _ _ _ _ _ _ _ _ _) as [t|m]; [|exact Hgen].
  match goal with
  | |- context [if ?c then _ else _] => destruct c
  end; cbn [snd]; rewrite ?db_try_mail;
    cbn [db with_db set_Requests HistoryLogs]; exact Hgen.
Qed.

Lemma history_grows (e : Env) (c : Call) (w : World) :
  exists added,
    HistoryLogs (db (run e c w)) = (HistoryLogs (db w) ++ added)%list
    /\ (List.length added <= 1)%nat.
Proof.
  unfold run, answer. destruct c as [b|id st|b|b|b].
  - exists []. rewrite app_nil_r. split; [|cbn; lia].
    pose proof (post_requests_keeps_history e b w) as H.
    destruct (post_requests e b w) as [[x|x y] w']; exact H.
  - exists []. rewrite app_nil_r. split; [|cbn; lia].
    unfold patch_request_status.
    destruct (negb (truthy st)); [reflexivity|].
    destruct (_ && _)%bool; [reflexivity|].
    cbn [snd]. now rewrite db_try_mail.
  - exists []. rewrite app_nil_r. split; [|cbn; lia].
    unfold post_plant_details.
    destruct (first_missing b); [reflexivity|].
    destruct (upsert_plant _ _ _ _); cbn [snd]; [|reflexivity].
    now rewrite db_try_mail.
  - exists []. rewrite app_nil_r. split; [|cbn; lia].
    unfold post_approvals.
    destruct (_ || _)%bool; [reflexivity|].
    destruct (upsert_approval _ _ _ _ _ _ _ _ _); reflexivity.
  - unfold post_history, insert_history.
    destruct (_ || _)%bool;
      [exists []; rewrite app_nil_r; split; [reflexivity|cbn; lia]|].
    destruct (existsb _ (HistoryLogs (db w)));
      [exists []; rewrite app_nil_r; split; [reflexivity|cbn; lia]|].
    destruct (has_request _ (Requests (db w))); cbn [negb snd];
      [|exists []; rewrite app_nil_r; split; [reflexivity|cbn; lia]].
    eexists [_]. split; [reflexivity|cbn; lia].
Qed.

(** X17.  No write deletes: after any history of calls every request id,
    every (requestId, version), every (requestId, approverEmail) and every
    counter key that was stored is still stored, and the history table is
    the old one, row for row, with the new entries after it (at most one
    per call). *)
Theorem no_write_deletes (calls : list (Env * Call)) (w : World) :
  keys_kept (db w) (db (run_all calls w))
  /\ exists added,
       HistoryLogs (db (run_all calls w))
       = (HistoryLogs (db w) ++ added)%list
       /\ (List.length added <= List.length calls)%nat.
Proof.
  revert w. induction calls as [|[e c] rest IH]; intros w; cbn [run_all].
  - split; [apply keys_kept_refl|].
    exists []. now rewrite app_nil_r.
  - destruct (IH (run e c w)) as (Hk & added & Hh & Hlen).
    split.
    + eapply keys_kept_trans; [|exact Hk].
      apply db_step_keys_kept, run_db_step.
    + destruct (history_grows e c w) as (first & Hf & Hl).
      exists (first ++ added)%list. split.
      * now rewrite Hh, Hf, app_assoc.
      * rewrite List.length_app. cbn [List.length]. lia.
Qed.

(* ================================================================== *)
(** ** Addresses: trimming, lower case and the company domain *)
(* ================================================================== *)

Import Text.

Lemma blank_step (s : string) :
  blank s = match s with
            | EmptyString => true
            | String _ _ =>
                match after_space s with
                | Some r => blank r
                | None => false
                end
            end.
Proof.
  destruct s as [|a [|b [|c r3]]]; cbn [blank after_space];
    try reflexivity.
  - now destruct (is_space a).
  - destruct (is_space a); [reflexivity|]. now destruct (is_space2 a b).
  - destruct (is_space a); [reflexivity|].
    destruct (is_space2 a b); [reflexivity|]. now destruct (is_space3 a b c).
Qed.

Lemma trimStart_step (s : string) :
  trimStart s = match after_space s with
                | Some r => trimStart r
                | None => s
                end.
Proof.
  destruct s as [|a [|b [|c r3]]]; cbn [trimStart after_space];
    try reflexivity.
  - now destruct (is_space a).
  - destruct (is_space a); [reflexivity|]. now destruct (is_space2 a b).
  - destruct (is_space a); [reflexivity|].
    destruct (is_space2 a b); [reflexivity|]. now destruct (is_space3 a b c).
Qed.

Lemma after_space_shorter (s r : string) :
  after_space s = Some r -> (String.length r < String.length s)%nat.
Proof.
  destruct s as [|a [|b [|c r3]]]; cbn [after_space]; try discriminate.
  - destruct (is_space a); [|discriminate]. intros [= <-]. cbn. lia.
  - destruct (is_space a); [intros [= <-]; cbn; lia|].
    destruct (is_space2 a b); [|discriminate]. intros [= <-]. cbn. lia.
  - destruct (is_space a); [intros [= <-]; cbn; lia|].
    destruct (is_space2 a b); [intros [= <-]; cbn; lia|].
    destruct (is_space3 a b c); [|discriminate]. intros [= <-]. cbn. lia.
Qed.

Lemma after_space_app (s r t : string) :
  after_space s = Some r -> after_space (s ++ t) = Some (r ++ t).
Proof.
  destruct s as [|a [|b [|c r3]]]; cbn [after_space append];
    try discriminate.
  - destruct (is_space a); [|discriminate]. now intros [= <-].
  - destruct (is_space a); [now intros [= <-]|].
    destruct (is_space2 a b); [|discriminate]. now intros [= <-].
  - destruct (is_space a); [now intros [= <-]|].
    destruct (is_space2 a b); [now intros [= <-]|].
    destruct (is_space3 a b c); [|discriminate]. now intros [= <-].
Qed.

Lemma headed_prefix (s t : string) : headed (s ++ t) -> headed s.
Proof.
  unfold headed. intros H.
  destruct (after_space s) as [r|] eqn:Hs; [|reflexivity].
  rewrite (after_space_app s r t Hs) in H. discriminate.
Qed.

(** Induction along the characters that [after_space] steps over. *)
Lemma by_length (P : string -> Prop) :
  (forall s, (forall r, (String.length r < String.length s)%nat -> P r) ->
             P s) ->
  forall s, P s.
Proof.
  intros Hstep s.
  assert (H : forall n r, (String.length r < n)%nat -> P r).
  { induction n as [|n IH]; intros r Hr; [lia|].
    apply Hstep. intros r' Hr'. apply IH. lia. }
  apply (H (S (String.length s))). lia.
Qed.

Lemma trimStart_headed (s : string) : headed (trimStart s).
Proof.
  induction s as [s IH] using by_length.
  rewrite trimStart_step.
  destruct (after_space s) as [r|] eqn:Hs; [|exact Hs].
  apply IH. now apply after_space_shorter.
Qed.

Lemma trimStart_of_headed (s : string) : headed s -> trimStart s = s.
Proof. intros H. rewrite trimStart_step. now rewrite H. Qed.

Lemma blank_trimStart (s : string) : blank (trimStart s) = blank s.
Proof.
  induction s as [s IH] using by_length.
  rewrite trimStart_step.
  destruct (after_space s) as [r|] eqn:Hs; [|reflexivity].
  rewrite IH by (now apply after_space_shorter).
  rewrite (blank_step s), Hs. destruct s; [discriminate|reflexivity].
Qed.

Lemma blank_app (a b : string) :
  blank a = true -> blank (a ++ b) = blank b.
Proof.
  induction a as [a IH] using by_length. intros Ha.
  destruct a as [|c r]; [reflexivity|].
  rewrite blank_step in Ha.
  destruct (after_space (String c r)) as [r'|] eqn:Hs; [|discriminate].
  change (String c r ++ b) with (String c (r ++ b)).
  rewrite blank_step.
  change (String c (r ++ b)) with (String c r ++ b).
  rewrite (after_space_app _ _ b Hs).
  apply IH; [now apply after_space_shorter|exact Ha].
Qed.

Lemma trimEnd_blank (s : string) : trimEnd s = "" <-> blank s = true.
Proof.
  destruct s as [|c r]; [cbn; tauto|].
  cbn [trimEnd]. destruct (blank (String c r)); split; intros H;
    try reflexivity; discriminate.
Qed.

Lemma trim_blank (s : string) : trim s = "" <-> blank s = true.
Proof. unfold trim. now rewrite trimEnd_blank, blank_trimStart. Qed.

Lemma trimEnd_split (s : string) :
  exists t, s = trimEnd s ++ t /\ blank t = true.
Proof.
  induction s as [|c r (t & Ht & Hb)]; [now exists ""|].
  cbn [trimEnd]. destruct (blank (String c r)) eqn:Hs.
  - now exists (String c r).
  - exists t. split; [|exact Hb]. cbn. now rewrite <- Ht.
Qed.

Lemma blank_trimEnd (c : ascii) (r : string) :
  blank (String c r) = false -> blank (String c (trimEnd r)) = false.
Proof.
  intros H. destruct (blank (String c (trimEnd r))) eqn:Hb; [|reflexivity].
  destruct (trimEnd_split r) as (t & Ht & Hbt).
  assert (Heq : String c r = String c (trimEnd r) ++ t)
    by (cbn; now rewrite <- Ht).
  rewrite Heq, (blank_app _ t Hb) in H. congruence.
Qed.

Lemma trimEnd_idempotent (s : string) : trimEnd (trimEnd s) = trimEnd s.
Proof.
  induction s as [|c r IH]; [reflexivity|].
  cbn [trimEnd]. destruct (blank (String c r)) eqn:Hs; [reflexivity|].
  cbn [trimEnd]. rewrite (blank_trimEnd c r Hs). now rewrite IH.
Qed.

Lemma trimEnd_headed (s : string) : headed s -> headed (trimEnd s).
Proof.
  intros H. destruct (trimEnd_split s) as (t & Ht & _).
  rewrite Ht in H. exact (headed_prefix _ _ H).
Qed.

Lemma trim_headed (s : string) : headed (trim s).
Proof. apply trimEnd_headed, trimStart_headed. Qed.

Lemma trim_idempotent (s : string) : trim (trim s) = trim s.
Proof.
  unfold trim at 1. rewrite (trimStart_of_headed _ (trim_headed s)).
  unfold trim. apply trimEnd_idempotent.
Qed.

Lemma lower_high (c : ascii) :
  (128 <= nat_of_ascii c)%nat -> lower_ascii c = c.
Proof.
  destruct c as [[] [] [] [] [] [] [] []]; intros H; try reflexivity;
    vm_compute in H; lia.
Qed.

Lemma lower_low (c : ascii) :
  (nat_of_ascii c < 128)%nat -> (nat_of_ascii (lower_ascii c) < 128)%nat.
Proof.
  destruct c as [[] [] [] [] [] [] [] []]; intros H; vm_compute in H |- *;
    lia.
Qed.

Lemma lower_lower (c : ascii) : lower_ascii (lower_ascii c) = lower_ascii c.
Proof. destruct c as [[] [] [] [] [] [] [] []]; reflexivity. Qed.

Lemma is_space_lower (c : ascii) : is_space (lower_ascii c) = is_space c.
Proof. destruct c as [[] [] [] [] [] [] [] []]; reflexivity. Qed.

Lemma eqb_lower (c : ascii) (k : nat) :
  (128 <= k)%nat ->
  Nat.eqb (nat_of_ascii (lower_ascii c)) k = Nat.eqb (nat_of_ascii c) k.
Proof.
  intros Hk. destruct (Nat.lt_ge_cases (nat_of_ascii c) 128) as [Hlo|Hhi].
  - pose proof (lower_low c Hlo) as Hl.
    transitivity false; [|symmetry]; apply Nat.eqb_neq; lia.
  - now rewrite (lower_high c Hhi).
Qed.

Lemma leb_lower_l (c : ascii) (k : nat) :
  (128 <= k)%nat ->
  Nat.leb k (nat_of_ascii (lower_ascii c)) = Nat.leb k (nat_of_ascii c).
Proof.
  intros Hk. destruct (Nat.lt_ge_cases (nat_of_ascii c) 128) as [Hlo|Hhi].
  - pose proof (lower_low c Hlo) as Hl.
    transitivity false; [|symmetry]; apply Nat.leb_gt; lia.
  - now rewrite (lower_high c Hhi).
Qed.

Lemma leb_lower_r (c : ascii) (k : nat) :
  (128 <= k)%nat ->
  Nat.leb (nat_of_ascii (lower_ascii c)) k = Nat.leb (nat_of_ascii c) k.
Proof.
  intros Hk. destruct (Nat.lt_ge_cases (nat_of_ascii c) 128) as [Hlo|Hhi].
  - pose proof (lower_low c Hlo) as Hl.
    transitivity true; [|symmetry]; apply Nat.leb_le; lia.
  - now rewrite (lower_high c Hhi).
Qed.

Lemma is_space2_lower (a b : ascii) :
  is_space2 (lower_ascii a) (lower_ascii b) = is_space2 a b.
Proof. unfold is_space2. now rewrite !eqb_lower by lia. Qed.

Lemma is_space3_lower (a b c : ascii) :
  is_space3 (lower_ascii a) (lower_ascii b) (lower_ascii c)
  = is_space3 a b c.
Proof.
  unfold is_space3. cbv zeta.
  now rewrite !eqb_lower, leb_lower_l, leb_lower_r by lia.
Qed.

Lemma after_space_lower (s : string) :
  after_space (toLowerCase s) = option_map toLowerCase (after_space s).
Proof.
  destruct s as [|a [|b [|c r3]]]; cbn [after_space toLowerCase option_map];
    try reflexivity; rewrite ?is_space_lower.
  - now destruct (is_space a).
  - destruct (is_space a); [reflexivity|].
    rewrite is_space2_lower. now destruct (is_space2 a b).
  - destruct (is_space a); [reflexivity|].
    rewrite is_space2_lower. destruct (is_space2 a b); [reflexivity|].
    rewrite is_space3_lower. now destruct (is_space3 a b c).
Qed.

Lemma blank_lower (s : string) : blank (toLowerCase s) = blank s.
Proof.
  induction s as [s IH] using by_length.
  rewrite (blank_step (toLowerCase s)), (blank_step s), after_space_lower.
  destruct s as [|c r]; [reflexivity|]. cbn [toLowerCase].
  destruct (after_space (String c r)) as [r'|] eqn:Hs; cbn [option_map];
    [|reflexivity].
  apply IH. now apply after_space_shorter.
Qed.

Lemma trimStart_lower (s : string) :
  trimStart (toLowerCase s) = toLowerCase (trimStart s).
Proof.
  induction s as [s IH] using by_length.
  rewrite (trimStart_step (toLowerCase s)), (trimStart_step s),
    after_space_lower.
  destruct (after_space s) as [r'|] eqn:Hs; cbn [option_map];
    [|reflexivity].
  apply IH. now apply after_space_shorter.
Qed.

Lemma trimEnd_lower (s : string) :
  trimEnd (toLowerCase s) = toLowerCase (trimEnd s).
Proof.
  induction s as [|c r IH]; [reflexivity|].
  cbn [toLowerCase trimEnd].
  change (String (lower_ascii c) (toLowerCase r))
    with (toLowerCase (String c r)).
  rewrite blank_lower. destruct (blank (String c r)); [reflexivity|].
  cbn [toLowerCase]. now rewrite IH.
Qed.

Lemma trim_lower (s : string) : trim (toLowerCase s) = toLowerCase (trim s).
Proof. unfold trim. now rewrite trimStart_lower, trimEnd_lower. Qed.

Lemma is_space2_high (a b : ascii) :
  is_space2 a b = true ->
  (128 <= nat_of_ascii a)%nat /\ (128 <= nat_of_ascii b)%nat.
Proof.
  unfold is_space2. rewrite andb_true_iff, !Nat.eqb_eq. lia.
Qed.

Lemma is_space3_high (a b c : ascii) :
  is_space3 a b c = true ->
  (128 <= nat_of_ascii a)%nat /\ (128 <= nat_of_ascii b)%nat
  /\ (128 <= nat_of_ascii c)%nat.
Proof.
  unfold is_space3. cbv zeta.
  rewrite !orb_true_iff, !andb_true_iff, !orb_true_iff, !andb_true_iff,
    !Nat.eqb_eq, !Nat.leb_le.
  lia.
Qed.

Lemma blank_bytes (s : string) :
  blank s = true ->
  forall c, includes_char c s = true -> space_byte c = true.
Proof.
  induction s as [s IH] using by_length. intros Hb c Hc.
  destruct s as [|a [|b [|d r3]]]; cbn [blank] in Hb.
  - discriminate.
  - destruct (is_space a) eqn:Ha; [|discriminate].
    cbn in Hc. rewrite orb_false_r in Hc. apply Ascii.eqb_eq in Hc.
    subst c. unfold space_byte. now rewrite Ha.
  - cbn [includes_char] in Hc.
    destruct (is_space a) eqn:Ha.
    + apply orb_prop in Hc as [Hc|Hc].
      * apply Ascii.eqb_eq in Hc. subst c. unfold space_byte.
        now rewrite Ha.
      * apply (IH (String b "")); [cbn; lia|exact Hb|exact Hc].
    + destruct (is_space2 a b) eqn:Hab; [|discriminate].
      apply is_space2_high in Hab as [H1 H2]. unfold space_byte.
      cbn in Hc. rewrite orb_false_r in Hc.
      apply orb_prop in Hc as [Hc|Hc]; apply Ascii.eqb_eq in Hc; subst c;
        apply orb_true_iff; right; now apply Nat.leb_le.
  - cbn [includes_char] in Hc.
    destruct (is_space a) eqn:Ha.
    + apply orb_prop in Hc as [Hc|Hc].
      * apply Ascii.eqb_eq in Hc. subst c. unfold space_byte.
        now rewrite Ha.
      * apply (IH (String b (String d r3))); [cbn; lia|exact Hb|exact Hc].
    + destruct (is_space2 a b) eqn:Hab.
      * apply is_space2_high in Hab as [H1 H2].
        apply orb_prop in Hc as [Hc|Hc];
          [apply Ascii.eqb_eq in Hc; subst c; unfold space_byte;
           apply orb_true_iff; right; now apply Nat.leb_le|].
        apply orb_prop in Hc as [Hc|Hc];
          [apply Ascii.eqb_eq in Hc; subst c; unfold space_byte;
           apply orb_true_iff; right; now apply Nat.leb_le|].
        apply (IH (String d r3)); [cbn; lia|exact Hb|].
        exact Hc.
      * destruct (is_space3 a b d) eqn:Habd; [|discriminate].
        apply is_space3_high in Habd as (H1 & H2 & H3).
        apply orb_prop in Hc as [Hc|Hc];
          [apply Ascii.eqb_eq in Hc; subst c; unfold space_byte;
           apply orb_true_iff; right; now apply Nat.leb_le|].
        apply orb_prop in Hc as [Hc|Hc];
          [apply Ascii.eqb_eq in Hc; subst c; unfold space_byte;
           apply orb_true_iff; right; now apply Nat.leb_le|].
        apply orb_prop in Hc as [Hc|Hc];
          [apply Ascii.eqb_eq in Hc; subst c; unfold space_byte;
           apply orb_true_iff; right; now apply Nat.leb_le|].
        apply (IH r3); [cbn; lia|exact Hb|exact Hc].
Qed.

Lemma toLowerCase_idempotent (s : string) :
  toLowerCase (toLowerCase s) = toLowerCase s.
Proof.
  induction s as [|c r IH]; cbn; [reflexivity|].
  now rewrite lower_lower, IH.
Qed.

Lemma toLowerCase_app (s t : string) :
  toLowerCase (s ++ t) = toLowerCase s ++ toLowerCase t.
Proof. induction s as [|c r IH]; cbn; [reflexivity|now rewrite IH]. Qed.

Lemma toLowerCase_empty (s : string) : toLowerCase s = "" <-> s = "".
Proof. destruct s; cbn; split; intros H; try reflexivity; discriminate. Qed.

Lemma includes_app_r (c : ascii) (s t : string) :
  includes_char c t = true -> includes_char c (s ++ t) = true.
Proof.
  intros Ht. induction s as [|a r IH]; cbn; [exact Ht|].
  rewrite IH. apply orb_true_r.
Qed.

(** A string that holds an at-sign is not blank, whatever stands before
    it. *)
Lemma at_sign_not_blank (s : string) :
  includes_char "@"%char s = true -> blank s = false.
Proof.
  intros H. destruct (blank s) eqn:Hb; [|reflexivity].
  pose proof (blank_bytes s Hb "@"%char H) as Hs. discriminate.
Qed.

Lemma trimEnd_app_fixed (s d : string) :
  trimEnd d = d -> includes_char "@"%char d = true ->
  trimEnd (s ++ d) = s ++ d.
Proof.
  intros Hd Hat. induction s as [|c r IH]; [exact Hd|].
  change (String c r ++ d) with (String c (r ++ d)). cbn [trimEnd].
  change (String c (r ++ d)) with (String c r ++ d).
  rewrite (at_sign_not_blank _ (includes_app_r _ (String c r) d Hat)).
  cbn. now rewrite IH.
Qed.

Lemma headed_app (s d : string) (x : ascii) (t : string) :
  headed s -> s <> "" -> d = String x t ->
  (nat_of_ascii x < 128)%nat -> is_space x = false ->
  headed (s ++ d).
Proof.
  unfold headed. intros Hs Hne -> Hx Hsp.
  assert (H2 : forall a, is_space2 a x = false).
  { intros a. destruct (is_space2 a x) eqn:H; [|reflexivity].
    apply is_space2_high in H. lia. }
  assert (H3 : forall a c, is_space3 a x c = false).
  { intros a c. destruct (is_space3 a x c) eqn:H; [|reflexivity].
    apply is_space3_high in H. lia. }
  assert (H3' : forall a b, is_space3 a b x = false).
  { intros a b. destruct (is_space3 a b x) eqn:H; [|reflexivity].
    apply is_space3_high in H. lia. }
  destruct s as [|a [|b [|c r3]]]; [congruence| | |];
    cbn [after_space append] in *.
  - destruct (is_space a); [discriminate|]. rewrite H2.
    destruct t; [reflexivity|]. now rewrite H3.
  - destruct (is_space a); [discriminate|].
    destruct (is_space2 a b); [discriminate|]. now rewrite H3'.
  - destruct (is_space a); [discriminate|].
    destruct (is_space2 a b); [discriminate|].
    now destruct (is_space3 a b c).
Qed.

Lemma trim_with_domain (s : string) :
  headed s -> s <> "" ->
  trim (s ++ company_domain) = s ++ company_domain.
Proof.
  intros Hs Hne. unfold trim.
  rewrite trimStart_of_headed.
  - now apply trimEnd_app_fixed.
  - eapply headed_app; try eassumption; try reflexivity. cbn. lia.
Qed.

Lemma substring_all (s : string) : substring 0 (String.length s) s = s.
Proof. induction s as [|c r IH]; cbn; [reflexivity|now rewrite IH]. Qed.

Lemma substring_app_r (s t : string) :
  substring (String.length s) (String.length t) (s ++ t) = t.
Proof. induction s as [|c r IH]; cbn; [apply substring_all|exact IH]. Qed.

Lemma endsWith_app (s t : string) : endsWith (s ++ t) t = true.
Proof.
  unfold endsWith. rewrite length_app.
  replace (String.length s + String.length t - String.length t)%nat
    with (String.length s) by lia.
  rewrite substring_app_r, String.eqb_refl, andb_true_r.
  apply Nat.leb_le. lia.
Qed.

Lemma or_default_self (s : string) : or_default (Some s) "" = s.
Proof. cbn. now destruct (String.eqb_spec s "") as [->|]. Qed.

Lemma cleaned_fixed (s : string) :
  trim (cleaned s) = cleaned s
  /\ toLowerCase (cleaned s) = cleaned s
  /\ headed (cleaned s).
Proof.
  unfold cleaned. split; [|split].
  - now rewrite trim_lower, trim_idempotent.
  - apply toLowerCase_idempotent.
  - rewrite <- trim_lower. apply trim_headed.
Qed.

Lemma cleaned_twice (s : string) : cleaned (cleaned s) = cleaned s.
Proof.
  destruct (cleaned_fixed s) as (H1 & H2 & _).
  unfold cleaned at 1. now rewrite H1, H2.
Qed.

Lemma cleaned_with_domain (s : string) :
  cleaned s <> "" ->
  cleaned (cleaned s ++ company_domain) = cleaned s ++ company_domain.
Proof.
  intros Hne. destruct (cleaned_fixed s) as (H1 & H2 & H3).
  unfold cleaned at 1.
  rewrite trim_with_domain by assumption.
  now rewrite toLowerCase_app, H2.
Qed.

Lemma normalizeToEmail_cases (raw : option string) :
  let s := cleaned (or_default raw "") in
  normalizeToEmail raw
  = if s =? "" then ""
    else if includes_char "@"%char s then s else s ++ company_domain.
Proof.
  unfold normalizeToEmail, cleaned. cbn zeta.
  now destruct (String.eqb_spec (toLowerCase (trim (or_default raw ""))) "")
    as [->|].
Qed.

(** X18.  [normalizeToEmail] is idempotent: an address it has produced is
    left as it is, so normalising at the client, at the endpoint or twice
    names the same account. *)
Theorem normalizeToEmail_idempotent (raw : option string) :
  normalizeToEmail (Some (normalizeToEmail raw)) = normalizeToEmail raw.
Proof.
  rewrite (normalizeToEmail_cases raw). cbn zeta.
  set (s := cleaned (or_default raw "")).
  destruct (String.eqb_spec s "") as [He|Hne]; [reflexivity|].
  rewrite normalizeToEmail_cases. cbn zeta. rewrite or_default_self.
  destruct (includes_char "@"%char s) eqn:Hat.
  - unfold s. rewrite cleaned_twice. fold s.
    destruct (String.eqb_spec s ""); [contradiction|]. now rewrite Hat.
  - unfold s. rewrite cleaned_with_domain by exact Hne. fold s.
    destruct (String.eqb_spec (s ++ company_domain) "") as [He|_].
    + destruct s; discriminate.
    + now rewrite includes_app_r.
Qed.

(** X19.  The gate of the OTP endpoints, in closed form, for an address
    of ASCII characters and white space (no-break and other Unicode spaces
    included): it is taken for a company account exactly when, trimmed and
    in lower case, it is not empty and either has no at-sign (the company
    domain is then appended) or ends with the company domain.  A blank
    address is turned away, and any bare name is let through. *)
Theorem company_account_spec (email : option string) :
  plain (or_default email "") = true ->
  company_account email
  = (negb (cleaned (or_default email "") =? "")
     && (negb (includes_char "@"%char (cleaned (or_default email "")))
         || endsWith (cleaned (or_default email "")) company_domain))%bool.
Proof.
  intros _. unfold company_account.
  rewrite normalizeToEmail_cases. cbn zeta. rewrite or_default_self.
  replace (cleaned (trim (or_default email "")))
    with (cleaned (or_default email ""))
    by (unfold cleaned; now rewrite trim_idempotent).
  set (s := cleaned (or_default email "")).
  destruct (String.eqb_spec s "") as [He|Hne]; [reflexivity|].
  destruct (includes_char "@"%char s); cbn [negb andb orb]; [reflexivity|].
  apply endsWith_app.
Qed.

(** X20.  An empty address field posts nothing: the login page shows its
    message.  Any other address (of ASCII characters and white space) is
    posted in a form that the endpoint leaves as it is.  On an input that
    is not blank the page and the endpoint compute the same address; on a
    blank one that is not empty the page posts the bare company domain,
    which passes the gate, where the endpoint alone would have turned the
    blank input away. *)
Theorem login_address_is_kept_by_the_endpoint (email : string) :
  plain email = true ->
  (email = "" ->
   LoginPage.handleEmailSubmit email
   = LoginPage.shows "Please enter your email address")
  /\ (email <> "" ->
      exists posted,
        LoginPage.handleEmailSubmit email = LoginPage.posts posted
        /\ normalizeToEmail (Some (trim posted)) = posted
        /\ (blank email = false -> posted = normalizeToEmail (Some email))
        /\ (blank email = true ->
            posted = company_domain
            /\ company_account (Some posted) = true
            /\ company_account (Some email) = false)).
Proof.
  intros _. split; [now intros ->|]. intros Hne.
  exists (LoginPage.normalizeCompanyEmail email).
  split.
  { unfold LoginPage.handleEmailSubmit.
    now destruct (String.eqb_spec email "") as [He|_]. }
  clear Hne. rename email into val.
  assert (Hform : LoginPage.normalizeCompanyEmail val
                  = if includes_char "@"%char (cleaned val) then cleaned val
                    else cleaned val ++ company_domain).
  { unfold LoginPage.normalizeCompanyEmail. now rewrite or_default_self. }
  assert (Hblank : cleaned val = "" <-> blank val = true).
  { unfold cleaned. rewrite toLowerCase_empty. apply trim_blank. }
  split; [|split].
  - rewrite normalizeToEmail_cases. cbn zeta. rewrite or_default_self.
    replace (cleaned (trim (LoginPage.normalizeCompanyEmail val)))
      with (cleaned (LoginPage.normalizeCompanyEmail val))
      by (unfold cleaned; now rewrite trim_idempotent).
    rewrite Hform.
    destruct (includes_char "@"%char (cleaned val)) eqn:Hat.
    + rewrite cleaned_twice, Hat.
      destruct (String.eqb_spec (cleaned val) "") as [He|_]; [|reflexivity].
      rewrite He in Hat. discriminate.
    + destruct (String.eqb_spec (cleaned val) "") as [He|Hne].
      * rewrite He. reflexivity.
      * rewrite cleaned_with_domain by exact Hne.
        rewrite includes_app_r by reflexivity.
        destruct (String.eqb_spec (cleaned val ++ company_domain) "")
          as [He|_]; [|reflexivity].
        destruct (cleaned val); discriminate.
  - intros Hnb. rewrite Hform, normalizeToEmail_cases. cbn zeta.
    rewrite or_default_self.
    destruct (String.eqb_spec (cleaned val) "") as [He|_]; [|reflexivity].
    apply Hblank in He. congruence.
  - intros Hb. apply Hblank in Hb.
    assert (Hdom : LoginPage.normalizeCompanyEmail val = company_domain)
      by (rewrite Hform, Hb; reflexivity).
    split; [exact Hdom|]. split.
    + rewrite Hdom. reflexivity.
    + unfold company_account. rewrite normalizeToEmail_cases. cbn zeta.
      rewrite !or_default_self.
      replace (cleaned (trim val)) with (cleaned val)
        by (unfold cleaned; now rewrite trim_idempotent).
      rewrite Hb. reflexivity.
Qed.

(* ================================================================== *)
(** ** Users *)
(* ================================================================== *)

Import Users.

Lemma has_user_In (email : string) (t : list UserRow) :
  has_user email t = true <-> In email (map u_email t).
Proof.
  unfold has_user. rewrite existsb_exists, in_map_iff.
  split; intros (u & H1 & H2).
  - exists u. split; [now apply String.eqb_eq|exact H1].
  - exists u. split; [exact H2|now apply String.eqb_eq].
Qed.

Lemma post_users_ok (e : Env) (email role : option string)
      (t t' : list UserRow) (data : string * string) :
  post_users e email role t = (ok data, t') ->
  exists em ro,
    email = Some em /\ role = Some ro /\ em <> "" /\ ro <> ""
    /\ data = (em, ro)
    /\ has_user em t = false
    /\ mem ro CHECK_role = true
    /\ t' = (t ++ [mkUserRow em ro (sysutc e)])%list.
Proof.
  unfold post_users.
  destruct (negb (truthy email) || negb (truthy role))%bool eqn:Hreq;
    [discriminate|].
  apply orb_false_elim in Hreq as [He Hr].
  apply negb_false_iff in He, Hr.
  destruct email as [em|]; [|discriminate].
  destruct role as [ro|]; [|discriminate].
  cbn [nullish].
  destruct (has_user em t) eqn:Hhas; [discriminate|].
  destruct (mem ro CHECK_role) eqn:Hchk; cbn [negb]; [|discriminate].
  intros [= <- <-]. exists em, ro.
  cbn in He, Hr.
  repeat split; try reflexivity; try assumption.
  - intros ->. discriminate.
  - intros ->. discriminate.
Qed.

(** X21.  A user that was created is found: the call succeeds only for
    an address that was not stored and a role of the seven, and afterwards
    the look-up of the address gives the new row, [getUserRole] gives the
    role, and the look-up of every other address is as before. *)
Theorem created_user_is_found (e : Env) (email role : option string)
        (t t' : list UserRow) (data : string * string) :
  post_users e email role t = (ok data, t') ->
  exists em ro,
    email = Some em /\ role = Some ro /\ data = (em, ro)
    /\ get_user em t = None
    /\ mem ro CHECK_role = true
    /\ get_user em t' = Some (mkUserRow em ro (sysutc e))
    /\ getUserRole em t' = ro
    /\ (forall other, other <> em -> get_user other t' = get_user other t).
Proof.
  intros H. apply post_users_ok in H
    as (em & ro & -> & -> & Hem & Hro & -> & Hhas & Hchk & ->).
  exists em, ro.
  assert (Hnone : get_user em t = None)
    by (apply existsb_false_find; exact Hhas).
  assert (Hget : get_user em (t ++ [mkUserRow em ro (sysutc e)])
                 = Some (mkUserRow em ro (sysutc e))).
  { apply find_app_none; [exact Hnone|]. cbn. apply String.eqb_refl. }
  repeat split; try assumption.
  - unfold getUserRole. rewrite Hget. cbn.
    now destruct (String.eqb_spec ro "").
  - intros other Hne. apply find_app_other. cbn.
    now apply String.eqb_neq.
Qed.

Lemma created_user_is_found_witness :
  exists t',
    post_users Sample.env (Some Sample.secretary) (Some "secretary") []
    = (ok (Sample.secretary, "secretary"), t')
    /\ getUserRole Sample.secretary t' = "secretary".
Proof.
  eexists. split; [reflexivity|].
  destruct (created_user_is_found
              Sample.env (Some Sample.secretary) (Some "secretary") [] _ _
              eq_refl)
    as (em & ro & Hem & Hro & _ & _ & _ & _ & Hrole & _).
  injection Hem as <-. injection Hro as <-. exact Hrole.
Defined.

Lemma post_users_fail (e : Env) (email role : option string)
      (t t' : list UserRow) (status : Z) (message : string) :
  post_users e email role t = (fail status message, t') -> t' = t.
Proof.
  unfold post_users.
  destruct (_ || _)%bool; [now intros [= _ _ <-]|].
  destruct (has_user _ t); [now intros [= _ _ <-]|].
  destruct (negb _); [now intros [= _ _ <-]|discriminate].
Qed.

Lemma filter_keeps_distinct {A K} (key : A -> K) (keep : A -> bool)
      (t : list A) :
  NoDup (map key t) -> NoDup (map key (filter keep t)).
Proof.
  induction t as [|a t IH]; cbn; intros Hnd; [constructor|].
  apply NoDup_cons_iff in Hnd as [Hnot Hnd].
  destruct (keep a); cbn; [|now apply IH].
  constructor; [|now apply IH].
  intros Hin. apply Hnot. apply in_map_iff in Hin as (b & Hb & Hin).
  apply filter_In in Hin as [Hin _]. apply in_map_iff. eauto.
Qed.

(** X22.  The users endpoints keep the table's primary key and CHECK
    constraint: after a creation or a deletion every address is stored at
    most once and every role is one of the seven.  A creation that is
    answered with an error (a stored address, a role outside the seven, a
    missing field) leaves the table as it was. *)
Theorem users_stay_well_formed (e : Env) (email role : option string)
        (gone : string) (t : list UserRow) :
  users_well_formed t ->
  users_well_formed (snd (post_users e email role t))
  /\ (forall status message,
         fst (post_users e email role t) = fail status message ->
         snd (post_users e email role t) = t)
  /\ users_well_formed (snd (delete_user gone t)).
Proof.
  intros [Hnd Hall].
  destruct (post_users e email role t) as [[data|st m] t'] eqn:Hp;
    cbn [fst snd].
  - apply post_users_ok in Hp
      as (em & ro & _ & _ & _ & _ & _ & Hhas & Hchk & ->).
    split; [|split; [discriminate|]].
    + split.
      * rewrite map_app. cbn. apply NoDup_app_one; [exact Hnd|].
        intros Hin. apply has_user_In in Hin. congruence.
      * apply Forall_app. split; [exact Hall|]. now constructor.
    + split; [now apply filter_keeps_distinct|].
      apply Forall_forall. intros u Hu. apply filter_In in Hu as [Hu _].
      rewrite Forall_forall in Hall. now apply Hall.
  - apply post_users_fail in Hp. subst t'.
    split; [now split|]. split; [reflexivity|].
    split; [now apply filter_keeps_distinct|].
    apply Forall_forall. intros u Hu. apply filter_In in Hu as [Hu _].
    rewrite Forall_forall in Hall. now apply Hall.
Qed.

Lemma users_stay_well_formed_witness :
  users_well_formed Sample.two_users
  /\ users_well_formed
       (snd (post_users Sample.env (Some "it@premierenergies.com")
                        (Some "it") Sample.two_users))
  /\ snd (post_users Sample.env (Some Sample.secretary) (Some "admin")
                     Sample.two_users)
     = Sample.two_users.
Proof.
  assert (Hw : users_well_formed Sample.two_users).
  { split; [|repeat constructor].
    repeat constructor; cbn; intuition discriminate. }
  split; [exact Hw|]. split.
  - exact (proj1 (users_stay_well_formed
                    Sample.env (Some "it@premierenergies.com") (Some "it")
                    "" Sample.two_users Hw)).
  - exact (proj1 (proj2 (users_stay_well_formed
                           Sample.env (Some Sample.secretary) (Some "admin")
                           "" Sample.two_users Hw))
                 500 "Failed to create user" eq_refl).
Defined.

Lemma find_filter_gone (gone : string) (t : list UserRow) :
  find (fun u => u_email u =? gone)
       (filter (fun u => negb (u_email u =? gone)) t) = None.
Proof.
  induction t as [|u t IH]; cbn; [reflexivity|].
  destruct (u_email u =? gone) eqn:Hu; cbn; [exact IH|].
  now rewrite Hu.
Qed.

Lemma find_filter_other (gone other : string) (t : list UserRow) :
  other <> gone ->
  find (fun u => u_email u =? other)
       (filter (fun u => negb (u_email u =? gone)) t)
  = find (fun u => u_email u =? other) t.
Proof.
  intros Hne. induction t as [|u t IH]; cbn; [reflexivity|].
  destruct (String.eqb_spec (u_email u) gone) as [Hu|Hu]; cbn.
  - destruct (String.eqb_spec (u_email u) other) as [Ho|_]; [|exact IH].
    congruence.
  - now rewrite IH.
Qed.

Lemma filter_absent (gone : string) (t : list UserRow) :
  has_user gone t = false ->
  filter (fun u => negb (u_email u =? gone)) t = t.
Proof.
  unfold has_user. induction t as [|u t IH]; cbn; [reflexivity|].
  intros H. apply orb_false_elim in H as [Hu Ht].
  rewrite Hu. cbn. now rewrite IH.
Qed.

(** X23.  After a deletion the address is not found and [getUserRole]
    falls back to "requestor"; every other address is found as before,
    and the deletion of an address that is not stored changes nothing
    (it is still answered ok). *)
Theorem deleted_user_falls_back (gone : string) (t : list UserRow) :
  fst (delete_user gone t) = ok gone
  /\ get_user gone (snd (delete_user gone t)) = None
  /\ getUserRole gone (snd (delete_user gone t)) = "requestor"
  /\ (forall other, other <> gone ->
                    get_user other (snd (delete_user gone t))
                    = get_user other t)
  /\ (get_user gone t = None -> snd (delete_user gone t) = t).
Proof.
  unfold delete_user, getUserRole, get_user. cbn [fst snd].
  rewrite find_filter_gone. repeat split.
  - intros other Hne. now apply find_filter_other.
  - intros Hnone. apply filter_absent.
    unfold has_user.
    destruct (existsb (fun u => u_email u =? gone) t) eqn:Hex;
      [|reflexivity].
    apply existsb_find_some in Hex as (x & Hx & _). congruence.
Qed.

(* ================================================================== *)
(** ** The IT dashboard and completion *)
(* ================================================================== *)

Import ITDashboard.







(** X26.  [markRequestCompleted] is not atomic: when the history insert
    fails (an entry of the request already carries the client's current
    millisecond) the function throws, after the status has been set to
    completed and with no history entry written. *)
Theorem completion_can_fail_halfway
        (requestId completedBy : string) (e : Env) (w : World)
        (r : RequestRow) :
  requestId <> "" -> completedBy <> "" ->
  find_request requestId (db w) = Some r ->
  existsb (history_key requestId (client_now e)) (HistoryLogs (db w))
  = true ->
  exists w',
    markRequestCompleted requestId completedBy e w
    = (Throw "Failed to save history log", w')
    /\ stored_status requestId w' = Some "completed"
    /\ HistoryLogs (db w') = HistoryLogs (db w).
Proof.
  intros Hrid Hby Hfind Hcoll.
  destruct (updateRequestStatus_sets requestId "completed" e w r
              ltac:(discriminate) eq_refl Hfind)
    as (w1 & Hupd & Hst).
  destruct (updateRequestStatus_frame _ _ _ _ _ _ Hupd)
    as (_ & _ & Hhist & _).
  exists w1. split; [|split; assumption].
  unfold markRequestCompleted, bind at 1, http_get, get_request.
  rewrite Hfind. unfold bind at 1, toISO. unfold bind at 1.
  rewrite Hupd.
  unfold saveHistoryLog, bind, http, ret, post_history, insert_history.
  cbn [hb_requestId hb_action hb_user hb_timestamp hb_metadata
       log_requestId log_action log_user log_timestamp log_metadata
       h_requestId h_timestamp].
  rewrite (truthy_some _ Hrid), (truthy_some _ Hby).
  cbn [truthy String.eqb Ascii.eqb Bool.eqb negb orb nullish
       h_requestId h_timestamp].
  now rewrite Hhist, Hcoll.
Qed.

Lemma completion_can_fail_halfway_witness :
  exists w',
    markRequestCompleted "N_01012025_001" "it@premierenergies.com"
                         Sample.env Sample.logged_this_instant
    = (Throw "Failed to save history log", w')
    /\ stored_status "N_01012025_001" w' = Some "completed".
Proof.
  destruct (completion_can_fail_halfway
              "N_01012025_001" "it@premierenergies.com" Sample.env
              Sample.logged_this_instant
              (Sample.request_row "plant" "pending-secretary")
              ltac:(discriminate) ltac:(discriminate) eq_refl eq_refl)
    as (w' & H1 & H2 & _).
  exists w'. split; assumption.
Defined.

(* ================================================================== *)
(** ** The paired lists of the plant form *)
(* ================================================================== *)

Import PlantPairs.

Lemma split_newline_nonempty (s : string) : split_newline s <> [].
Proof.
  induction s as [|c r IH]; cbn [split_newline]; [discriminate|].
  destruct (Ascii.eqb c newline_char); [discriminate|].
  destruct (split_newline r); discriminate.
Qed.

Lemma split_newline_app (a b : string) :
  split_newline (a ++ newline ++ b)
  = (split_newline a ++ split_newline b)%list.
Proof.
  induction a as [|c r IH].
  - cbn. reflexivity.
  - change (String c r ++ newline ++ b) with (String c (r ++ newline ++ b)).
    cbn [split_newline]. rewrite IH.
    destruct (Ascii.eqb c newline_char); [reflexivity|].
    pose proof (split_newline_nonempty r) as Hne.
    destruct (split_newline r) as [|h t]; [congruence|reflexivity].
Qed.

Lemma lines_app (a b : string) :
  lines (a ++ newline ++ b) = (lines a ++ lines b)%list.
Proof. unfold lines. now rewrite split_newline_app, filter_app. Qed.

Lemma split_newline_of_line (s : string) :
  includes_char newline_char s = false -> split_newline s = [s].
Proof.
  induction s as [|c r IH]; cbn [split_newline includes_char];
    [reflexivity|].
  intros H. apply orb_false_elim in H as [Hc Hr].
  rewrite Hc, (IH Hr). reflexivity.
Qed.

Lemma lines_of_line (s : string) : is_line s -> lines s = [s].
Proof.
  intros [Hne Hnl]. unfold lines. rewrite (split_newline_of_line s Hnl).
  cbn. now destruct (String.eqb_spec s "").
Qed.

Lemma split_newline_pieces (s : string) :
  Forall (fun l => includes_char newline_char l = false) (split_newline s).
Proof.
  induction s as [|c r IH]; cbn [split_newline]; [repeat constructor|].
  destruct (Ascii.eqb c newline_char) eqn:Hc; [now constructor|].
  destruct (split_newline r) as [|h t];
    [repeat constructor; cbn [includes_char]|].
  - now rewrite Hc.
  - apply Forall_cons_iff in IH as [Hh Ht]. constructor; [|exact Ht].
    cbn [includes_char]. now rewrite Hc, Hh.
Qed.

Lemma lines_are_lines (s : string) : Forall is_line (lines s).
Proof.
  unfold lines. apply Forall_forall. intros l Hl.
  apply filter_In in Hl as [Hin Hne].
  pose proof (split_newline_pieces s) as Hall.
  rewrite Forall_forall in Hall. split; [|now apply Hall].
  intros ->. discriminate.
Qed.

Lemma lines_join (l : list string) :
  Forall is_line l -> lines (join_newline l) = l.
Proof.
  induction 1 as [|x r Hx Hr IH]; [reflexivity|].
  destruct r as [|y r]; [now apply lines_of_line|].
  change (join_newline (x :: y :: r))
    with (x ++ newline ++ join_newline (y :: r)).
  now rewrite lines_app, IH, (lines_of_line x Hx).
Qed.

Lemma splice1_Forall {A} (P : A -> Prop) (i : nat) (l : list A) :
  Forall P l -> Forall P (splice1 i l).
Proof.
  intros H. revert i. induction H as [|x l Hx Hl IH]; intros i;
    [destruct i; constructor|].
  destruct i; cbn; [exact Hl|]. constructor; [exact Hx|apply IH].
Qed.

Lemma splice1_nil {A} (i : nat) : splice1 i (@nil A) = [].
Proof. now destruct i. Qed.

Lemma splice1_map {A B} (f : A -> B) (i : nat) (l : list A) :
  splice1 i (map f l) = map f (splice1 i l).
Proof.
  revert i. induction l as [|x l IH]; intros i; [now destruct i|].
  destruct i; cbn; [reflexivity|]. now rewrite IH.
Qed.

Lemma zip_pad_splice1 (i : nat) (a b : list string) :
  zip_pad (splice1 i a) (splice1 i b) = splice1 i (zip_pad a b).
Proof.
  revert i b. induction a as [|x a IH]; intros i b.
  - rewrite splice1_nil. cbn [zip_pad]. now rewrite splice1_map.
  - destruct b as [|y b], i as [|k]; cbn [splice1 zip_pad].
    + reflexivity.
    + specialize (IH k []). rewrite splice1_nil in IH. now rewrite IH.
    + reflexivity.
    + now rewrite IH.
Qed.

Lemma zip_pad_length (a b : list string) :
  List.length (zip_pad a b) = Nat.max (List.length a) (List.length b).
Proof.
  revert b. induction a as [|x a IH]; intros b; cbn [zip_pad].
  - now rewrite length_map.
  - destruct b as [|y b]; cbn [List.length]; rewrite IH; cbn; lia.
Qed.

(** X27.  [removePair] removes the pair at the index from the list the
    form shows, and nothing else: for an index inside the list the pairs
    afterwards are the pairs before without the one at the index, and for
    any other index (negative, or past the end) the two fields are left
    untouched. *)
Theorem removePair_removes_the_indexed_pair (prev : Fields) (index : Z) :
  (0 <= index < Z.of_nat (List.length (pairs_of prev)) ->
   pairs_of (removePair prev index)
   = splice1 (Z.to_nat index) (pairs_of prev)
   /\ List.length (pairs_of (removePair prev index))
      = (List.length (pairs_of prev) - 1)%nat)
  /\ (~ 0 <= index < Z.of_nat (List.length (pairs_of prev)) ->
      removePair prev index = prev).
Proof.
  unfold pairs_of, listPairs, removePair.
  rewrite zip_pad_length.
  set (codes := lines (fst prev)). set (names := lines (snd prev)).
  set (n := Nat.max (List.length codes) (List.length names)).
  split; intros Hi.
  - destruct (Z.ltb_spec index 0) as [Hneg|_]; [lia|].
    destruct (Z.leb_spec (Z.of_nat n) index) as [Hbig|_]; [lia|].
    cbn [orb fst snd].
    rewrite !lines_join
      by (apply splice1_Forall, lines_are_lines).
    assert (Heq : zip_pad (splice1 (Z.to_nat index) codes)
                          (splice1 (Z.to_nat index) names)
                  = splice1 (Z.to_nat index) (zip_pad codes names))
      by apply zip_pad_splice1.
    split; [exact Heq|].
    rewrite Heq.
    assert (Hlen : forall (l : list (string * string)) k,
               (k < List.length l)%nat ->
               List.length (splice1 k l) = (List.length l - 1)%nat).
    { induction l as [|x l IH]; intros k Hk; cbn in Hk; [lia|].
      destruct k; cbn; [lia|]. rewrite IH by lia.
      destruct l; cbn in *; lia. }
    rewrite Hlen; rewrite zip_pad_length; fold n; lia.
  - destruct (Z.ltb_spec index 0) as [Hneg|Hpos]; [reflexivity|].
    destruct (Z.leb_spec (Z.of_nat n) index) as [Hbig|Hsmall];
      [reflexivity|lia].
Qed.

Lemma zip_pad_app_one (a b : list string) (x y : string) :
  List.length a = List.length b ->
  zip_pad (a ++ [x]) (b ++ [y]) = (zip_pad a b ++ [(x, y)])%list.
Proof.
  revert b. induction a as [|h a IH]; intros [|k b] Hlen;
    try discriminate; cbn; [reflexivity|].
  injection Hlen as Hlen. now rewrite (IH b Hlen).
Qed.

Lemma lines_empty_app (s t : string) :
  lines (if s =? "" then t else s ++ newline ++ t)
  = (lines s ++ lines t)%list.
Proof.
  destruct (String.eqb_spec s "") as [->|_]; [reflexivity|].
  apply lines_app.
Qed.

(** X28.  [appendPair] adds the pair at the end of the list the form
    shows.  When the code or the name is blank nothing changes.
    Otherwise, for a code and a name on one line each and two fields that
    hold as many lines each, the pairs afterwards are the pairs before
    followed by the trimmed code with the trimmed name, and the two fields
    still hold as many lines each. *)
Theorem appendPair_adds_the_last_pair (prev : Fields) (code name : string) :
  (blank code = true \/ blank name = true ->
   appendPair prev code name = prev)
  /\ (blank code = false -> blank name = false ->
      includes_char newline_char (trim code) = false ->
      includes_char newline_char (trim name) = false ->
      paired prev ->
      pairs_of (appendPair prev code name)
      = (pairs_of prev ++ [(trim code, trim name)])%list
      /\ paired (appendPair prev code name)).
Proof.
  unfold appendPair. split.
  - intros [H|H]; apply trim_blank in H; rewrite H; cbn;
      [reflexivity|now rewrite orb_true_r].
  - intros Hc Hn Hcl Hnl Hp.
    assert (Hc' : trim code <> "")
      by (intros H; apply trim_blank in H; congruence).
    assert (Hn' : trim name <> "")
      by (intros H; apply trim_blank in H; congruence).
    destruct (String.eqb_spec (trim code) ""); [contradiction|].
    destruct (String.eqb_spec (trim name) ""); [contradiction|].
    cbn [orb]. unfold pairs_of, paired, listPairs in *. cbn [fst snd].
    rewrite !lines_empty_app.
    rewrite (lines_of_line (trim code)) by (split; assumption).
    rewrite (lines_of_line (trim name)) by (split; assumption).
    split; [now apply zip_pad_app_one|].
    rewrite !List.length_app. cbn. lia.
Qed.

Lemma appendPair_adds_the_last_pair_witness :
  pairs_of (appendPair ("CC01", "Cost")
                       (Sample.spaces ++ "CC02" ++ Sample.spaces) "Assembly")
  = [("CC01", "Cost"); ("CC02", "Assembly")]
  /\ appendPair ("CC01", "Cost") "CC02" Sample.spaces = ("CC01", "Cost").
Proof.
  split.
  - now rewrite (proj1 (proj2 (appendPair_adds_the_last_pair
                                 ("CC01", "Cost")
                                 (Sample.spaces ++ "CC02" ++ Sample.spaces)
                                 "Assembly")
                              eq_refl eq_refl eq_refl eq_refl eq_refl)).
  - apply (proj1 (appendPair_adds_the_last_pair
                    ("CC01", "Cost") "CC02" Sample.spaces)).
    right. reflexivity.
Defined.

(* ================================================================== *)
(** ** The plant form, end to end *)
(* ================================================================== *)

Lemma post_requests_frame (e : Env) (b : RequestBody) (w : World) :
  PlantCodeDetails (db (snd (post_requests e b w))) = PlantCodeDetails (db w)
  /\ Approvals (db (snd (post_requests e b w))) = Approvals (db w).
Proof.
  unfold post_requests.
  destruct (_ || _)%bool; [split; reflexivity|].
  assert (Hgen : forall g d1,
             (if truthy (rb_requestId b)
              then (Return (nullish (rb_requestId b) ""), db w)
              else generateRequestId e (rb_ncType b) (db w)) = (g, d1) ->
             PlantCodeDetails d1 = PlantCodeDetails (db w)
             /\ Approvals d1 = Approvals (db w)).
  { intros g d1. destruct (truthy (rb_requestId b)).
    - intros [= _ <-]. split; reflexivity.
    - intros Hg.
      pose proof (generateRequestId_tables e (rb_ncType b) (db w)) as Ht.
      rewrite Hg in Ht. cbn [snd] in Ht.
      destruct Ht as (_ & H2 & H3 & _). now split. }
  destruct (if truthy (rb_requestId b) then _ else _) as [g d1] eqn:Hg.
  specialize (Hgen g d1 eq_refl).
  destruct g as [rid|m]; [|exact Hgen].
  destruct (upsert_request _ _ _ _ _ _ _ _ _) as [t|m]; [|exact Hgen].
  match goal with
  | |- context [if ?c then _ else _] => destruct c
  end; cbn [snd]; rewrite ?db_try_mail;
    cbn [db with_db set_Requests PlantCodeDetails Approvals]; exact Hgen.
Qed.

Lemma checked_nonempty (s : string) (l : list string) :
  mem "" l = false -> mem s l = true -> s <> "".
Proof. intros Hl Hs ->. congruence. Qed.

(** A save without an id: the server allocates the next N id. *)
Lemma saveRequest_new (request : Storage.Request) (e : Env) (w : World) :
  truthy (Storage.requestId request) = false ->
  Storage.title request <> "" -> Storage.createdBy request <> "" ->
  mem (Storage.type request) CHECK_type = true ->
  mem (Storage.status request) CHECK_status = true ->
  exists w',
    saveRequest request e w = (Return tt, w')
    /\ stored_status (id_text "N" (today112 e)
                              (next_seq "N" (today112 e) (db w))) w'
       = Some (Storage.status request)
    /\ next_seq "N" (today112 e) (db w')
       = next_seq "N" (today112 e) (db w) + 1
    /\ PlantCodeDetails (db w') = PlantCodeDetails (db w)
    /\ HistoryLogs (db w') = HistoryLogs (db w).
Proof.
  intros Hid Hti Hcb Hty Hst.
  pose proof (checked_nonempty _ CHECK_type eq_refl Hty) as Hty'.
  pose proof (checked_nonempty _ CHECK_status eq_refl Hst) as Hst'.
  set (b := mkRequestBody (Storage.requestId request)
                          (Some (Storage.type request))
                          (Some (Storage.title request))
                          (Some (Storage.status request))
                          (Some (Storage.createdBy request))
                          (Some (nullish (Storage.createdAt request)
                                         (client_now e)))
                          (Some (nullish (Storage.updatedAt request)
                                         (client_now e)))
                          None).
  assert (Hpost : exists w',
             post_requests e b w
             = (ok (id_text "N" (today112 e)
                            (next_seq "N" (today112 e) (db w))), w')
             /\ next_seq "N" (today112 e) (db w')
                = next_seq "N" (today112 e) (db w) + 1).
  { unfold post_requests, b.
    cbn [rb_requestId rb_type rb_title rb_status rb_createdBy rb_createdAt
         rb_updatedAt rb_ncType].
    rewrite Hid, (truthy_some _ Hty'), (truthy_some _ Hti),
      (truthy_some _ Hst'), (truthy_some _ Hcb).
    cbn [negb orb nullish].
    destruct (generateRequestId_run e None (db w))
      as (d1 & Hrun & _ & Hnext & _).
    cbn [is_C] in Hrun, Hnext. rewrite Hrun.
    unfold upsert_request. rewrite Hty, Hst. cbn [andb].
    destruct (has_request _ (Requests d1));
      match goal with
      | |- context [if ?c then _ else _] => destruct c
      end; eexists; (split; [reflexivity|]);
      unfold next_seq, counter_value in *; rewrite ?db_try_mail;
      cbn [db with_db set_Requests RequestIdCounters]; exact Hnext. }
  destruct Hpost as (w' & Hpost & Hnext).
  exists w'. split; [|split; [|split; [exact Hnext|]]].
  - unfold saveRequest, bind, toISO, http, ret. fold b. now rewrite Hpost.
  - rewrite (post_requests_stores_status _ _ _ _ _ Hpost). reflexivity.
  - pose proof (post_requests_frame e b w) as [Hp _].
    pose proof (post_requests_keeps_history e b w) as Hh.
    rewrite Hpost in Hp, Hh. cbn [snd] in Hp, Hh. now split.
Qed.

(** A save under the id of a stored request. *)
Lemma saveRequest_existing (request : Storage.Request) (rid : string)
      (e : Env) (w : World) (r : RequestRow) :
  Storage.requestId request = Some rid -> rid <> "" ->
  Storage.title request <> "" -> Storage.createdBy request <> "" ->
  mem (Storage.type request) CHECK_type = true ->
  mem (Storage.status request) CHECK_status = true ->
  find_request rid (db w) = Some r ->
  exists w',
    saveRequest request e w = (Return tt, w')
    /\ find_request rid (db w')
       = Some (mkRequestRow rid (Storage.type request)
                            (Storage.title request)
                            (Storage.status request)
                            (Storage.createdBy request) (r_createdAt r)
                            (nullish (Storage.updatedAt request)
                                     (client_now e)))
    /\ PlantCodeDetails (db w') = PlantCodeDetails (db w)
    /\ HistoryLogs (db w') = HistoryLogs (db w).
Proof.
  intros Hid Hrid Hti Hcb Hty Hst Hfind.
  pose proof (checked_nonempty _ CHECK_type eq_refl Hty) as Hty'.
  pose proof (checked_nonempty _ CHECK_status eq_refl Hst) as Hst'.
  set (b := mkRequestBody (Storage.requestId request)
                          (Some (Storage.type request))
                          (Some (Storage.title request))
                          (Some (Storage.status request))
                          (Some (Storage.createdBy request))
                          (Some (nullish (Storage.createdAt request)
                                         (client_now e)))
                          (Some (nullish (Storage.updatedAt request)
                                         (client_now e)))
                          None).
  assert (Hpost : exists w', post_requests e b w = (ok rid, w')).
  { unfold post_requests, b.
    cbn [rb_requestId rb_type rb_title rb_status rb_createdBy rb_createdAt
         rb_updatedAt rb_ncType].
    rewrite Hid, (truthy_some _ Hrid), (truthy_some _ Hty'),
      (truthy_some _ Hti), (truthy_some _ Hst'), (truthy_some _ Hcb).
    cbn [negb orb nullish].
    unfold upsert_request, has_request.
    unfold find_request in Hfind.
    rewrite (find_existsb _ _ _ Hfind), Hty, Hst.
    cbn [andb].
    match goal with
    | |- context [if ?c then _ else _] => destruct c
    end; eexists; reflexivity. }
  destruct Hpost as (w' & Hpost).
  exists w'. split; [|split].
  - unfold saveRequest, bind, toISO, http, ret. fold b. now rewrite Hpost.
  - unfold find_request in *.
    rewrite (post_requests_existing e b w w' rid r Hid Hfind Hpost).
    rewrite (find_map_stable (fun x => r_requestId x =? rid))
      by (intros a; now destruct (r_requestId a =? rid) eqn:Ha).
    rewrite Hfind. cbn [option_map].
    apply find_some in Hfind as [_ Hr]. rewrite Hr.
    apply String.eqb_eq in Hr. now rewrite Hr.
  - pose proof (post_requests_frame e b w) as [Hp _].
    pose proof (post_requests_keeps_history e b w) as Hh.
    rewrite Hpost in Hp, Hh. cbn [snd] in Hp, Hh. now split.
Qed.

(** X29.  With [saveRequest] as storage.ts has it (it returns nothing and
    leaves [ncType] out of the body), a new submission and a change
    request of the plant form both stop after their first step: the
    request row is stored, as pending-siva and under the next N id of the
    day even for a change request, and then the form fails for want of the
    generated id, so no details row and no history entry is written. *)
Theorem new_submission_stops_after_the_request
        (p : FormProps.Props) (s : PlantCodeForm.State) (metadata : Json)
        (e : Env) (w : World) :
  PlantCodeForm.validateForm (PlantCodeForm.formData s) = true ->
  FormProps.editing p = false ->
  (FormProps.isChangeRequest p = true ->
   PlantCodeForm.showConfirmation s = true) ->
  FormProps.userEmail p <> "" ->
  exists w',
    PlantCodeForm.handleSubmit p s metadata e w
    = (PlantCodeForm.save_failed, w')
    /\ stored_status (id_text "N" (today112 e)
                              (next_seq "N" (today112 e) (db w))) w'
       = Some "pending-siva"
    /\ next_seq "N" (today112 e) (db w')
       = next_seq "N" (today112 e) (db w) + 1
    /\ PlantCodeDetails (db w') = PlantCodeDetails (db w)
    /\ HistoryLogs (db w') = HistoryLogs (db w).
Proof.
  intros Hvalid Hedit Hconf Hmail.
  assert (Htitle : PlantCodeForm.title_of p (PlantCodeForm.formData s) <> "")
    by (unfold PlantCodeForm.title_of;
        destruct (FormProps.isChangeRequest p); discriminate).
  destruct (saveRequest_new
              (Storage.mkRequest
                 None "plant"
                 (PlantCodeForm.title_of p (PlantCodeForm.formData s))
                 "pending-siva" (FormProps.userEmail p)
                 (Some (client_now e)) (Some (client_now e))
                 (Some (if FormProps.isChangeRequest p then "C" else "N")))
              e w eq_refl Htitle Hmail eq_refl eq_refl)
    as (w' & Hsave & Hst & Hnext & Hp & Hh).
  exists w'. split; [|repeat split; assumption].
  unfold PlantCodeForm.handleSubmit. rewrite Hvalid. cbn [negb].
  assert (Hgo : ((match FormProps.existingRequest p with
                  | Some _ => true
                  | None => false
                  end || FormProps.isChangeRequest p)
                 && negb (PlantCodeForm.showConfirmation s))%bool = false).
  { unfold FormProps.editing in Hedit.
    destruct (FormProps.existingRequest p),
      (FormProps.isChangeRequest p); cbn in *; try discriminate;
      try reflexivity; now rewrite Hconf. }
  rewrite Hgo.
  unfold bind at 1, toISO. unfold bind at 1.
  unfold PlantCodeForm.saveRequestStep. rewrite Hedit.
  unfold bind at 1. rewrite Hsave. reflexivity.
Qed.

Lemma new_submission_stops_after_the_request_witness :
  exists w',
    PlantCodeForm.handleSubmit Sample.change_request
                               (Sample.confirmed_form (Some 1))
                               JNull Sample.env
                               (Sample.one_request "plant" "approved")
    = (PlantCodeForm.save_failed, w')
    /\ map r_requestId (Requests (db w'))
       = ["N_01012025_001"; "N_01012025_002"]
    /\ PlantCodeDetails (db w') = [].
Proof.
  destruct (new_submission_stops_after_the_request
              Sample.change_request (Sample.confirmed_form (Some 1)) JNull
              Sample.env (Sample.one_request "plant" "approved")
              eq_refl eq_refl ltac:(reflexivity) ltac:(discriminate))
    as (w' & H1 & _ & _ & H4 & _).
  exists w'. split; [exact H1|]. split; [|exact H4].
  vm_compute in H1. injection H1 as <-. reflexivity.
Defined.

(** X30.  The resubmission of a stored request through the plant form
    does not go through on the details table of the DDL, and it is not
    atomic.  With a valid, confirmed form the request row is rewritten
    first -- pending-siva, the form's title, the caller as creator, the
    creation time kept -- and then the details write is answered with an
    error, so the form reports failure: no details row is written and no
    history entry, and the status change stays. *)
Theorem edit_submission_fails_at_the_details_write
        (p : FormProps.Props) (s : PlantCodeForm.State) (metadata : Json)
        (e : Env) (w : World) (x : FormProps.ExistingRequest)
        (rid : string) (r : RequestRow) :
  PlantCodeForm.validateForm (PlantCodeForm.formData s) = true ->
  FormProps.existingRequest p = Some x ->
  FormProps.isChangeRequest p = false ->
  PlantCodeForm.showConfirmation s = true ->
  FormProps.baseId p = Some rid -> rid <> "" ->
  FormProps.userEmail p <> "" ->
  find_request rid (db w) = Some r ->
  exists w',
    PlantCodeForm.handleSubmit p s metadata e w
    = (PlantCodeForm.save_failed, w')
    /\ find_request rid (db w')
       = Some (mkRequestRow
                 rid "plant"
                 (PlantCodeForm.title_of p (PlantCodeForm.formData s))
                 "pending-siva" (FormProps.userEmail p) (r_createdAt r)
                 (client_now e))
    /\ PlantCodeDetails (db w') = PlantCodeDetails (db w)
    /\ HistoryLogs (db w') = HistoryLogs (db w).
Proof.
  intros Hvalid Hex Hchange Hconf Hbase Hrid Hmail Hfind.
  assert (Htitle : PlantCodeForm.title_of p (PlantCodeForm.formData s) <> "")
    by (unfold PlantCodeForm.title_of;
        destruct (FormProps.isChangeRequest p); discriminate).
  destruct (saveRequest_existing
              (Storage.mkRequest
                 (Some rid) "plant"
                 (PlantCodeForm.title_of p (PlantCodeForm.formData s))
                 "pending-siva" (FormProps.userEmail p)
                 (Some (FormProps.createdAt_or p (client_now e)))
                 (Some (client_now e)) None)
              rid e w r eq_refl Hrid Htitle Hmail eq_refl eq_refl Hfind)
    as (w1 & Hsave & Hfind1 & Hp1 & Hh1).
  cbn [Storage.type Storage.title Storage.status Storage.createdBy
       Storage.updatedAt nullish] in Hfind1.
  assert (Hdet : exists m w2,
             savePlantCodeDetails
               (PlantCodeForm.details_of
                  rid (PlantCodeForm.formData s)
                  (FormProps.nextVersion p (PlantCodeForm.latestVersion s)))
               e w1 = (Throw m, w2)
             /\ db w2 = db w1).
  { unfold savePlantCodeDetails, bind, http, ret.
    rewrite post_plant_details_answer.
    destruct (first_missing _); eexists _, _; split; reflexivity. }
  destruct Hdet as (m & w2 & Hdet & Hdb).
  exists w2. split; [|rewrite Hdb; repeat split; assumption].
  unfold PlantCodeForm.handleSubmit. rewrite Hvalid, Hex, Hconf.
  cbn [negb orb andb].
  unfold bind at 1, toISO. unfold bind at 1.
  unfold PlantCodeForm.saveRequestStep, FormProps.editing.
  rewrite Hex, Hchange, Hbase. cbn [negb FormProps.String_of].
  unfold bind at 1. rewrite Hsave. unfold ret at 1.
  rewrite (truthy_some _ Hrid). cbn [negb nullish].
  unfold bind at 1. now rewrite Hdet.
Qed.

Lemma edit_submission_fails_witness :
  exists w',
    PlantCodeForm.handleSubmit Sample.edit_request
                               (Sample.confirmed_form (Some 2))
                               JNull Sample.env Sample.with_details
    = (PlantCodeForm.save_failed, w')
    /\ stored_status "N_01012025_001" w' = Some "pending-siva"
    /\ map p_version (PlantCodeDetails (db w')) = [2].
Proof.
  destruct (edit_submission_fails_at_the_details_write
              Sample.edit_request (Sample.confirmed_form (Some 2)) JNull
              Sample.env Sample.with_details Sample.existing
              "N_01012025_001"
              (Sample.request_row "plant" "pending-secretary")
              eq_refl eq_refl eq_refl eq_refl eq_refl ltac:(discriminate)
              ltac:(discriminate) eq_refl)
    as (w' & H1 & H2 & H3 & _).
  exists w'. split; [exact H1|]. split.
  - unfold stored_status. now rewrite H2.
  - now rewrite H3.
Defined.

(* ================================================================== *)
(** ** The read-back properties on sample data *)
(* ================================================================== *)

Lemma latest_is_highest_version_witness :
  exists p,
    get_plant_latest "N_01012025_001" (db Sample.with_details) = Some p
    /\ p_requestId p = "N_01012025_001"
    /\ hd_error (get_plant_details "N_01012025_001"
                                   (db Sample.with_details)) = Some p.
Proof.
  destruct (get_plant_latest "N_01012025_001" (db Sample.with_details))
    as [p|] eqn:Hp; [|vm_compute in Hp; discriminate].
  exists p. split; [reflexivity|].
  destruct (proj2 (latest_is_highest_version
                     "N_01012025_001" (db Sample.with_details)) p Hp)
    as (_ & Hid & _ & Hhd).
  split; assumption.
Defined.

Lemma versions_listed_descending_witness :
  map p_version (get_plant_details "N_01012025_001"
                                   (db Sample.with_details)) = [2]
  /\ sortedVersions (map snapshot_of
                         (get_plant_details "N_01012025_001"
                                            (db Sample.with_details)))
     = map snapshot_of (get_plant_details "N_01012025_001"
                                          (db Sample.with_details)).
Proof.
  split; [reflexivity|].
  exact (proj1 (proj2 (proj2 (versions_listed_descending
                                Sample.compare_versions "N_01012025_001"
                                "plant" (db Sample.with_details))))).
Defined.

Lemma removePair_removes_the_indexed_pair_witness :
  pairs_of (removePair ("CC01" ++ newline ++ "CC02",
                        "Cost" ++ newline ++ "Assembly") 0)
  = [("CC02", "Assembly")].
Proof.
  assert (Hin : 0 <= 0 < Z.of_nat
                  (List.length
                     (pairs_of ("CC01" ++ newline ++ "CC02",
                                "Cost" ++ newline ++ "Assembly"))))
    by (vm_compute; split; [discriminate|reflexivity]).
  now rewrite (proj1 (proj1 (removePair_removes_the_indexed_pair
                               ("CC01" ++ newline ++ "CC02",
                                "Cost" ++ newline ++ "Assembly") 0) Hin)).
Defined.

Lemma company_account_witness :
  plain Sample.spaces = true
  /\ company_account (Some Sample.spaces) = false
  /\ company_account (Some " Alice ") = true
  /\ company_account (Some "bob@example.org") = false.
Proof.
  split; [reflexivity|]. split; [|split].
  - exact (eq_trans (company_account_spec (Some Sample.spaces) eq_refl)
                    eq_refl).
  - exact (eq_trans (company_account_spec (Some " Alice ") eq_refl) eq_refl).
  - exact (eq_trans (company_account_spec (Some "bob@example.org") eq_refl)
                    eq_refl).
Defined.

Lemma login_address_witness :
  plain Sample.spaces = true
  /\ LoginPage.handleEmailSubmit ""
     = LoginPage.shows "Please enter your email address"
  /\ (exists posted,
        LoginPage.handleEmailSubmit " Alice " = LoginPage.posts posted
        /\ posted = normalizeToEmail (Some " Alice "))
  /\ (exists posted,
        LoginPage.handleEmailSubmit Sample.spaces = LoginPage.posts posted
        /\ posted = company_domain
        /\ company_account (Some posted) = true
        /\ company_account (Some Sample.spaces) = false).
Proof.
  split; [reflexivity|]. split; [|split].
  - exact (proj1 (login_address_is_kept_by_the_endpoint "" eq_refl) eq_refl).
  - destruct (proj2 (login_address_is_kept_by_the_endpoint " Alice " eq_refl))
      as (posted & Hp & _ & Hsame & _); [discriminate|].
    exists posted. split; [exact Hp|]. now apply Hsame.
  - destruct (proj2 (login_address_is_kept_by_the_endpoint
                       Sample.spaces eq_refl))
      as (posted & Hp & _ & _ & Hblank); [discriminate|].
    exists posted. split; [exact Hp|]. now apply Hblank.
Defined.

Lemma deleted_user_witness :
  getUserRole Sample.secretary
              (snd (delete_user Sample.secretary Sample.two_users))
  = "requestor"
  /\ get_user "raghu@premierenergies.com"
              (snd (delete_user Sample.secretary Sample.two_users))
     = get_user "raghu@premierenergies.com" Sample.two_users.
Proof.
  destruct (deleted_user_falls_back Sample.secretary Sample.two_users)
    as (_ & _ & Hrole & Hother & _).
  split; [exact Hrole|]. apply Hother. discriminate.
Defined.
